(** * The updater's install operations (updater/install.cpp), embedded in Rocq

    Every handler of install.cpp is a function from the operation name and
    the argument expressions to a computation over the updater's state.
    What happens outside the process (system calls, child processes, the
    package reader, the patch library, the boot-control record) is reached
    through interfaces, one class per group of headers, so that the general
    statements below hold for all behaviours of the outside world; runs on
    concrete inputs use a simulated device that implements the interfaces.
    Process logging (LOG, PLOG) never influences control flow and is left
    out. *)

From Stdlib Require Import ZArith List String Ascii Bool Lia.
From Stdlib Require Import DecimalString HexadecimalString.
Import ListNotations.

Local Open Scope Z_scope.
Local Open Scope list_scope.
Local Open Scope string_scope.

(** ** Script values and the evaluator state (edify/expr.h) *)

(** Modelled from the spec: the script value (edify/expr.h is not under
    src/), a tagged variant with the kinds absent/invalid, string and blob
    and its bytes. *)
Inductive ValueType : Set := VAL_INVALID | VAL_STRING | VAL_BLOB.

Record Value : Set := mkValue { type : ValueType; data : string }.

Definition StringValue (s : string) : Value := mkValue VAL_STRING s.

(** Modelled from the spec: the named error kinds of an abort
    (otautil/error_code.h is not under src/); these are the ones
    install.cpp passes to [ErrorAbort], and [kNoCause] for none. *)
Inductive CauseCode : Set :=
| kNoCause
| kArgsParsingFailure
| kFileOpenFailure
| kFreadFailure
| kFileGetPropFailure
| kFileRenameFailure
| kSymlinkFailure
| kSetMetadataFailure
| kTune2FsFailure
| kRebootFailure
| kPackageExtractFileFailure.

(** Modelled from the spec: the evaluator state a handler reaches (the
    message and the kind of the abort, and whether this run is a retry). *)
Record State : Set := mkState {
  errmsg : string;
  cause_code : CauseCode;
  is_retry : bool
}.

(** Modelled from the spec: the evaluator (edify/expr.cpp) is not under
    src/.  An argument expression arrives unevaluated; evaluating it yields
    a value (string, blob or invalid) or fails.  An expression is
    represented by that outcome, [None] when its evaluation fails; what the
    evaluation of an argument does before the handler takes its own steps
    is not part of the model. *)
Definition Expr : Set := option Value.

(** The updater as a handler sees it: the evaluator state, what has been
    written to the command pipe of the recovery UI (oldest first), and the
    world outside the process. *)
Record Updater (W : Type) : Type := mkUpdater {
  state : State;
  cmd_pipe : list string;
  world : W
}.
Arguments mkUpdater {W} _ _ _.
Arguments state {W} _.
Arguments cmd_pipe {W} _.
Arguments world {W} _.

(** Computations of a handler: state passing over [Updater W]. *)
Definition M (W A : Type) : Type := Updater W -> A * Updater W.

Definition ret {W A} (a : A) : M W A := fun u => (a, u).

Definition bind {W A B} (c : M W A) (k : A -> M W B) : M W B :=
  fun u => let (a, u') := c u in k a u'.

Notation "x <- c ;; k" := (bind c (fun x => k))
  (at level 61, c at next level, right associativity).
Notation "c ;;; k" := (bind c (fun _ => k))
  (at level 61, right associativity).

(** An external call that changes the world, and one that only observes it. *)
Definition call {W A} (f : W -> A * W) : M W A :=
  fun u => let (a, w) := f (world u) in (a, mkUpdater (state u) (cmd_pipe u) w).

Definition observe {W A} (f : W -> A) : M W A :=
  fun u => (f (world u), u).

Definition fprintf_cmd_pipe {W} (s : string) : M W unit :=
  fun u => (tt, mkUpdater (state u) (cmd_pipe u ++ [s])%list (world u)).

Definition get_is_retry {W} : M W bool := fun u => (is_retry (state u), u).

(** A handler. [None] is the null pointer. *)
Definition Fn (W : Type) : Type := string -> list Expr -> M W (option Value).

(** Modelled from the spec: [ErrorAbort] is the abort signal, carrying a
    named error kind and a formatted message; the handler returns null. *)
Definition ErrorAbort {W} (cause : CauseCode) (msg : string) : M W (option Value) :=
  fun u => (None, mkUpdater (mkState msg cause (is_retry (state u))) (cmd_pipe u) (world u)).

(** Modelled from the spec: evaluating an argument to a string fails when
    the evaluation fails or the value is not a string. *)
Definition Evaluate (e : Expr) : option string :=
  match e with
  | Some (mkValue VAL_STRING s) => Some s
  | _ => None
  end.

Definition EvaluateValue (e : Expr) : option Value := e.

Fixpoint all_some {A B : Type} (f : A -> option B) (l : list A) : option (list B) :=
  match l with
  | [] => Some []
  | a :: l' =>
      match f a with
      | None => None
      | Some b =>
          match all_some f l' with
          | None => None
          | Some bs => Some (b :: bs)
          end
      end
  end.

(** Modelled from the spec: [ReadArgs] and [ReadValueArgs] resolve the
    sub-range [start, start + len) of the arguments, to strings or to
    values; a range that leaves the argument list fails. *)
Definition ReadArgsRange (argv : list Expr) (start len : nat) : option (list string) :=
  if (List.length argv <? start + len)%nat then None
  else all_some Evaluate (firstn len (skipn start argv)).

Definition ReadArgs (argv : list Expr) : option (list string) :=
  ReadArgsRange argv 0 (List.length argv).

Definition ReadValueArgsRange (argv : list Expr) (start len : nat) : option (list Value) :=
  if (List.length argv <? start + len)%nat then None
  else all_some EvaluateValue (firstn len (skipn start argv)).

Definition ReadValueArgs (argv : list Expr) : option (list Value) :=
  ReadValueArgsRange argv 0 (List.length argv).

(** ** Formatting *)

(** [%d], [%zu], [std::to_string]: decimal. *)
Definition dec (z : Z) : string := DecimalString.NilZero.string_of_int (Z.to_int z).

Definition dec_size (n : nat) : string := dec (Z.of_nat n).

(** [%PRIx64]: lower-case hexadecimal of an unsigned value. *)
Definition hex (z : Z) : string :=
  HexadecimalString.NilZero.string_of_uint (N.to_hex_uint (Z.to_N z)).

(** [args[i]], with the empty string outside the vector (the handlers
    check the size before they index). *)
Definition arg (args : list string) (i : nat) : string := nth i args "".

Definition empty (s : string) : bool := (String.length s =? 0)%nat.

(** ** C strings *)

Definition NUL : ascii := Ascii.zero.

Definition is_nul (c : ascii) : bool := Ascii.eqb c NUL.

(** The bytes of a character array up to its terminator. *)
Fixpoint upto_nul (l : list ascii) : list ascii :=
  match l with
  | [] => []
  | c :: l' => if is_nul c then [] else c :: upto_nul l'
  end.

(** [std::string::c_str()], read as a C string. *)
Definition c_str (s : string) : list ascii := upto_nul (list_ascii_of_string s).

(** [std::string] built from a C string. *)
Definition string_of_c_str (a : list ascii) : string := string_of_list_ascii (upto_nul a).

(** [s.c_str()] under [%s]. *)
Definition cs (s : string) : string := string_of_list_ascii (c_str s).

(** [strlcpy(dst, src, size)]: at most [size - 1] bytes of [src], then a
    terminator; the bytes of [dst] behind the terminator stay. *)
Definition strlcpy (dst src : list ascii) (size : nat) : list ascii :=
  match size with
  | O => dst
  | S m =>
      let k := Nat.min (List.length src) m in
      (firstn k src ++ NUL :: skipn (S k) dst)%list
  end.

(** [memset(a, 0, sizeof(a))]. *)
Definition memset_zero (a : list ascii) : list ascii := map (fun _ => NUL) a.

(** ** The UI channel *)

(** [android::base::Split(s, "\n")]. *)
Fixpoint split_lines_aux (cur : string) (s : string) : list string :=
  match s with
  | EmptyString => [cur]
  | String c s' =>
      if Ascii.eqb c "010"%char then cur :: split_lines_aux "" s'
      else split_lines_aux (cur ++ String c "") s'
  end.

Definition Split_newline (s : string) : list string := split_lines_aux "" s.

Fixpoint uiPrint_lines {W} (lines : list string) : M W unit :=
  match lines with
  | [] => ret tt
  | line :: rest =>
      (if empty line then ret tt
       else fprintf_cmd_pipe ("ui_print " ++ cs line ++ String "010" "")) ;;;
      uiPrint_lines rest
  end.

(** Send the buffer over to recovery through the command pipe, skipping
    empty lines; a line is printed under [%s] from [line.c_str()].
    [uiPrintf] is [uiPrint] of the formatted message. *)
Definition uiPrint {W} (buffer : string) : M W unit :=
  uiPrint_lines (Split_newline buffer).

Definition uiPrintf {W} (msg : string) : M W unit := uiPrint msg.

(** ** Interfaces to the outside *)

(** android-base (parseint.h, parsedouble.h, properties.h, file.h) and
    cutils/android_reboot.h. *)
Class AndroidBase (W : Type) : Type := {
  double : Set;
  ParseInt64 : string -> option Z;
  ParseInt : string -> option Z;
  ParseUint : string -> option Z;
  ParseDouble : string -> option double;
  Trim : string -> string;
  printf_f : double -> string;
  GetProperty : string -> string -> W -> string;
  GetBoolProperty : string -> bool -> W -> bool;
  SetProperty : string -> string -> W -> bool * W;
  WriteStringToFile : string -> string -> W -> bool * W;
  ANDROID_RB_PROPERTY : string
}.

(** Modelled from the spec: the boot-control record
    (bootloader_message/bootloader_message.h is not under src/), a
    fixed-layout structure with a pending command field, a bounded stage
    field and further contents, each a character array. *)
Record bootloader_message : Set := mkBootloaderMessage {
  command : list ascii;
  status : list ascii;
  recovery : list ascii;
  stage : list ascii;
  reserved : list ascii
}.

(** Modelled from the spec: [sizeof(boot.stage)]; the stage is bounded to
    31 bytes and its terminator (the source: "it should not exceed 31
    bytes"). *)
Definition sizeof_stage : nat := 32.

(** The boot-control I/O: [read] gives the record or fails, [write] stores
    a record or fails. *)
Class BootloaderMessage (W : Type) : Type := {
  read_bootloader_message_from : string -> W -> option bootloader_message;
  write_bootloader_message_to : bootloader_message -> string -> W -> bool * W
}.

(** libc: system calls and the C library.  A call that fails leaves its
    reason in [errno], which belongs to the world. *)
Record stat : Set := mkStat { st_mode : Z; st_size : Z }.

Definition S_IFMT : Z := 0xF000.
Definition S_ISDIR (m : Z) : bool := (Z.land m S_IFMT =? 0x4000)%Z.
Definition S_ISREG (m : Z) : bool := (Z.land m S_IFMT =? 0x8000)%Z.
Definition S_ISLNK (m : Z) : bool := (Z.land m S_IFMT =? 0xA000)%Z.

(** [struct vfs_cap_data] of linux/capability.h. *)
Record vfs_cap_data : Set := mkVfsCapData {
  magic_etc : Z;
  data0_permitted : Z;
  data0_inheritable : Z;
  data1_permitted : Z;
  data1_inheritable : Z
}.

Class Libc (W : Type) : Type := {
  errno : W -> Z;
  strerror : Z -> string;
  ENOENT : Z;
  ENODATA : Z;
  (** [stat], [lstat]: the file status, or -1. *)
  sys_stat : string -> W -> option stat * W;
  sys_lstat : string -> W -> option stat * W;
  sys_mkdir : string -> Z -> W -> Z * W;
  sys_mount : string -> string -> string -> Z -> string -> W -> Z * W;
  sys_access : string -> Z -> W -> Z * W;
  sys_rename : string -> string -> W -> Z * W;
  sys_unlink : string -> W -> Z * W;
  sys_symlink : string -> string -> W -> Z * W;
  sys_chown : string -> Z -> Z -> W -> Z * W;
  sys_chmod : string -> Z -> W -> Z * W;
  sys_removexattr : string -> string -> W -> Z * W;
  sys_setxattr : string -> string -> vfs_cap_data -> Z -> W -> Z * W;
  (** [fork] or [vfork], [execv] in the child, [waitpid]: the wait status. *)
  run_child : string -> list string -> W -> Z * W;
  (** [sleep]: the run that is modelled is the one in which the call
      returns. *)
  sleep : Z -> W -> unit * W;
  (** [sscanf] with one conversion, [%lld] ([SCNd64]) or [%i] ([SCNi32],
      [SCNi64]): the converted number when one was assigned. *)
  sscanf_d64 : string -> option Z;
  sscanf_i32 : string -> option Z;
  sscanf_i64 : string -> option Z;
  (** The width of [mode_t] in bits. *)
  mode_t_bits : Z;
  (** What the walk [nftw(path, fn, 30, FTW_CHDIR | FTW_DEPTH | FTW_PHYS)]
      finds: the entries with their status in the order of the visit (the
      contents of a directory before the directory, links not followed),
      and whether the walk then ends in an error of its own. *)
  ftw_entries : string -> W -> list (string * stat) * bool;
  XATTR_NAME_CAPS : string;
  VFS_CAP_REVISION : Z;
  VFS_CAP_FLAGS_EFFECTIVE : Z
}.

Definition F_OK : Z := 0.
Definition MS_NODEV : Z := 4.
Definition MS_NOATIME : Z := 1024.
Definition MS_NODIRATIME : Z := 2048.
Definition O_WRONLY : Z := 1.
Definition O_CREAT : Z := 64.
Definition O_TRUNC : Z := 512.
Definition S_IRUSR : Z := 256.
Definition S_IWUSR : Z := 128.

(** [WEXITSTATUS(status)]. *)
Definition WEXITSTATUS (status : Z) : Z := Z.land (Z.shiftr status 8) 255.

(** selinux/selinux.h, selinux/label.h and the updater's [sehandle]. *)
Class Selinux (W : Type) : Type := {
  sehandle : W -> bool;
  selabel_lookup : string -> Z -> W -> option string * W;
  setfscreatecon : option string -> W -> Z * W;
  lsetfilecon : string -> string -> W -> Z * W
}.

(** mounts.h *)
Class Mounts (W : Type) : Type := {
  MountedVolume : Set;
  scan_mounted_volumes : W -> bool * W;
  find_mounted_volume_by_mount_point : string -> W -> option MountedVolume;
  unmount_mounted_volume : MountedVolume -> W -> Z * W
}.

(** ziparchive/zip_archive.h and otautil/ZipUtil.h, on the package of the
    updater ([package_zip]). *)
Class ZipArchive (W : Type) : Type := {
  ZipEntry : Set;
  uncompressed_length : ZipEntry -> nat;
  (** [FindEntry]: the entry when the call returns 0. *)
  FindEntry : string -> W -> option ZipEntry;
  ExtractEntryToFile : ZipEntry -> Z -> W -> Z * W;
  (** [ExtractToMemory]: the status and the buffer after the call. *)
  ExtractToMemory : ZipEntry -> nat -> W -> Z * string;
  ErrorCodeString : Z -> string;
  ExtractPackageRecursive : string -> string -> Z -> bool -> W -> bool * W
}.

(** otafault/ota_io.h.  [ota_open] stands for the call under
    [TEMP_FAILURE_RETRY]: the result of the last attempt. *)
Class OtaIo (W : Type) : Type := {
  FILE : Set;
  ota_open : string -> Z -> Z -> W -> Z * W;
  ota_fsync : Z -> W -> Z * W;
  ota_close : Z -> W -> Z * W;
  ota_fopen : string -> string -> W -> option FILE * W;
  (** [ota_fread(buf, 1, n, f)]: the count and the bytes read. *)
  ota_fread : Z -> FILE -> W -> (Z * string) * W;
  ota_fclose : FILE -> W -> Z * W
}.

(** applypatch/applypatch.h, openssl/sha.h and otautil/print_sha1.h *)
Class ApplyPatch (W : Type) : Type := {
  applypatch :
    string -> string -> string -> Z -> list string -> list Value -> W -> Z * W;
  applypatch_check : string -> list string -> W -> Z * W;
  CacheSizeCheck : Z -> W -> Z * W;
  (** [LoadFileContents]: the data when the call returns 0. *)
  LoadFileContents : string -> W -> option string * W;
  SHA1 : string -> string;
  (** [ParseSha1]: the digest when the call returns 0. *)
  ParseSha1 : string -> option string;
  print_sha1 : string -> string
}.

(** otautil/DirUtil.h, ext4_utils/wipe.h and tune2fs.h *)
Class FsTools (W : Type) : Type := {
  dirUnlinkHierarchy : string -> W -> Z * W;
  wipe_block_device : Z -> Z -> W -> Z * W;
  HAVE_LIBTUNE2FS : bool;
  tune2fs_main : list string -> W -> Z * W
}.

(** ** Helpers of install.cpp *)

Definition nl : string := String "010" "".
Definition dq : string := String "034" "".

Definition ValueType_eqb (a b : ValueType) : bool :=
  match a, b with
  | VAL_INVALID, VAL_INVALID | VAL_STRING, VAL_STRING | VAL_BLOB, VAL_BLOB => true
  | _, _ => false
  end.

Section Helpers.
Context {W : Type} {LC : Libc W}.

Definition is_dir (dirpath : string) : M W bool :=
  r <- call (sys_stat dirpath) ;;
  match r with
  | Some st => ret (S_ISDIR (st_mode st))
  | None => ret false
  end.

(** The loop of [make_parents]: [rest] is [name] from index [pos] on; the
    loop stops at every '/' behind index 0, in order, with the prefix
    before it. *)
Fixpoint make_parents_from (name rest : string) (pos : nat) : M W bool :=
  match rest with
  | EmptyString => ret true
  | String c rest' =>
      if (Ascii.eqb c "/"%char && (1 <=? pos)%nat)%bool then
        let dir_path := substring 0 pos name in
        d <- is_dir dir_path ;;
        if negb d then
          result <- call (sys_mkdir dir_path 448) ;;
          if negb (result =? 0)%Z then ret false
          else make_parents_from name rest' (S pos)
        else make_parents_from name rest' (S pos)
      else make_parents_from name rest' (S pos)
  end.

(** Create all parent directories of name, if necessary. *)
Definition make_parents (name : string) : M W bool :=
  make_parents_from name name 0.

(** A [const char*] vector as [execv] reads it: up to the first null. *)
Fixpoint argv_of (a : list (option string)) : list string :=
  match a with
  | Some s :: a' => s :: argv_of a'
  | _ => []
  end.

Definition exec_cmd (path : string) (argv : list (option string)) : M W Z :=
  status <- call (run_child path (argv_of argv)) ;;
  ret (WEXITSTATUS status).

End Helpers.

(** ** UI, package extraction of one file *)

Section PackageExtraction.
Context {W : Type} {ZA : ZipArchive W} {IO : OtaIo W} {SE : Selinux W}.

Definition UIPrintFn : Fn W := fun name argv =>
  match ReadArgs argv with
  | None =>
      ErrorAbort kArgsParsingFailure (name ++ "(): Failed to parse the argument(s)")
  | Some args =>
      let buffer := String.concat "" args in
      uiPrint buffer ;;;
      ret (Some (StringValue buffer))
  end.

Definition PackageExtractFileFn : Fn W := fun name argv =>
  if ((List.length argv <? 1) || (2 <? List.length argv))%nat then
    ErrorAbort kArgsParsingFailure
      (name ++ "() expects 1 or 2 args, got " ++ dec_size (List.length argv))
  else if (List.length argv =? 2)%nat then
    (* The two-argument version extracts to a file. *)
    match ReadArgs argv with
    | None =>
        ErrorAbort kArgsParsingFailure
          (name ++ "() Failed to parse " ++ dec_size (List.length argv) ++ " args")
    | Some args =>
        let zip_path := arg args 0 in
        let dest_path := arg args 1 in
        e <- observe (FindEntry zip_path) ;;
        match e with
        | None => ret (Some (StringValue ""))
        | Some entry =>
            fd <- call (ota_open dest_path
                          (Z.lor (Z.lor O_WRONLY O_CREAT) O_TRUNC)
                          (Z.lor S_IRUSR S_IWUSR)) ;;
            if (fd =? -1)%Z then ret (Some (StringValue ""))
            else
              let success := true in
              r <- call (ExtractEntryToFile entry fd) ;;
              let success := if negb (r =? 0)%Z then false else success in
              r <- call (ota_fsync fd) ;;
              let success := if (r =? -1)%Z then false else success in
              r <- call (ota_close fd) ;;
              let success := if (r =? -1)%Z then false else success in
              ret (Some (StringValue (if success then "t" else "")))
        end
    end
  else
    (* The one-argument version returns the contents of the file as the
       result. *)
    match ReadArgs argv with
    | None =>
        ErrorAbort kArgsParsingFailure
          (name ++ "() Failed to parse " ++ dec_size (List.length argv) ++ " args")
    | Some args =>
        let zip_path := arg args 0 in
        e <- observe (FindEntry zip_path) ;;
        match e with
        | None =>
            ErrorAbort kPackageExtractFileFailure
              (name ++ "(): no " ++ cs zip_path ++ " in package")
        | Some entry =>
            let size := uncompressed_length entry in
            r <- observe (ExtractToMemory entry size) ;;
            let (r, buffer) := r : Z * string in
            if negb (r =? 0)%Z then
              ErrorAbort kPackageExtractFileFailure
                (name ++ ": Failed to extract entry " ++ dq ++ cs zip_path ++ dq
                 ++ " (" ++ dec_size size ++ " bytes) to memory: " ++ ErrorCodeString r)
            else ret (Some (mkValue VAL_BLOB buffer))
        end
    end.

(** To create a consistent system image, never use the clock for
    timestamps: 8/1/2008. *)
Definition timestamp : Z := 1217592000.

Definition PackageExtractDirFn : Fn W := fun name argv =>
  if negb (List.length argv =? 2)%nat then
    ErrorAbort kArgsParsingFailure
      (name ++ "() expects 2 args, got " ++ dec_size (List.length argv))
  else
    match ReadArgs argv with
    | None =>
        ErrorAbort kArgsParsingFailure (name ++ "() Failed to parse the argument(s)")
    | Some args =>
        let zip_path := arg args 0 in
        let dest_path := arg args 1 in
        se <- observe sehandle ;;
        success <- call (ExtractPackageRecursive zip_path dest_path timestamp se) ;;
        ret (Some (StringValue (if success then "t" else "")))
    end.

End PackageExtraction.

(** ** Patch application and verification *)

Section PatchApplication.
Context {W : Type} {AB : AndroidBase W} {AP : ApplyPatch W}.

(** The loop that checks the types of the (sha-1, patch) pairs, from pair
    [i] on: the abort of the first argument of the wrong type. *)
Fixpoint check_patch_pairs (name : string) (i : nat) (arg_values : list Value)
  : option (CauseCode * string) :=
  match arg_values with
  | sha :: patch :: rest =>
      if negb (ValueType_eqb (type sha) VAL_STRING) then
        Some (kArgsParsingFailure,
              name ++ "(): sha-1 #" ++ dec_size (i * 2) ++ " is not string")
      else if negb (ValueType_eqb (type patch) VAL_BLOB) then
        Some (kArgsParsingFailure,
              name ++ "(): patch #" ++ dec_size (i * 2 + 1) ++ " is not blob")
      else check_patch_pairs name (S i) rest
  | _ => None
  end.

(** [arg_values[i * 2]->data] and [arg_values[i * 2 + 1]] for every pair. *)
Fixpoint patch_sha_strs (arg_values : list Value) : list string :=
  match arg_values with
  | sha :: _ :: rest => data sha :: patch_sha_strs rest
  | _ => []
  end.

Fixpoint patch_blobs (arg_values : list Value) : list Value :=
  match arg_values with
  | _ :: patch :: rest => patch :: patch_blobs rest
  | _ => []
  end.

Definition ApplyPatchFn : Fn W := fun name argv =>
  if ((List.length argv <? 6) || (Nat.modulo (List.length argv) 2 =? 1))%nat then
    ErrorAbort kArgsParsingFailure
      (name ++ "(): expected at least 6 args and an even number, got "
       ++ dec_size (List.length argv))
  else
    match ReadArgsRange argv 0 4 with
    | None =>
        ErrorAbort kArgsParsingFailure (name ++ "() Failed to parse the argument(s)")
    | Some args =>
        let source_filename := arg args 0 in
        let target_filename := arg args 1 in
        let target_sha1 := arg args 2 in
        let target_size_str := arg args 3 in
        match ParseUint target_size_str with
        | None =>
            ErrorAbort kArgsParsingFailure
              (name ++ "(): can't parse " ++ dq ++ cs target_size_str ++ dq
               ++ " as byte count")
        | Some target_size =>
            match ReadValueArgsRange argv 4 (List.length argv - 4) with
            | None => ret None
            | Some arg_values =>
                match check_patch_pairs name 0 arg_values with
                | Some (cause, msg) => ErrorAbort cause msg
                | None =>
                    result <- call (applypatch source_filename target_filename
                                      target_sha1 target_size
                                      (patch_sha_strs arg_values)
                                      (patch_blobs arg_values)) ;;
                    ret (Some (StringValue (if (result =? 0)%Z then "t" else "")))
                end
            end
        end
    end.

Definition ApplyPatchCheckFn : Fn W := fun name argv =>
  if (List.length argv <? 1)%nat then
    ErrorAbort kArgsParsingFailure
      (name ++ "(): expected at least 1 arg, got " ++ dec_size (List.length argv))
  else
    match ReadArgsRange argv 0 1 with
    | None =>
        ErrorAbort kArgsParsingFailure (name ++ "() Failed to parse the argument(s)")
    | Some args =>
        let filename := arg args 0 in
        let rest :=
          if (1 <? List.length argv)%nat
          then ReadArgsRange argv 1 (List.length argv - 1)
          else Some [] in
        match rest with
        | None =>
            ErrorAbort kArgsParsingFailure
              (name ++ "() Failed to parse the argument(s)")
        | Some sha1s =>
            result <- call (applypatch_check filename sha1s) ;;
            ret (Some (StringValue (if (result =? 0)%Z then "t" else "")))
        end
    end.

(** The loop of [sha1_check] over the hex strings: the first argument that
    is a string, parses as a sha-1 and equals the digest. *)
Fixpoint sha1_match (digest : string) (args : list Value) : option Value :=
  match args with
  | [] => None
  | a :: rest =>
      if negb (ValueType_eqb (type a) VAL_STRING) then sha1_match digest rest
      else
        match ParseSha1 (data a) with
        | None => sha1_match digest rest
        | Some arg_digest =>
            if String.eqb digest arg_digest then Some a
            else sha1_match digest rest
        end
  end.

Definition Sha1CheckFn : Fn W := fun name argv =>
  if (List.length argv <? 1)%nat then
    ErrorAbort kArgsParsingFailure (name ++ "() expects at least 1 arg")
  else
    match ReadValueArgs argv with
    | None => ret None
    | Some [] => ret None (* not reached: there is at least one argument *)
    | Some (a0 :: rest) =>
        if ValueType_eqb (type a0) VAL_INVALID then ret (Some (StringValue ""))
        else
          let digest := SHA1 (data a0) in
          if (List.length argv =? 1)%nat then
            ret (Some (StringValue (print_sha1 digest)))
          else
            match sha1_match digest rest with
            | Some a => ret (Some a)
            | None => ret (Some (StringValue ""))
            end
    end.

Definition ApplyPatchSpaceFn : Fn W := fun name argv =>
  if negb (List.length argv =? 1)%nat then
    ErrorAbort kArgsParsingFailure
      (name ++ "() expects 1 args, got " ++ dec_size (List.length argv))
  else
    match ReadArgs argv with
    | None =>
        ErrorAbort kArgsParsingFailure (name ++ "() Failed to parse the argument(s)")
    | Some args =>
        let bytes_str := arg args 0 in
        match ParseUint bytes_str with
        | None =>
            ErrorAbort kArgsParsingFailure
              (name ++ "(): can't parse " ++ dq ++ cs bytes_str ++ dq
               ++ " as byte count")
        | Some bytes =>
            (* Skip the cache size check if the update is a retry. *)
            retry <- get_is_retry ;;
            if retry then ret (Some (StringValue "t"))
            else
              r <- call (CacheSizeCheck bytes) ;;
              if (r =? 0)%Z then ret (Some (StringValue "t"))
              else ret (Some (StringValue ""))
        end
    end.

(** Read a local file and return its contents. *)
Definition ReadFileFn : Fn W := fun name argv =>
  if negb (List.length argv =? 1)%nat then
    ErrorAbort kArgsParsingFailure
      (name ++ "() expects 1 arg, got " ++ dec_size (List.length argv))
  else
    match ReadArgs argv with
    | None =>
        ErrorAbort kArgsParsingFailure (name ++ "() Failed to parse the argument(s)")
    | Some args =>
        let filename := arg args 0 in
        fc <- call (LoadFileContents filename) ;;
        match fc with
        | Some d => ret (Some (mkValue VAL_BLOB d))
        | None => ret (Some (mkValue VAL_INVALID ""))
        end
    end.

End PatchApplication.

(** ** Filesystem provisioning *)

(** The argument vectors of [FormatFn], as the source builds them. *)
Definition mke2fs_argv (location : string) (size : Z) : list (option string) :=
  [Some "/sbin/mke2fs_static"; Some "-t"; Some "ext4"; Some "-b"; Some "4096";
   Some location;
   (if negb (size =? 0)%Z then Some (dec (Z.quot size 4096)) else None);
   None].

Definition e2fsdroid_argv (mount_point location : string) : list (option string) :=
  [Some "/sbin/e2fsdroid_static"; Some "-e"; Some "-a"; Some mount_point;
   Some location; None].

Definition f2fs_argv (location : string) (size : Z) : list (option string) :=
  let num_sectors := dec (Z.quot size 512) in
  [Some "mkfs.f2fs"; Some "-d1"; Some "-f";
   Some "-O"; Some "encrypt";
   Some "-O"; Some "quota";
   Some "-O"; Some "verity";
   Some "-w"; Some "512";
   Some location;
   (if (size <? 512)%Z then None else Some num_sectors);
   None].

Definition sload_argv (mount_point location : string) : list (option string) :=
  [Some "/sbin/sload.f2fs"; Some "-t"; Some mount_point; Some location; None].

Section Provisioning.
Context {W : Type} {AB : AndroidBase W} {LC : Libc W} {SE : Selinux W} {MT : Mounts W}.

Definition MountFn : Fn W := fun name argv =>
  if (negb (List.length argv =? 4) && negb (List.length argv =? 5))%nat then
    ErrorAbort kArgsParsingFailure
      (name ++ "() expects 4-5 args, got " ++ dec_size (List.length argv))
  else
    match ReadArgs argv with
    | None =>
        ErrorAbort kArgsParsingFailure (name ++ "() Failed to parse the argument(s)")
    | Some args =>
        let fs_type := arg args 0 in
        let partition_type := arg args 1 in
        let location := arg args 2 in
        let mount_point := arg args 3 in
        let mount_options := if (List.length argv =? 5)%nat then arg args 4 else "" in
        if empty fs_type then
          ErrorAbort kArgsParsingFailure
            ("fs_type argument to " ++ name ++ "() can't be empty")
        else if empty partition_type then
          ErrorAbort kArgsParsingFailure
            ("partition_type argument to " ++ name ++ "() can't be empty")
        else if empty location then
          ErrorAbort kArgsParsingFailure
            ("location argument to " ++ name ++ "() can't be empty")
        else if empty mount_point then
          ErrorAbort kArgsParsingFailure
            ("mount_point argument to " ++ name ++ "() can't be empty")
        else
          se <- observe sehandle ;;
          secontext <-
            (if se then
               c <- call (selabel_lookup mount_point 493) ;;
               call (setfscreatecon c) ;;;
               ret c
             else ret None) ;;
          call (sys_mkdir mount_point 493) ;;;
          match secontext with
          | Some _ => call (setfscreatecon None) ;;; ret tt
          | None => ret tt
          end ;;;
          r <- call (sys_mount location mount_point fs_type
                       (Z.lor (Z.lor MS_NOATIME MS_NODEV) MS_NODIRATIME)
                       mount_options) ;;
          if (r <? 0)%Z then
            e <- observe errno ;;
            uiPrintf (name ++ ": Failed to mount " ++ cs location ++ " at "
                      ++ cs mount_point ++ ": " ++ strerror e) ;;;
            ret (Some (StringValue ""))
          else ret (Some (StringValue mount_point))
    end.

Definition IsMountedFn : Fn W := fun name argv =>
  if negb (List.length argv =? 1)%nat then
    ErrorAbort kArgsParsingFailure
      (name ++ "() expects 1 arg, got " ++ dec_size (List.length argv))
  else
    match ReadArgs argv with
    | None =>
        ErrorAbort kArgsParsingFailure (name ++ "() Failed to parse the argument(s)")
    | Some args =>
        let mount_point := arg args 0 in
        if empty mount_point then
          ErrorAbort kArgsParsingFailure
            "mount_point argument to unmount() can't be empty"
        else
          call scan_mounted_volumes ;;;
          vol <- observe (find_mounted_volume_by_mount_point mount_point) ;;
          match vol with
          | None => ret (Some (StringValue ""))
          | Some _ => ret (Some (StringValue mount_point))
          end
    end.

Definition UnmountFn : Fn W := fun name argv =>
  if negb (List.length argv =? 1)%nat then
    ErrorAbort kArgsParsingFailure
      (name ++ "() expects 1 arg, got " ++ dec_size (List.length argv))
  else
    match ReadArgs argv with
    | None =>
        ErrorAbort kArgsParsingFailure (name ++ "() Failed to parse the argument(s)")
    | Some args =>
        let mount_point := arg args 0 in
        if empty mount_point then
          ErrorAbort kArgsParsingFailure
            "mount_point argument to unmount() can't be empty"
        else
          call scan_mounted_volumes ;;;
          vol <- observe (find_mounted_volume_by_mount_point mount_point) ;;
          match vol with
          | None =>
              uiPrintf ("Failed to unmount " ++ cs mount_point ++ ": No such volume") ;;;
              ret None
          | Some vol =>
              r <- call (unmount_mounted_volume vol) ;;
              (if negb (r =? 0)%Z then
                 e <- observe errno ;;
                 uiPrintf ("Failed to unmount " ++ cs mount_point ++ ": " ++ strerror e)
               else ret tt) ;;;
              ret (Some (StringValue mount_point))
          end
    end.

(** format(fs_type, partition_type, location, fs_size, mount_point)
    if fs_size == 0, then make fs uses the entire partition.
    if fs_size > 0, that is the size to use
    if fs_size < 0, then reserve that many bytes at the end of the partition
    (not for f2fs) *)
Definition FormatFn : Fn W := fun name argv =>
  if negb (List.length argv =? 5)%nat then
    ErrorAbort kArgsParsingFailure
      (name ++ "() expects 5 args, got " ++ dec_size (List.length argv))
  else
    match ReadArgs argv with
    | None =>
        ErrorAbort kArgsParsingFailure (name ++ "() Failed to parse the argument(s)")
    | Some args =>
        let fs_type := arg args 0 in
        let partition_type := arg args 1 in
        let location := arg args 2 in
        let fs_size := arg args 3 in
        let mount_point := arg args 4 in
        if empty fs_type then
          ErrorAbort kArgsParsingFailure
            ("fs_type argument to " ++ name ++ "() can't be empty")
        else if empty partition_type then
          ErrorAbort kArgsParsingFailure
            ("partition_type argument to " ++ name ++ "() can't be empty")
        else if empty location then
          ErrorAbort kArgsParsingFailure
            ("location argument to " ++ name ++ "() can't be empty")
        else if empty mount_point then
          ErrorAbort kArgsParsingFailure
            ("mount_point argument to " ++ name ++ "() can't be empty")
        else
          match ParseInt64 fs_size with
          | None =>
              ErrorAbort kArgsParsingFailure
                (name ++ ": failed to parse int in " ++ cs fs_size)
          | Some size =>
              if fs_type =? "ext4" then
                status <- exec_cmd "/sbin/mke2fs_static" (mke2fs_argv location size) ;;
                if negb (status =? 0)%Z then ret (Some (StringValue ""))
                else
                  status <- exec_cmd "/sbin/e2fsdroid_static"
                              (e2fsdroid_argv mount_point location) ;;
                  if negb (status =? 0)%Z then ret (Some (StringValue ""))
                  else ret (Some (StringValue location))
              else if fs_type =? "f2fs" then
                if (size <? 0)%Z then ret (Some (StringValue ""))
                else
                  let f2fs_path := "/sbin/mkfs.f2fs" in
                  status <- exec_cmd f2fs_path (f2fs_argv location size) ;;
                  if negb (status =? 0)%Z then ret (Some (StringValue ""))
                  else
                    status <- exec_cmd "/sbin/sload.f2fs"
                                (sload_argv mount_point location) ;;
                    if negb (status =? 0)%Z then ret (Some (StringValue ""))
                    else ret (Some (StringValue location))
              else
                (* unsupported fs_type *)
                ret None
          end
    end.

End Provisioning.

(** ** Files, progress, properties and programs *)

(** [s.find(c)]. *)
Fixpoint find_char (c : ascii) (s : string) : option nat :=
  match s with
  | EmptyString => None
  | String d s' =>
      if Ascii.eqb d c then Some O
      else match find_char c s' with
           | Some n => Some (S n)
           | None => None
           end
  end.

(** [s.substr(pos)]. *)
Definition substr_from (pos : nat) (s : string) : string :=
  substring pos (String.length s - pos) s.

Section FileOperations.
Context {W : Type} {AB : AndroidBase W} {LC : Libc W} {IO : OtaIo W} {FT : FsTools W}.

Definition RenameFn : Fn W := fun name argv =>
  if negb (List.length argv =? 2)%nat then
    ErrorAbort kArgsParsingFailure
      (name ++ "() expects 2 args, got " ++ dec_size (List.length argv))
  else
    match ReadArgs argv with
    | None =>
        ErrorAbort kArgsParsingFailure (name ++ "() Failed to parse the argument(s)")
    | Some args =>
        let src_name := arg args 0 in
        let dst_name := arg args 1 in
        if empty src_name then
          ErrorAbort kArgsParsingFailure
            ("src_name argument to " ++ name ++ "() can't be empty")
        else if empty dst_name then
          ErrorAbort kArgsParsingFailure
            ("dst_name argument to " ++ name ++ "() can't be empty")
        else
          ok <- make_parents dst_name ;;
          if negb ok then
            e <- observe errno ;;
            ErrorAbort kFileRenameFailure
              ("Creating parent of " ++ cs dst_name ++ " failed, error " ++ strerror e)
          else
            d <- call (sys_access dst_name F_OK) ;;
            moved <-
              (if (d =? 0)%Z then
                 a <- call (sys_access src_name F_OK) ;;
                 ret (negb (a =? 0)%Z)
               else ret false) ;;
            if moved then
              (* File was already moved *)
              ret (Some (StringValue dst_name))
            else
              r <- call (sys_rename src_name dst_name) ;;
              if negb (r =? 0)%Z then
                e <- observe errno ;;
                ErrorAbort kFileRenameFailure
                  ("Rename of " ++ cs src_name ++ " to " ++ cs dst_name
                   ++ " failed, error " ++ strerror e)
              else ret (Some (StringValue dst_name))
    end.

Fixpoint DeleteFn_loop (recursive : bool) (paths : list string) (success : Z) : M W Z :=
  match paths with
  | [] => ret success
  | path :: rest =>
      r <- call (if recursive then dirUnlinkHierarchy path else sys_unlink path) ;;
      DeleteFn_loop recursive rest (if (r =? 0)%Z then success + 1 else success)%Z
  end.

(** delete([filename, ...]) and delete_recursive([dirname, ...]) *)
Definition DeleteFn : Fn W := fun name argv =>
  match ReadArgs argv with
  | None => ret None
  | Some paths =>
      let recursive := name =? "delete_recursive" in
      success <- DeleteFn_loop recursive paths 0%Z ;;
      ret (Some (StringValue (dec success)))
  end.

Definition ShowProgressFn : Fn W := fun name argv =>
  if negb (List.length argv =? 2)%nat then
    ErrorAbort kArgsParsingFailure
      (name ++ "() expects 2 args, got " ++ dec_size (List.length argv))
  else
    match ReadArgs argv with
    | None =>
        ErrorAbort kArgsParsingFailure (name ++ "() Failed to parse the argument(s)")
    | Some args =>
        let frac_str := arg args 0 in
        let sec_str := arg args 1 in
        match ParseDouble frac_str with
        | None =>
            ErrorAbort kArgsParsingFailure
              (name ++ ": failed to parse double in " ++ cs frac_str)
        | Some frac =>
            match ParseInt sec_str with
            | None =>
                ErrorAbort kArgsParsingFailure
                  (name ++ ": failed to parse int in " ++ cs sec_str)
            | Some sec =>
                fprintf_cmd_pipe ("progress " ++ printf_f frac ++ " " ++ dec sec ++ nl) ;;;
                ret (Some (StringValue frac_str))
            end
        end
    end.

Definition SetProgressFn : Fn W := fun name argv =>
  if negb (List.length argv =? 1)%nat then
    ErrorAbort kArgsParsingFailure
      (name ++ "() expects 1 arg, got " ++ dec_size (List.length argv))
  else
    match ReadArgs argv with
    | None =>
        ErrorAbort kArgsParsingFailure (name ++ "() Failed to parse the argument(s)")
    | Some args =>
        let frac_str := arg args 0 in
        match ParseDouble frac_str with
        | None =>
            ErrorAbort kArgsParsingFailure
              (name ++ ": failed to parse double in " ++ cs frac_str)
        | Some frac =>
            fprintf_cmd_pipe ("set_progress " ++ printf_f frac ++ nl) ;;;
            ret (Some (StringValue frac_str))
        end
    end.

Fixpoint SymlinkFn_loop (name target : string) (srcs : list string) (bad : nat) : M W nat :=
  match srcs with
  | [] => ret bad
  | src :: rest =>
      r <- call (sys_unlink src) ;;
      e <- observe errno ;;
      failed <-
        (if ((r =? -1)%Z && negb (e =? ENOENT)%Z)%bool then ret true
         else
           ok <- make_parents src ;;
           if negb ok then ret true
           else
             r <- call (sys_symlink target src) ;;
             ret (r =? -1)%Z) ;;
      SymlinkFn_loop name target rest (if failed : bool then S bad else bad)
  end.

(** symlink(target, [src1, src2, ...]) *)
Definition SymlinkFn : Fn W := fun name argv =>
  if (List.length argv =? 0)%nat then
    ErrorAbort kArgsParsingFailure
      (name ++ "() expects 1+ args, got " ++ dec_size (List.length argv))
  else
    match Evaluate (nth 0 argv None) with
    | None => ret None
    | Some target =>
        match ReadArgsRange argv 1 (List.length argv) with
        | None =>
            ErrorAbort kArgsParsingFailure
              (name ++ "(): Failed to parse the argument(s)")
        | Some srcs =>
            bad <- SymlinkFn_loop name target srcs 0 ;;
            if negb (bad =? 0)%nat then
              ErrorAbort kSymlinkFailure
                (name ++ ": Failed to create " ++ dec_size bad ++ " symlink(s)")
            else ret (Some (StringValue "t"))
        end
    end.

Definition GetPropFn : Fn W := fun name argv =>
  if negb (List.length argv =? 1)%nat then
    ErrorAbort kArgsParsingFailure
      (name ++ "() expects 1 arg, got " ++ dec_size (List.length argv))
  else
    match Evaluate (nth 0 argv None) with
    | None => ret None
    | Some key =>
        value <- observe (GetProperty key "") ;;
        ret (Some (StringValue value))
    end.

Definition MAX_FILE_GETPROP_SIZE : Z := 65536.

(** The loop of [file_getprop] over the lines of the file. *)
Fixpoint file_getprop_lines (key : string) (lines : list string) : string :=
  match lines with
  | [] => ""
  | l :: rest =>
      let line := Trim l in
      (* comment or blank line: skip to next line *)
      if (empty line || prefix "#" line)%bool then file_getprop_lines key rest
      else
        match find_char "="%char line with
        | None => file_getprop_lines key rest
        | Some equal_pos =>
            (* trim whitespace between key and '=' *)
            let str := Trim (substring 0 equal_pos line) in
            (* not the key we're looking for *)
            if negb (key =? str) then file_getprop_lines key rest
            else Trim (substr_from (equal_pos + 1) line)
        end
  end.

(** file_getprop(file, key) *)
Definition FileGetPropFn : Fn W := fun name argv =>
  if negb (List.length argv =? 2)%nat then
    ErrorAbort kArgsParsingFailure
      (name ++ "() expects 2 args, got " ++ dec_size (List.length argv))
  else
    match ReadArgs argv with
    | None =>
        ErrorAbort kArgsParsingFailure (name ++ "() Failed to parse the argument(s)")
    | Some args =>
        let filename := arg args 0 in
        let key := arg args 1 in
        r <- call (sys_stat filename) ;;
        match r with
        | None =>
            e <- observe errno ;;
            ErrorAbort kFileGetPropFailure
              (name ++ ": failed to stat " ++ dq ++ cs filename ++ dq ++ ": "
               ++ strerror e)
        | Some st =>
            if (MAX_FILE_GETPROP_SIZE <? st_size st)%Z then
              ErrorAbort kFileGetPropFailure
                (cs filename ++ " too large for " ++ name ++ " (max "
                 ++ dec MAX_FILE_GETPROP_SIZE ++ ")")
            else
              f <- call (ota_fopen filename "rb") ;;
              match f with
              | None =>
                  e <- observe errno ;;
                  ErrorAbort kFileOpenFailure
                    (name ++ ": failed to open " ++ cs filename ++ ": " ++ strerror e)
              | Some f =>
                  r <- call (ota_fread (st_size st) f) ;;
                  let (n, buffer) := r : Z * string in
                  if negb (n =? st_size st)%Z then
                    r <- ErrorAbort kFreadFailure
                           (name ++ ": failed to read " ++ dec (st_size st)
                            ++ " bytes from " ++ cs filename) ;;
                    (* the destructor of unique_file *)
                    call (ota_fclose f) ;;;
                    ret r
                  else
                    call (ota_fclose f) ;;;
                    ret (Some (StringValue
                                 (file_getprop_lines key (Split_newline buffer))))
              end
        end
    end.

Definition WipeCacheFn : Fn W := fun name argv =>
  if negb (List.length argv =? 0)%nat then
    ErrorAbort kArgsParsingFailure
      (name ++ "() expects no args, got " ++ dec_size (List.length argv))
  else
    fprintf_cmd_pipe ("wipe_cache" ++ nl) ;;;
    ret (Some (StringValue "t")).

Definition RunProgramFn : Fn W := fun name argv =>
  if (List.length argv <? 1)%nat then
    ErrorAbort kArgsParsingFailure (name ++ "() expects at least 1 arg")
  else
    match ReadArgs argv with
    | None =>
        ErrorAbort kArgsParsingFailure (name ++ "() Failed to parse the argument(s)")
    | Some args =>
        status <- call (run_child (arg args 0) args) ;;
        ret (Some (StringValue (dec status)))
    end.

(** write_value(value, filename) *)
Definition WriteValueFn : Fn W := fun name argv =>
  if negb (List.length argv =? 2)%nat then
    ErrorAbort kArgsParsingFailure
      (name ++ "() expects 2 args, got " ++ dec_size (List.length argv))
  else
    match ReadArgs argv with
    | None =>
        ErrorAbort kArgsParsingFailure (name ++ "(): Failed to parse the argument(s)")
    | Some args =>
        let filename := arg args 1 in
        if empty filename then
          ErrorAbort kArgsParsingFailure (name ++ "(): Filename cannot be empty")
        else
          let value := arg args 0 in
          ok <- call (WriteStringToFile value filename) ;;
          if negb ok then ret (Some (StringValue ""))
          else ret (Some (StringValue "t"))
    end.

Definition WipeBlockDeviceFn : Fn W := fun name argv =>
  if negb (List.length argv =? 2)%nat then
    ErrorAbort kArgsParsingFailure
      (name ++ "() expects 2 args, got " ++ dec_size (List.length argv))
  else
    match ReadArgs argv with
    | None =>
        ErrorAbort kArgsParsingFailure (name ++ "() Failed to parse the argument(s)")
    | Some args =>
        let filename := arg args 0 in
        let len_str := arg args 1 in
        match ParseUint len_str with
        | None => ret None
        | Some len =>
            fd <- call (ota_open filename O_WRONLY 420) ;;
            (* The wipe_block_device function in ext4_utils returns 0 on
               success and 1 for failure. *)
            status <- call (wipe_block_device fd len) ;;
            (* the destructor of unique_fd *)
            (if negb (fd =? -1)%Z then call (ota_close fd) ;;; ret tt else ret tt) ;;;
            ret (Some (StringValue (if (status =? 0)%Z then "t" else "")))
        end
    end.

Definition EnableRebootFn : Fn W := fun name argv =>
  if negb (List.length argv =? 0)%nat then
    ErrorAbort kArgsParsingFailure
      (name ++ "() expects no args, got " ++ dec_size (List.length argv))
  else
    fprintf_cmd_pipe ("enable_reboot" ++ nl) ;;;
    ret (Some (StringValue "t")).

Definition Tune2FsFn : Fn W := fun name argv =>
  if HAVE_LIBTUNE2FS then
    if (List.length argv =? 0)%nat then
      ErrorAbort kArgsParsingFailure
        (name ++ "() expects args, got " ++ dec_size (List.length argv))
    else
      match ReadArgs argv with
      | None => ErrorAbort kArgsParsingFailure (name ++ "() could not read args")
      | Some args =>
          (* Tune2fs expects the program name as its args[0] *)
          let args2 := name :: args in
          (* tune2fs changes the file system parameters on an ext2 file
             system; it returns 0 on success. *)
          result <- call (tune2fs_main args2) ;;
          if negb (result =? 0)%Z then
            ErrorAbort kTune2FsFailure
              (name ++ "() returned error code " ++ dec result)
          else ret (Some (StringValue "t"))
      end
  else
    ErrorAbort kTune2FsFailure (name ++ "() support not present, no libtune2fs").

End FileOperations.

(** ** Metadata and permission application *)

Record perm_parsed_args : Set := mkPerm {
  has_uid : bool;
  uid : Z;
  has_gid : bool;
  gid : Z;
  has_mode : bool;
  mode : Z;
  has_fmode : bool;
  fmode : Z;
  has_dmode : bool;
  dmode : Z;
  has_selabel : bool;
  selabel : string;
  has_capabilities : bool;
  capabilities : Z
}.

(** [memset(&parsed, 0, sizeof(parsed))] *)
Definition perm_zero : perm_parsed_args :=
  mkPerm false 0 false 0 false 0 false 0 false 0 false "" false 0.

Definition set_uid (v : Z) (p : perm_parsed_args) : perm_parsed_args :=
  mkPerm true v (has_gid p) (gid p) (has_mode p) (mode p) (has_fmode p) (fmode p)
    (has_dmode p) (dmode p) (has_selabel p) (selabel p)
    (has_capabilities p) (capabilities p).

Definition set_gid (v : Z) (p : perm_parsed_args) : perm_parsed_args :=
  mkPerm (has_uid p) (uid p) true v (has_mode p) (mode p) (has_fmode p) (fmode p)
    (has_dmode p) (dmode p) (has_selabel p) (selabel p)
    (has_capabilities p) (capabilities p).

Definition set_mode (v : Z) (p : perm_parsed_args) : perm_parsed_args :=
  mkPerm (has_uid p) (uid p) (has_gid p) (gid p) true v (has_fmode p) (fmode p)
    (has_dmode p) (dmode p) (has_selabel p) (selabel p)
    (has_capabilities p) (capabilities p).

Definition set_fmode (v : Z) (p : perm_parsed_args) : perm_parsed_args :=
  mkPerm (has_uid p) (uid p) (has_gid p) (gid p) (has_mode p) (mode p) true v
    (has_dmode p) (dmode p) (has_selabel p) (selabel p)
    (has_capabilities p) (capabilities p).

Definition set_dmode (v : Z) (p : perm_parsed_args) : perm_parsed_args :=
  mkPerm (has_uid p) (uid p) (has_gid p) (gid p) (has_mode p) (mode p)
    (has_fmode p) (fmode p) true v (has_selabel p) (selabel p)
    (has_capabilities p) (capabilities p).

Definition set_selabel (v : string) (p : perm_parsed_args) : perm_parsed_args :=
  mkPerm (has_uid p) (uid p) (has_gid p) (gid p) (has_mode p) (mode p)
    (has_fmode p) (fmode p) (has_dmode p) (dmode p) true v
    (has_capabilities p) (capabilities p).

Definition set_capabilities (v : Z) (p : perm_parsed_args) : perm_parsed_args :=
  mkPerm (has_uid p) (uid p) (has_gid p) (gid p) (has_mode p) (mode p)
    (has_fmode p) (fmode p) (has_dmode p) (dmode p) (has_selabel p) (selabel p)
    true v.

(** Conversion to an unsigned type of [bits] bits, and an unsigned 32-bit
    value read as [int] by [%d]. *)
Definition to_unsigned (bits : Z) (z : Z) : Z := Z.modulo z (2 ^ bits).

Definition as_int (z : Z) : Z := if (z <? 2 ^ 31)%Z then z else (z - 2 ^ 32)%Z.

Section Metadata.
Context {W : Type} {LC : Libc W} {SE : Selinux W}.

(** One round of the loop of [ParsePermArgs], on [args[i]] and
    [args[i + 1]].  An unknown key is reported on the standard output only
    (a bounded number of times) and changes nothing. *)
Definition ParsePermArgs_pair (key value : string) (parsed : perm_parsed_args)
  : M W perm_parsed_args :=
  if key =? "uid" then
    match sscanf_d64 value with
    | Some v => ret (set_uid (to_unsigned 32 v) parsed)
    | None =>
        uiPrintf ("ParsePermArgs: invalid UID " ++ dq ++ cs value ++ dq ++ nl) ;;;
        ret parsed
    end
  else if key =? "gid" then
    match sscanf_d64 value with
    | Some v => ret (set_gid (to_unsigned 32 v) parsed)
    | None =>
        uiPrintf ("ParsePermArgs: invalid GID " ++ dq ++ cs value ++ dq ++ nl) ;;;
        ret parsed
    end
  else if key =? "mode" then
    match sscanf_i32 value with
    | Some v => ret (set_mode (to_unsigned mode_t_bits v) parsed)
    | None =>
        uiPrintf ("ParsePermArgs: invalid mode " ++ dq ++ cs value ++ dq ++ nl) ;;;
        ret parsed
    end
  else if key =? "dmode" then
    match sscanf_i32 value with
    | Some v => ret (set_dmode (to_unsigned mode_t_bits v) parsed)
    | None =>
        uiPrintf ("ParsePermArgs: invalid dmode " ++ dq ++ cs value ++ dq ++ nl) ;;;
        ret parsed
    end
  else if key =? "fmode" then
    match sscanf_i32 value with
    | Some v => ret (set_fmode (to_unsigned mode_t_bits v) parsed)
    | None =>
        uiPrintf ("ParsePermArgs: invalid fmode " ++ dq ++ cs value ++ dq ++ nl) ;;;
        ret parsed
    end
  else if key =? "capabilities" then
    match sscanf_i64 value with
    | Some v => ret (set_capabilities (to_unsigned 64 v) parsed)
    | None =>
        uiPrintf ("ParsePermArgs: invalid capabilities " ++ dq ++ cs value ++ dq ++ nl) ;;;
        ret parsed
    end
  else if key =? "selabel" then
    if negb (empty value) then ret (set_selabel value parsed)
    else
      uiPrintf ("ParsePermArgs: invalid selabel " ++ dq ++ cs value ++ dq ++ nl) ;;;
      ret parsed
  else ret parsed.

Fixpoint ParsePermArgs_loop (kv : list string) (parsed : perm_parsed_args)
  : M W perm_parsed_args :=
  match kv with
  | key :: value :: rest =>
      parsed <- ParsePermArgs_pair key value parsed ;;
      ParsePermArgs_loop rest parsed
  | _ => ret parsed
  end.

(** The loop starts at [args[1]]. *)
Definition ParsePermArgs (args : list string) : M W perm_parsed_args :=
  ParsePermArgs_loop (skipn 1 args) perm_zero.

Definition ApplyParsedPerms (filename : string) (statptr : stat)
  (parsed : perm_parsed_args) : M W Z :=
  let bad := 0%Z in
  bad <-
    (if has_selabel parsed then
       r <- call (lsetfilecon filename (selabel parsed)) ;;
       if negb (r =? 0)%Z then
         e <- observe errno ;;
         uiPrintf ("ApplyParsedPerms: lsetfilecon of " ++ cs filename ++ " to "
                   ++ cs (selabel parsed) ++ " failed: " ++ strerror e ++ nl) ;;;
         ret (bad + 1)%Z
       else ret bad
     else ret bad) ;;
  (* ignore symlinks *)
  if S_ISLNK (st_mode statptr) then ret bad
  else
    bad <-
      (if has_uid parsed then
         r <- call (sys_chown filename (uid parsed) (-1)) ;;
         if (r <? 0)%Z then
           e <- observe errno ;;
           uiPrintf ("ApplyParsedPerms: chown of " ++ cs filename ++ " to "
                     ++ dec (as_int (uid parsed)) ++ " failed: " ++ strerror e ++ nl) ;;;
           ret (bad + 1)%Z
         else ret bad
       else ret bad) ;;
    bad <-
      (if has_gid parsed then
         r <- call (sys_chown filename (-1) (gid parsed)) ;;
         if (r <? 0)%Z then
           e <- observe errno ;;
           uiPrintf ("ApplyParsedPerms: chgrp of " ++ cs filename ++ " to "
                     ++ dec (as_int (gid parsed)) ++ " failed: " ++ strerror e ++ nl) ;;;
           ret (bad + 1)%Z
         else ret bad
       else ret bad) ;;
    bad <-
      (if has_mode parsed then
         r <- call (sys_chmod filename (mode parsed)) ;;
         if (r <? 0)%Z then
           e <- observe errno ;;
           uiPrintf ("ApplyParsedPerms: chmod of " ++ cs filename ++ " to "
                     ++ dec (as_int (mode parsed)) ++ " failed: " ++ strerror e ++ nl) ;;;
           ret (bad + 1)%Z
         else ret bad
       else ret bad) ;;
    bad <-
      (if (has_dmode parsed && S_ISDIR (st_mode statptr))%bool then
         r <- call (sys_chmod filename (dmode parsed)) ;;
         if (r <? 0)%Z then
           e <- observe errno ;;
           uiPrintf ("ApplyParsedPerms: chmod of " ++ cs filename ++ " to "
                     ++ dec (as_int (dmode parsed)) ++ " failed: " ++ strerror e ++ nl) ;;;
           ret (bad + 1)%Z
         else ret bad
       else ret bad) ;;
    bad <-
      (if (has_fmode parsed && S_ISREG (st_mode statptr))%bool then
         r <- call (sys_chmod filename (fmode parsed)) ;;
         if (r <? 0)%Z then
           e <- observe errno ;;
           uiPrintf ("ApplyParsedPerms: chmod of " ++ cs filename ++ " to "
                     ++ dec (as_int (fmode parsed)) ++ " failed: " ++ strerror e ++ nl) ;;;
           ret (bad + 1)%Z
         else ret bad
       else ret bad) ;;
    bad <-
      (if (has_capabilities parsed && S_ISREG (st_mode statptr))%bool then
         if (capabilities parsed =? 0)%Z then
           r <- call (sys_removexattr filename XATTR_NAME_CAPS) ;;
           e <- observe errno ;;
           if ((r =? -1)%Z && negb (e =? ENODATA)%Z)%bool then
             (* Report failure unless it's ENODATA (attribute not set) *)
             uiPrintf ("ApplyParsedPerms: removexattr of " ++ cs filename ++ " to "
                       ++ hex (capabilities parsed) ++ " failed: " ++ strerror e ++ nl) ;;;
             ret (bad + 1)%Z
           else ret bad
         else
           let cap_data :=
             mkVfsCapData (Z.lor VFS_CAP_REVISION VFS_CAP_FLAGS_EFFECTIVE)
               (Z.land (capabilities parsed) 0xffffffff) 0
               (Z.shiftr (capabilities parsed) 32) 0 in
           r <- call (sys_setxattr filename XATTR_NAME_CAPS cap_data 0) ;;
           if (r <? 0)%Z then
             e <- observe errno ;;
             uiPrintf ("ApplyParsedPerms: setcap of " ++ cs filename ++ " to "
                       ++ hex (capabilities parsed) ++ " failed: " ++ strerror e ++ nl) ;;;
             ret (bad + 1)%Z
           else ret bad
       else ret bad) ;;
    ret bad.

(** libc's [nftw], by its contract (POSIX, ftw.h): the function is called
    for every entry of the walk as long as it returns 0; a nonzero return
    stops the walk and is the result of [nftw]; after the last entry the
    result is 0, or -1 on an error of the walk itself. *)
Fixpoint nftw_walk (fn : string -> stat -> M W Z) (entries : list (string * stat))
  (err : bool) : M W Z :=
  match entries with
  | [] => ret (if err then -1 else 0)%Z
  | (fpath, sb) :: rest =>
      r <- fn fpath sb ;;
      if negb (r =? 0)%Z then ret r else nftw_walk fn rest err
  end.

Definition nftw (path : string) (fn : string -> stat -> M W Z) : M W Z :=
  p <- observe (ftw_entries path) ;;
  nftw_walk fn (fst p) (snd p).

(** nftw doesn't allow us to pass along context, so the source keeps the
    parsed arguments in a global variable for the time of the walk. *)
Definition do_SetMetadataRecursive (recursive_parsed_args : perm_parsed_args)
  (filename : string) (statptr : stat) : M W Z :=
  ApplyParsedPerms filename statptr recursive_parsed_args.

(** The failure count [bad] of [SetMetadataFn]. *)
Definition SetMetadata_bad (name : string) (args : list string) (sb : stat)
  (parsed : perm_parsed_args) : M W Z :=
  let bad := 0%Z in
  let recursive := name =? "set_metadata_recursive" in
  if recursive then
    r <- nftw (arg args 0) (do_SetMetadataRecursive parsed) ;;
    ret (bad + r)%Z
  else
    r <- ApplyParsedPerms (arg args 0) sb parsed ;;
    ret (bad + r)%Z.

Definition SetMetadataFn : Fn W := fun name argv =>
  if negb (Nat.modulo (List.length argv) 2 =? 1)%nat then
    ErrorAbort kArgsParsingFailure
      (name ++ "() expects an odd number of arguments, got "
       ++ dec_size (List.length argv))
  else
    match ReadArgs argv with
    | None =>
        ErrorAbort kArgsParsingFailure (name ++ "() Failed to parse the argument(s)")
    | Some args =>
        r <- call (sys_lstat (arg args 0)) ;;
        match r with
        | None =>
            e <- observe errno ;;
            ErrorAbort kSetMetadataFailure
              (name ++ ": Error on lstat of " ++ dq ++ cs (arg args 0) ++ dq ++ ": "
               ++ strerror e)
        | Some sb =>
            parsed <- ParsePermArgs args ;;
            bad <- SetMetadata_bad name args sb parsed ;;
            if (0 <? bad)%Z then
              ErrorAbort kSetMetadataFailure (name ++ ": some changes failed")
            else ret (Some (StringValue ""))
        end
    end.

End Metadata.

(** ** Staged reboot protocol *)

Section StagedReboot.
Context {W : Type} `{AndroidBase W} `{BootloaderMessage W} `{Libc W}.

Definition RebootNowFn : Fn W := fun name argv =>
  if negb (List.length argv =? 2)%nat then
    ErrorAbort kArgsParsingFailure
      (name ++ "() expects 2 args, got " ++ dec_size (List.length argv))
  else
    match ReadArgs argv with
    | None =>
        ErrorAbort kArgsParsingFailure (name ++ "(): Failed to parse the argument(s)")
    | Some args =>
        let filename := arg args 0 in
        let property := arg args 1 in
        (* Zero out the 'command' field of the bootloader message. Leave the
           rest intact. *)
        r <- observe (read_bootloader_message_from filename) ;;
        match r with
        | None => ret (Some (StringValue ""))
        | Some boot =>
            let boot :=
              mkBootloaderMessage (memset_zero (command boot)) (status boot)
                (recovery boot) (stage boot) (reserved boot) in
            ok <- call (write_bootloader_message_to boot filename) ;;
            if negb ok then ret (Some (StringValue ""))
            else
              let reboot_cmd := "reboot," ++ property in
              q <- observe (GetBoolProperty "ro.boot.quiescent" false) ;;
              let reboot_cmd :=
                if q then reboot_cmd ++ ",quiescent" else reboot_cmd in
              call (SetProperty ANDROID_RB_PROPERTY reboot_cmd) ;;;
              call (sleep 5) ;;;
              ErrorAbort kRebootFailure (name ++ "() failed to reboot")
        end
    end.

Definition SetStageFn : Fn W := fun name argv =>
  if negb (List.length argv =? 2)%nat then
    ErrorAbort kArgsParsingFailure
      (name ++ "() expects 2 args, got " ++ dec_size (List.length argv))
  else
    match ReadArgs argv with
    | None =>
        ErrorAbort kArgsParsingFailure (name ++ "() Failed to parse the argument(s)")
    | Some args =>
        let filename := arg args 0 in
        let stagestr := arg args 1 in
        r <- observe (read_bootloader_message_from filename) ;;
        match r with
        | None => ret (Some (StringValue ""))
        | Some boot =>
            let boot :=
              mkBootloaderMessage (command boot) (status boot) (recovery boot)
                (strlcpy (stage boot) (c_str stagestr) sizeof_stage)
                (reserved boot) in
            ok <- call (write_bootloader_message_to boot filename) ;;
            if negb ok then ret (Some (StringValue ""))
            else ret (Some (StringValue filename))
        end
    end.

Definition GetStageFn : Fn W := fun name argv =>
  if negb (List.length argv =? 1)%nat then
    ErrorAbort kArgsParsingFailure
      (name ++ "() expects 1 arg, got " ++ dec_size (List.length argv))
  else
    match ReadArgs argv with
    | None =>
        ErrorAbort kArgsParsingFailure (name ++ "() Failed to parse the argument(s)")
    | Some args =>
        let filename := arg args 0 in
        r <- observe (read_bootloader_message_from filename) ;;
        match r with
        | None => ret (Some (StringValue ""))
        | Some boot => ret (Some (StringValue (string_of_c_str (stage boot))))
        end
    end.

End StagedReboot.

(** ** The registry *)

Section Registry.
Context {W : Type} {AB : AndroidBase W} {BM : BootloaderMessage W} {LC : Libc W}
  {SE : Selinux W} {MT : Mounts W} {ZA : ZipArchive W} {IO : OtaIo W}
  {AP : ApplyPatch W} {FT : FsTools W}.

(** The calls of [RegisterFunction], in the order of the source. *)
Definition RegisterInstallFunctions : list (string * Fn W) :=
  [ ("mount", MountFn);
    ("is_mounted", IsMountedFn);
    ("unmount", UnmountFn);
    ("format", FormatFn);
    ("show_progress", ShowProgressFn);
    ("set_progress", SetProgressFn);
    ("delete", DeleteFn);
    ("delete_recursive", DeleteFn);
    ("package_extract_dir", PackageExtractDirFn);
    ("package_extract_file", PackageExtractFileFn);
    ("symlink", SymlinkFn);
    ("set_metadata", SetMetadataFn);
    ("set_metadata_recursive", SetMetadataFn);
    ("getprop", GetPropFn);
    ("file_getprop", FileGetPropFn);
    ("apply_patch", ApplyPatchFn);
    ("apply_patch_check", ApplyPatchCheckFn);
    ("apply_patch_space", ApplyPatchSpaceFn);
    ("wipe_block_device", WipeBlockDeviceFn);
    ("read_file", ReadFileFn);
    ("sha1_check", Sha1CheckFn);
    ("rename", RenameFn);
    ("write_value", WriteValueFn);
    ("wipe_cache", WipeCacheFn);
    ("ui_print", UIPrintFn);
    ("run_program", RunProgramFn);
    ("reboot_now", RebootNowFn);
    ("get_stage", GetStageFn);
    ("set_stage", SetStageFn);
    ("enable_reboot", EnableRebootFn);
    ("tune2fs", Tune2FsFn) ].

(** The handler registered under a name. *)
Fixpoint FindFunction (table : list (string * Fn W)) (name : string) : option (Fn W) :=
  match table with
  | [] => None
  | (n, fn) :: rest => if n =? name then Some fn else FindFunction rest name
  end.

(** A call of a registered operation from the script: the handler runs
    with the name it was called by. *)
Definition call_operation (name : string) (argv : list Expr)
  : option (M W (option Value)) :=
  match FindFunction RegisterInstallFunctions name with
  | Some fn => Some (fn name argv)
  | None => None
  end.

End Registry.

(** ** A simulated device

    One implementation of the interfaces, to run the handlers on concrete
    inputs: every call that changes the world is recorded, a predicate
    tells which calls fail, and the device holds one boot-control record,
    a mount table, a package and a file tree (listed in the order of a
    depth-first walk). *)

Record Call : Set := mkCall { call_fn : string; call_args : list string }.

Record Sim : Type := mkSim {
  trace : list Call;
  failing : Call -> bool;
  misc : option bootloader_message;
  mounted : list string;
  package : list (string * string);
  files : list (string * stat)
}.

Definition record_call (c : Call) (w : Sim) : Sim :=
  mkSim (trace w ++ [c])%list (failing w) (misc w) (mounted w) (package w) (files w).

(** A call that returns 0, or -1 when it is one of the failing calls. *)
Definition sim_call (fn : string) (args : list string) (w : Sim) : Z * Sim :=
  let c := mkCall fn args in
  ((if failing w c then -1 else 0)%Z, record_call c w).

Definition sim_bool (fn : string) (args : list string) (w : Sim) : bool * Sim :=
  let c := mkCall fn args in
  (negb (failing w c), record_call c w).

Fixpoint sim_lookup {A : Type} (k : string) (l : list (string * A)) : option A :=
  match l with
  | [] => None
  | (k', a) :: rest => if k' =? k then Some a else sim_lookup k rest
  end.

Definition digit_of (c : ascii) : option Z :=
  let n := Z.of_nat (nat_of_ascii c) in
  if ((48 <=? n) && (n <=? 57))%Z%bool then Some (n - 48)%Z else None.

Fixpoint parse_digits (acc : Z) (s : string) : option Z :=
  match s with
  | EmptyString => Some acc
  | String c s' =>
      match digit_of c with
      | Some d => parse_digits (10 * acc + d)%Z s'
      | None => None
      end
  end.

Definition parse_uint (s : string) : option Z :=
  match s with
  | EmptyString => None
  | _ => parse_digits 0 s
  end.

Definition parse_int (s : string) : option Z :=
  match s with
  | String "-" s' => option_map Z.opp (parse_uint s')
  | _ => parse_uint s
  end.

#[export] Instance Sim_AndroidBase : AndroidBase Sim := {
  double := string;
  ParseInt64 := parse_int;
  ParseInt := parse_int;
  ParseUint := parse_uint;
  ParseDouble := fun s => Some s;
  Trim := fun s => s;
  printf_f := fun d => d;
  GetProperty := fun _ default_value _ => default_value;
  GetBoolProperty := fun _ default_value _ => default_value;
  SetProperty := fun key value => sim_bool "SetProperty" [key; value];
  WriteStringToFile := fun content path => sim_bool "WriteStringToFile" [content; path];
  ANDROID_RB_PROPERTY := "sys.powerctl"
}.

#[export] Instance Sim_BootloaderMessage : BootloaderMessage Sim := {
  read_bootloader_message_from := fun path w =>
    if failing w (mkCall "read_bootloader_message_from" [path]) then None else misc w;
  write_bootloader_message_to := fun boot path w =>
    let c := mkCall "write_bootloader_message_to" [path] in
    if failing w c then (false, record_call c w)
    else (true, mkSim (trace w ++ [c])%list (failing w) (Some boot) (mounted w)
                  (package w) (files w))
}.

#[export] Instance Sim_Libc : Libc Sim := {
  errno := fun _ => 13%Z;
  strerror := fun e => "errno " ++ dec e;
  ENOENT := 2%Z;
  ENODATA := 61%Z;
  sys_stat := fun path w => (sim_lookup path (files w), w);
  sys_lstat := fun path w => (sim_lookup path (files w), w);
  sys_mkdir := fun path m => sim_call "mkdir" [path; dec m];
  sys_mount := fun source target fstype flags options =>
    sim_call "mount" [source; target; fstype; dec flags; options];
  sys_access := fun path m => sim_call "access" [path; dec m];
  sys_rename := fun a b => sim_call "rename" [a; b];
  sys_unlink := fun path => sim_call "unlink" [path];
  sys_symlink := fun target path => sim_call "symlink" [target; path];
  sys_chown := fun path u g => sim_call "chown" [path; dec u; dec g];
  sys_chmod := fun path m => sim_call "chmod" [path; dec m];
  sys_removexattr := fun path attr => sim_call "removexattr" [path; attr];
  sys_setxattr := fun path attr cap flags =>
    sim_call "setxattr"
      [path; attr; hex (data0_permitted cap); hex (data1_permitted cap)];
  run_child := fun path argv w =>
    let c := mkCall path argv in
    ((if failing w c then 256 else 0)%Z, record_call c w);
  sleep := fun n w => (tt, record_call (mkCall "sleep" [dec n]) w);
  sscanf_d64 := parse_int;
  sscanf_i32 := parse_int;
  sscanf_i64 := parse_int;
  mode_t_bits := 32%Z;
  ftw_entries := fun path w =>
    (filter (fun e => prefix path (fst e)) (files w), false);
  XATTR_NAME_CAPS := "security.capability";
  VFS_CAP_REVISION := 0x02000000%Z;
  VFS_CAP_FLAGS_EFFECTIVE := 1%Z
}.

#[export] Instance Sim_Selinux : Selinux Sim := {
  sehandle := fun _ => false;
  selabel_lookup := fun _ _ w => (None, w);
  setfscreatecon := fun con =>
    sim_call "setfscreatecon" [match con with Some c => c | None => "" end];
  lsetfilecon := fun path con => sim_call "lsetfilecon" [path; con]
}.

#[export] Instance Sim_Mounts : Mounts Sim := {
  MountedVolume := string;
  scan_mounted_volumes := fun w => (true, w);
  find_mounted_volume_by_mount_point := fun mount_point w =>
    if existsb (String.eqb mount_point) (mounted w) then Some mount_point else None;
  unmount_mounted_volume := fun vol => sim_call "unmount_mounted_volume" [vol]
}.

#[export] Instance Sim_ZipArchive : ZipArchive Sim := {
  ZipEntry := string;
  uncompressed_length := String.length;
  FindEntry := fun path w => sim_lookup path (package w);
  ExtractEntryToFile := fun entry fd => sim_call "ExtractEntryToFile" [entry; dec fd];
  ExtractToMemory := fun entry _ w =>
    ((if failing w (mkCall "ExtractToMemory" [entry]) then -1 else 0)%Z, entry);
  ErrorCodeString := fun r => "error " ++ dec r;
  ExtractPackageRecursive := fun zip_path dest_path _ _ =>
    sim_bool "ExtractPackageRecursive" [zip_path; dest_path]
}.

#[export] Instance Sim_OtaIo : OtaIo Sim := {
  FILE := string;
  ota_open := fun path _ _ w =>
    let c := mkCall "ota_open" [path] in
    ((if failing w c then -1 else 3)%Z, record_call c w);
  ota_fsync := fun fd => sim_call "ota_fsync" [dec fd];
  ota_close := fun fd => sim_call "ota_close" [dec fd];
  ota_fopen := fun path _ w =>
    let c := mkCall "ota_fopen" [path] in
    (if failing w c then None else Some path, record_call c w);
  ota_fread := fun n f w => ((n, ""), record_call (mkCall "ota_fread" [f]) w);
  ota_fclose := fun f => sim_call "ota_fclose" [f]
}.

#[export] Instance Sim_ApplyPatch : ApplyPatch Sim := {
  applypatch := fun source target sha1 size shas _ =>
    sim_call "applypatch" (source :: target :: sha1 :: dec size :: shas);
  applypatch_check := fun path shas => sim_call "applypatch_check" (path :: shas);
  CacheSizeCheck := fun bytes => sim_call "CacheSizeCheck" [dec bytes];
  LoadFileContents := fun path w => (sim_lookup path (package w), w);
  SHA1 := fun d => d;
  ParseSha1 := fun s => Some s;
  print_sha1 := fun d => d
}.

#[export] Instance Sim_FsTools : FsTools Sim := {
  dirUnlinkHierarchy := fun path => sim_call "dirUnlinkHierarchy" [path];
  wipe_block_device := fun fd len => sim_call "wipe_block_device" [dec fd; dec len];
  HAVE_LIBTUNE2FS := true;
  tune2fs_main := fun args => sim_call "tune2fs_main" args
}.

(** A device on which no call fails. *)
Definition sim0 : Sim := mkSim [] (fun _ => false) None [] [] [].

Definition start (w : Sim) : Updater Sim := mkUpdater (mkState "" kNoCause false) [] w.

Definition str (s : string) : Expr := Some (StringValue s).

(** A character array of [n] bytes holding a string. *)
Definition char_array (n : nat) (s : string) : list ascii :=
  firstn n (list_ascii_of_string s ++ repeat NUL n)%list.

(** A boot-control record with a pending command and the stage 1/3. *)
Definition boot0 : bootloader_message :=
  mkBootloaderMessage (char_array 32 "boot-recovery") (char_array 32 "")
    (char_array 768 "recovery") (char_array 32 "1/3") (char_array 1184 "").

Definition mode_file : Z := 0x81A4.
Definition mode_dir : Z := 0x41ED.

(** The directory /d with the files a and b, in the order of the walk. *)
Definition tree : list (string * stat) :=
  [("/d/a", mkStat mode_file 0); ("/d/b", mkStat mode_file 0); ("/d", mkStat mode_dir 0)].

(** A device with that record, /system mounted, a package with one entry
    and that tree, on which no call fails. *)
Definition sim1 : Sim :=
  mkSim [] (fun _ => false) (Some boot0) ["/system"] [("a.txt", "hello")] tree.

(** The same device when the calls chosen by [bad] fail. *)
Definition sim_failing (bad : Call -> bool) : Sim :=
  mkSim [] bad (Some boot0) ["/system"] [("a.txt", "hello")] tree.

Definition fails_fn (fn : string) : Call -> bool := fun c => call_fn c =? fn.

Definition fails_on (fn path : string) : Call -> bool :=
  fun c => ((call_fn c =? fn) && (nth 0 (call_args c) "" =? path))%bool.

(** The libc of the device when every tree walk ends in an error of its
    own behind the entries it has visited. *)
Definition Sim_Libc_walk_error : Libc Sim := {|
  errno := @errno Sim Sim_Libc;
  strerror := @strerror Sim Sim_Libc;
  ENOENT := @ENOENT Sim Sim_Libc;
  ENODATA := @ENODATA Sim Sim_Libc;
  sys_stat := @sys_stat Sim Sim_Libc;
  sys_lstat := @sys_lstat Sim Sim_Libc;
  sys_mkdir := @sys_mkdir Sim Sim_Libc;
  sys_mount := @sys_mount Sim Sim_Libc;
  sys_access := @sys_access Sim Sim_Libc;
  sys_rename := @sys_rename Sim Sim_Libc;
  sys_unlink := @sys_unlink Sim Sim_Libc;
  sys_symlink := @sys_symlink Sim Sim_Libc;
  sys_chown := @sys_chown Sim Sim_Libc;
  sys_chmod := @sys_chmod Sim Sim_Libc;
  sys_removexattr := @sys_removexattr Sim Sim_Libc;
  sys_setxattr := @sys_setxattr Sim Sim_Libc;
  run_child := @run_child Sim Sim_Libc;
  sleep := @sleep Sim Sim_Libc;
  sscanf_d64 := @sscanf_d64 Sim Sim_Libc;
  sscanf_i32 := @sscanf_i32 Sim Sim_Libc;
  sscanf_i64 := @sscanf_i64 Sim Sim_Libc;
  mode_t_bits := @mode_t_bits Sim Sim_Libc;
  ftw_entries := fun path w => (fst (@ftw_entries Sim Sim_Libc path w), true);
  XATTR_NAME_CAPS := @XATTR_NAME_CAPS Sim Sim_Libc;
  VFS_CAP_REVISION := @VFS_CAP_REVISION Sim Sim_Libc;
  VFS_CAP_FLAGS_EFFECTIVE := @VFS_CAP_FLAGS_EFFECTIVE Sim Sim_Libc
|}.

(** The libc of the device when a failing child does not exit but is
    ended by the signal 9: its wait status is the number of the signal. *)
Definition Sim_Libc_killed : Libc Sim := {|
  errno := @errno Sim Sim_Libc;
  strerror := @strerror Sim Sim_Libc;
  ENOENT := @ENOENT Sim Sim_Libc;
  ENODATA := @ENODATA Sim Sim_Libc;
  sys_stat := @sys_stat Sim Sim_Libc;
  sys_lstat := @sys_lstat Sim Sim_Libc;
  sys_mkdir := @sys_mkdir Sim Sim_Libc;
  sys_mount := @sys_mount Sim Sim_Libc;
  sys_access := @sys_access Sim Sim_Libc;
  sys_rename := @sys_rename Sim Sim_Libc;
  sys_unlink := @sys_unlink Sim Sim_Libc;
  sys_symlink := @sys_symlink Sim Sim_Libc;
  sys_chown := @sys_chown Sim Sim_Libc;
  sys_chmod := @sys_chmod Sim Sim_Libc;
  sys_removexattr := @sys_removexattr Sim Sim_Libc;
  sys_setxattr := @sys_setxattr Sim Sim_Libc;
  run_child := fun path argv w =>
    let c := mkCall path argv in
    ((if failing w c then 9 else 0)%Z, record_call c w);
  sleep := @sleep Sim Sim_Libc;
  sscanf_d64 := @sscanf_d64 Sim Sim_Libc;
  sscanf_i32 := @sscanf_i32 Sim Sim_Libc;
  sscanf_i64 := @sscanf_i64 Sim Sim_Libc;
  mode_t_bits := @mode_t_bits Sim Sim_Libc;
  ftw_entries := @ftw_entries Sim Sim_Libc;
  XATTR_NAME_CAPS := @XATTR_NAME_CAPS Sim Sim_Libc;
  VFS_CAP_REVISION := @VFS_CAP_REVISION Sim Sim_Libc;
  VFS_CAP_FLAGS_EFFECTIVE := @VFS_CAP_FLAGS_EFFECTIVE Sim Sim_Libc
|}.

(** ** Notions used in the statements *)

(** The call ended in the abort signal of the given kind. *)
Definition hard_abort {W : Type} (cause : CauseCode) (r : option Value * Updater W)
  : Prop :=
  fst r = None /\ cause_code (state (snd r)) = cause.

(** The call returned a value, and raised no abort. *)
Definition soft_result {W : Type} (v : Value) (u : Updater W)
  (r : option Value * Updater W) : Prop :=
  fst r = Some v /\ state (snd r) = state u.

(** A string without a NUL byte. *)
Definition is_c_string (s : string) : Prop := ~ In NUL (list_ascii_of_string s).

(** The first [n] bytes of a string. *)
Definition truncate (n : nat) (s : string) : string :=
  if (String.length s <=? n)%nat then s else substring 0 n s.

(** The two tools [format] runs for one filesystem: the second only after
    the first exited with 0, the location as the result after both did, the
    empty string otherwise. *)
Definition tool_chain {W : Type} {LC : Libc W}
  (tool1 : string) (argv1 : list (option string))
  (tool2 : string) (argv2 : list (option string)) (location : string)
  : M W (option Value) :=
  status <- exec_cmd tool1 argv1 ;;
  if negb (status =? 0)%Z then ret (Some (StringValue ""))
  else
    status <- exec_cmd tool2 argv2 ;;
    if negb (status =? 0)%Z then ret (Some (StringValue ""))
    else ret (Some (StringValue location)).

(** Every pair of the values is a string followed by a blob. *)
Fixpoint sha_blob_pairs (vals : list Value) : bool :=
  match vals with
  | sha :: patch :: rest =>
      (ValueType_eqb (type sha) VAL_STRING && ValueType_eqb (type patch) VAL_BLOB
       && sha_blob_pairs rest)%bool
  | _ => true
  end.

(** The four forms of a result: the abort signal (null), "t", the empty
    string, a blob. *)
Definition four_forms (r : option Value) : Prop :=
  r = None \/ r = Some (StringValue "t") \/ r = Some (StringValue "") \/
  exists d, r = Some (mkValue VAL_BLOB d).

Definition truthy_or_falsy (v : Value) : Prop :=
  v = StringValue "t" \/ v = StringValue "".

(** The operations whose values are only "t" and the empty string. *)
Definition flag_operations : list string :=
  ["package_extract_dir"; "symlink"; "apply_patch"; "apply_patch_check";
   "apply_patch_space"; "wipe_block_device"; "write_value"; "wipe_cache";
   "enable_reboot"; "tune2fs"].

(** The operations whose only value is the empty string. *)
Definition empty_operations : list string :=
  ["set_metadata"; "set_metadata_recursive"; "reboot_now"].

(** The values an operation returns, by its name: "t" or the empty string;
    the empty string alone; for [package_extract_file] also a blob; for
    [read_file] a blob or the invalid value; for every other operation a
    string of its own (a mount point, a path, a count, a property, ...). *)
Definition value_form (name : string) (v : Value) : Prop :=
  if existsb (String.eqb name) flag_operations then truthy_or_falsy v
  else if existsb (String.eqb name) empty_operations then v = StringValue ""
  else if name =? "package_extract_file" then truthy_or_falsy v \/ type v = VAL_BLOB
  else if name =? "read_file" then type v = VAL_BLOB \/ v = mkValue VAL_INVALID ""
  else type v = VAL_STRING.

(** A result: a value with the property [P], or null, and then either the
    abort signal with an error kind or a state left as it was. *)
Definition result_is {W : Type} (P : Value -> Prop) (u : Updater W)
  (r : option Value * Updater W) : Prop :=
  match fst r with
  | Some v => P v
  | None => cause_code (state (snd r)) <> kNoCause \/ state (snd r) = state u
  end.

Section StorageProperties.
Context {W : Type} {BM : BootloaderMessage W}.

(** From the world [w], a write of a record to [path] succeeds and the
    record is what is read from there afterwards. *)
Definition storage_works (path : string) (w : W) : Prop :=
  forall b, exists w',
    write_bootloader_message_to b path w = (true, w') /\
    read_bootloader_message_from path w' = Some b.

(** An external call that leaves the boot-control record at [path] alone. *)
Definition leaves_record {A : Type} (path : string) (f : W -> A * W) : Prop :=
  forall w,
    read_bootloader_message_from path (snd (f w)) = read_bootloader_message_from path w.

End StorageProperties.

(** ** Notions used in the further statements *)

(** A string that holds a newline. *)
Definition has_newline (s : string) : Prop := In "010"%char (list_ascii_of_string s).

(** The bytes of a string before its first NUL byte. *)
Fixpoint before_nul (s : string) : string :=
  match s with
  | EmptyString => ""
  | String c s' => if Ascii.eqb c NUL then "" else String c (before_nul s')
  end.

(** What [uiPrint] sends for one line: the line up to its first NUL byte
    between the command word and a newline. *)
Definition ui_print_command (line : string) : string :=
  "ui_print " ++ before_nul line ++ String "010" "".

(** The world in which [mount] makes its system call: the mount point has
    been made with mode 0755, under the file-creation label looked up for
    it when there is a label handle, and the label has been reset. *)
Definition mount_prepared {W : Type} {LC : Libc W} {SE : Selinux W}
  (mount_point : string) (w : W) : W :=
  if sehandle w then
    let (secontext, w1) := selabel_lookup mount_point 493 w in
    let w2 := snd (setfscreatecon secontext w1) in
    let w3 := snd (sys_mkdir mount_point 493 w2) in
    match secontext with
    | Some _ => snd (setfscreatecon None w3)
    | None => w3
    end
  else snd (sys_mkdir mount_point 493 w).

(** What the removals of the paths return, one after the other, and the
    world behind the last one. *)
Fixpoint removals {W : Type} (remove : string -> W -> Z * W) (paths : list string)
  (w : W) : list Z * W :=
  match paths with
  | [] => ([], w)
  | path :: rest =>
      let (r, w1) := remove path w in
      let (rs, w2) := removals remove rest w1 in
      (r :: rs, w2)
  end.

(** How many of the returned values are 0. *)
Definition zeros (results : list Z) : Z :=
  Z.of_nat (List.length (filter (fun r => (r =? 0)%Z) results)).

(** The call ended in the abort of the given kind before anything outside
    the evaluator state was touched. *)
Definition aborts_untouched {W : Type} (cause : CauseCode) (u : Updater W)
  (r : option Value * Updater W) : Prop :=
  hard_abort cause r /\ world (snd r) = world u /\ cmd_pipe (snd r) = cmd_pipe u.

(** The parent directories of a path: the prefix before every '/' that
    is not its first character, shortest first. *)
Fixpoint parents_from (name rest : string) (pos : nat) : list string :=
  match rest with
  | EmptyString => []
  | String c rest' =>
      if (Ascii.eqb c "/"%char && (1 <=? pos)%nat)%bool
      then substring 0 pos name :: parents_from name rest' (S pos)
      else parents_from name rest' (S pos)
  end.

Definition parents (name : string) : list string := parents_from name name 0.

(** The argument names the digest: it is a string that parses as a sha-1
    equal to it. *)
Definition names_digest {W : Type} {AP : ApplyPatch W} (digest : string) (a : Value)
  : bool :=
  (ValueType_eqb (type a) VAL_STRING &&
   match ParseSha1 (data a) with
   | Some arg_digest => String.eqb digest arg_digest
   | None => false
   end)%bool.







(** * Properties *)

Ltac unfold_m :=
  unfold bind, ret, call, observe, ErrorAbort, fprintf_cmd_pipe, get_is_retry in *.

(** Case analysis on a scrutinee of the goal that holds no other one. *)
Ltac destr_match :=
  match goal with
  | |- context [match ?x with _ => _ end] =>
      lazymatch x with
      | context [match _ with _ => _ end] => fail
      | _ => destruct x eqn:?
      end
  end.

(** ** C strings *)

Lemma upto_nul_no_nul (l : list ascii) : ~ In NUL l -> upto_nul l = l.
Proof.
  induction l as [|c l IH]; simpl; intros Hn; [reflexivity|].
  unfold is_nul. destruct (Ascii.eqb_spec c NUL) as [->|_].
  - exfalso. apply Hn. now left.
  - f_equal. apply IH. intros Hin. apply Hn. now right.
Qed.

Lemma upto_nul_stops (a b : list ascii) :
  ~ In NUL a -> upto_nul (a ++ NUL :: b)%list = a.
Proof.
  induction a as [|c a IH]; simpl; intros Hn; [reflexivity|].
  unfold is_nul. destruct (Ascii.eqb_spec c NUL) as [->|_].
  - exfalso. apply Hn. now left.
  - f_equal. apply IH. intros Hin. apply Hn. now right.
Qed.

Lemma upto_nul_has_no_nul (l : list ascii) : ~ In NUL (upto_nul l).
Proof.
  induction l as [|c l IH]; simpl; [tauto|].
  unfold is_nul. destruct (Ascii.eqb_spec c NUL) as [->|Hc]; simpl; [tauto|].
  intros [H|H]; [now apply Hc | now apply IH].
Qed.

Lemma firstn_no_nul (n : nat) (l : list ascii) : ~ In NUL l -> ~ In NUL (firstn n l).
Proof.
  revert l. induction n as [|n IH]; intros [|c l] Hn; simpl; try tauto.
  intros [H|H].
  - apply Hn. now left.
  - apply (IH l); [|exact H]. intros Hin. apply Hn. now right.
Qed.

(** Reading back what [strlcpy] stored gives the source, cut to the
    capacity of the array. *)
Lemma strlcpy_read_back (dst src : list ascii) (size : nat) :
  ~ In NUL src ->
  upto_nul (strlcpy dst src (S size)) = firstn size src.
Proof.
  intros Hn. unfold strlcpy.
  rewrite upto_nul_stops by now apply firstn_no_nul.
  destruct (Nat.min_spec (List.length src) size) as [[Hlt ->]|[Hle ->]].
  - rewrite !firstn_all2; [reflexivity | lia | lia].
  - reflexivity.
Qed.

Lemma string_of_firstn (n : nat) (s : string) :
  string_of_list_ascii (firstn n (list_ascii_of_string s)) = substring 0 n s.
Proof.
  revert n. induction s as [|c s IH]; intros [|n]; simpl; try reflexivity.
  now rewrite IH.
Qed.

Lemma substring_all (s : string) (n : nat) :
  (String.length s <= n)%nat -> substring 0 n s = s.
Proof.
  revert n. induction s as [|c s IH]; intros [|n]; simpl; intros Hl;
    try reflexivity; try lia.
  f_equal. apply IH. lia.
Qed.

Lemma truncate_substring (n : nat) (s : string) : truncate n s = substring 0 n s.
Proof.
  unfold truncate. destruct (Nat.leb_spec (String.length s) n) as [Hl|Hl].
  - symmetry. now apply substring_all.
  - reflexivity.
Qed.

Lemma cs_c_string (s : string) : is_c_string s -> cs s = s.
Proof.
  intros Hs. unfold cs, c_str. rewrite upto_nul_no_nul by exact Hs.
  apply string_of_list_ascii_of_string.
Qed.

(** [memset] to 0 keeps the size of the array and leaves only NUL bytes. *)
Lemma memset_zero_clears (a : list ascii) :
  List.length (memset_zero a) = List.length a /\
  Forall (fun c => c = NUL) (memset_zero a).
Proof.
  unfold memset_zero. split; [apply length_map|].
  induction a as [|c a IH]; cbn [map]; constructor; [reflexivity | exact IH].
Qed.

(** What [get_stage] reads after [strlcpy] stored a token. *)
Lemma stage_read_back (dst : list ascii) (token : string) :
  string_of_c_str (strlcpy dst (c_str token) sizeof_stage) = truncate 31 (cs token).
Proof.
  unfold string_of_c_str, sizeof_stage.
  rewrite strlcpy_read_back by apply upto_nul_has_no_nul.
  rewrite truncate_substring. unfold cs.
  rewrite <- string_of_firstn.
  now rewrite list_ascii_of_string_of_list_ascii.
Qed.

(** ** Staged reboot protocol *)

Section StagedRebootProperties.
Context {W : Type} {AB : AndroidBase W} {BM : BootloaderMessage W} {LC : Libc W}.

(** The record [reboot_now] writes back. *)
Lemma RebootNowFn_read (u : Updater W) (name path target : string)
  (boot : bootloader_message) :
  read_bootloader_message_from path (world u) = Some boot ->
  RebootNowFn name [str path; str target] u =
  (ok <- call (write_bootloader_message_to
                 (mkBootloaderMessage (memset_zero (command boot)) (status boot)
                    (recovery boot) (stage boot) (reserved boot)) path) ;;
   if negb ok then ret (Some (StringValue ""))
   else
     q <- observe (GetBoolProperty "ro.boot.quiescent" false) ;;
     call (SetProperty ANDROID_RB_PROPERTY
             (if q then ("reboot," ++ target) ++ ",quiescent" else "reboot," ++ target)) ;;;
     call (sleep 5) ;;;
     ErrorAbort kRebootFailure (name ++ "() failed to reboot")) u.
Proof.
  intros Hread. unfold RebootNowFn. simpl. unfold_m. simpl. unfold arg. simpl.
  rewrite Hread. reflexivity.
Qed.

(** The record [set_stage] writes back. *)
Lemma SetStageFn_read (u : Updater W) (name path token : string)
  (boot : bootloader_message) :
  read_bootloader_message_from path (world u) = Some boot ->
  SetStageFn name [str path; str token] u =
  (ok <- call (write_bootloader_message_to
                 (mkBootloaderMessage (command boot) (status boot) (recovery boot)
                    (strlcpy (stage boot) (c_str token) sizeof_stage)
                    (reserved boot)) path) ;;
   if negb ok then ret (Some (StringValue "")) else ret (Some (StringValue path))) u.
Proof.
  intros Hread. unfold SetStageFn. simpl. unfold_m. simpl. unfold arg. simpl.
  rewrite Hread. reflexivity.
Qed.

Lemma read_failure_changes_nothing (u : Updater W) (name path x : string) :
  read_bootloader_message_from path (world u) = None ->
  SetStageFn name [str path; str x] u = (Some (StringValue ""), u) /\
  RebootNowFn name [str path; str x] u = (Some (StringValue ""), u).
Proof.
  intros Hread. unfold SetStageFn, RebootNowFn. simpl. unfold_m. simpl.
  unfold arg. simpl. rewrite Hread. split; reflexivity.
Qed.

Lemma GetStageFn_read (u : Updater W) (name path : string)
  (boot : bootloader_message) :
  read_bootloader_message_from path (world u) = Some boot ->
  GetStageFn name [str path] u =
  (Some (StringValue (string_of_c_str (stage boot))), u).
Proof.
  intros Hread. unfold GetStageFn. simpl. unfold_m. simpl. unfold arg. simpl.
  rewrite Hread. reflexivity.
Qed.

End StagedRebootProperties.

(** C2, as the code has it: [reboot_now] on a record that cannot be read,
    or cannot be written back, returns the falsy empty string and raises
    no abort; when the record was written and the reboot request returns
    control, the call ends in the abort of kind [kRebootFailure] with the
    message that the reboot failed. *)
Theorem reboot_now_outcomes {W : Type} {AB : AndroidBase W}
  {BM : BootloaderMessage W} {LC : Libc W}
  (u : Updater W) (name path target : string) :
  let r := RebootNowFn name [str path; str target] u in
  (read_bootloader_message_from path (world u) = None ->
   soft_result (StringValue "") u r /\ world (snd r) = world u) /\
  (forall boot,
     read_bootloader_message_from path (world u) = Some boot ->
     fst (write_bootloader_message_to
            (mkBootloaderMessage (memset_zero (command boot)) (status boot)
               (recovery boot) (stage boot) (reserved boot)) path (world u)) = false ->
     soft_result (StringValue "") u r) /\
  (forall boot,
     read_bootloader_message_from path (world u) = Some boot ->
     fst (write_bootloader_message_to
            (mkBootloaderMessage (memset_zero (command boot)) (status boot)
               (recovery boot) (stage boot) (reserved boot)) path (world u)) = true ->
     hard_abort kRebootFailure r /\
     errmsg (state (snd r)) = name ++ "() failed to reboot").
Proof.
  intros r. subst r. split; [|split].
  - intros Hread.
    destruct (read_failure_changes_nothing u name path target Hread) as [_ ->].
    repeat split.
  - intros boot Hread Hw.
    rewrite (RebootNowFn_read u name path target boot Hread). unfold_m. simpl.
    destruct (write_bootloader_message_to _ path (world u)) as [ok w1].
    simpl in Hw. subst ok. repeat split.
  - intros boot Hread Hw.
    rewrite (RebootNowFn_read u name path target boot Hread). unfold_m. simpl.
    destruct (write_bootloader_message_to _ path (world u)) as [ok w1].
    simpl in Hw. subst ok. simpl.
    destruct (SetProperty _ _ w1) as [b w2]. simpl.
    destruct (sleep 5 w2) as [t w3]. repeat split.
Qed.

Lemma reboot_now_outcomes_witness :
  hard_abort kRebootFailure
    (RebootNowFn "reboot_now" [str "/dev/block/misc"; str "recovery"] (start sim1)) /\
  errmsg (state (snd (RebootNowFn "reboot_now"
                        [str "/dev/block/misc"; str "recovery"] (start sim1)))) =
  "reboot_now() failed to reboot".
Proof.
  apply (proj2 (proj2 (reboot_now_outcomes (start sim1) "reboot_now"
                         "/dev/block/misc" "recovery")) boot0);
    reflexivity.
Defined.

(** C2 fails as stated: on a device whose record cannot be read, and on
    one whose record cannot be written back, [reboot_now] returns the empty
    string and there is no abort. *)
Lemma reboot_now_record_failure_is_soft :
  (read_bootloader_message_from "/dev/block/misc" sim0 = None /\
   RebootNowFn "reboot_now" [str "/dev/block/misc"; str "recovery"] (start sim0) =
   (Some (StringValue ""), start sim0) /\
   ~ hard_abort kRebootFailure
       (RebootNowFn "reboot_now" [str "/dev/block/misc"; str "recovery"] (start sim0))) /\
  (let w := sim_failing (fails_fn "write_bootloader_message_to") in
   let r := RebootNowFn "reboot_now" [str "/dev/block/misc"; str "recovery"] (start w) in
   read_bootloader_message_from "/dev/block/misc" w = Some boot0 /\
   fst r = Some (StringValue "") /\
   state (snd r) = mkState "" kNoCause false /\
   ~ hard_abort kRebootFailure r).
Proof.
  repeat split; try reflexivity; intros [Hnull _]; discriminate Hnull.
Qed.

(** C3: [set_stage] changes only the stage field of the boot-control
    record and [reboot_now] only the pending command, which it clears:
    when the record is read, and the storage keeps what is written and is
    left alone by the reboot request, the record found after [set_stage]
    has the command, status, recovery and reserved contents it had, and the
    record found after [reboot_now] has the stage, status, recovery and
    reserved contents it had and a command of NUL bytes; when the record
    cannot be read, neither call changes anything. *)
Theorem boot_record_frame {W : Type} {AB : AndroidBase W}
  {BM : BootloaderMessage W} {LC : Libc W}
  (u : Updater W) (name path token target : string) :
  (read_bootloader_message_from path (world u) = None ->
   snd (SetStageFn name [str path; str token] u) = u /\
   snd (RebootNowFn name [str path; str target] u) = u) /\
  (forall boot,
     read_bootloader_message_from path (world u) = Some boot ->
     storage_works path (world u) ->
     (forall key value, leaves_record path (SetProperty key value)) ->
     (forall n, leaves_record path (sleep n)) ->
     (exists boot1,
        read_bootloader_message_from path
          (world (snd (SetStageFn name [str path; str token] u))) = Some boot1 /\
        command boot1 = command boot /\ status boot1 = status boot /\
        recovery boot1 = recovery boot /\ reserved boot1 = reserved boot) /\
     (exists boot2,
        read_bootloader_message_from path
          (world (snd (RebootNowFn name [str path; str target] u))) = Some boot2 /\
        stage boot2 = stage boot /\ status boot2 = status boot /\
        recovery boot2 = recovery boot /\ reserved boot2 = reserved boot /\
        List.length (command boot2) = List.length (command boot) /\
        Forall (fun c => c = NUL) (command boot2))).
Proof.
  split.
  - intros Hread.
    destruct (read_failure_changes_nothing u name path token Hread) as [-> _].
    destruct (read_failure_changes_nothing u name path target Hread) as [_ ->].
    split; reflexivity.
  - intros boot Hread Hstore Hprop Hsleep. split.
    + rewrite (SetStageFn_read u name path token boot Hread).
      destruct (Hstore (mkBootloaderMessage (command boot) (status boot)
                          (recovery boot)
                          (strlcpy (stage boot) (c_str token) sizeof_stage)
                          (reserved boot))) as [w1 [Hw Hr]].
      unfold bind, call, ret. cbv beta. rewrite Hw. cbn [negb fst snd world].
      eexists. split; [exact Hr|]. repeat split.
    + rewrite (RebootNowFn_read u name path target boot Hread).
      destruct (Hstore (mkBootloaderMessage (memset_zero (command boot))
                          (status boot) (recovery boot) (stage boot)
                          (reserved boot))) as [w1 [Hw Hr]].
      unfold_m. cbv beta. rewrite Hw. cbn [negb fst snd world].
      match goal with
      | |- context [SetProperty ?k ?v w1] =>
          pose proof (Hprop k v w1) as Hp; destruct (SetProperty k v w1) as [b w2]
      end.
      simpl in Hp |- *.
      pose proof (Hsleep 5 w2) as Hs. destruct (sleep 5 w2) as [t w3].
      simpl in Hs |- *.
      eexists. split; [rewrite Hs, Hp; exact Hr|]. cbn [command].
      repeat split; apply memset_zero_clears.
Qed.

Lemma boot_record_frame_witness :
  (exists boot1,
     read_bootloader_message_from "/dev/block/misc"
       (world (snd (SetStageFn "set_stage" [str "/dev/block/misc"; str "2/3"]
                      (start sim1)))) = Some boot1 /\
     command boot1 = command boot0 /\ status boot1 = status boot0 /\
     recovery boot1 = recovery boot0 /\ reserved boot1 = reserved boot0) /\
  (exists boot2,
     read_bootloader_message_from "/dev/block/misc"
       (world (snd (RebootNowFn "set_stage" [str "/dev/block/misc"; str "recovery"]
                      (start sim1)))) = Some boot2 /\
     stage boot2 = stage boot0 /\ status boot2 = status boot0 /\
     recovery boot2 = recovery boot0 /\ reserved boot2 = reserved boot0 /\
     List.length (command boot2) = 32%nat /\
     Forall (fun c => c = NUL) (command boot2)).
Proof.
  apply (proj2 (boot_record_frame (start sim1) "set_stage" "/dev/block/misc"
                  "2/3" "recovery") boot0).
  - reflexivity.
  - intros b. eexists. split; reflexivity.
  - intros key value w. reflexivity.
  - intros n w. reflexivity.
Defined.

(** C4, as the code has it: on a record that can be read and a storage
    that keeps what is written, [set_stage] of any token succeeds, whatever
    its length, and [get_stage] then returns the first 31 bytes of the
    token read as a C string, that is up to its first NUL byte.  For a
    token without a NUL byte this is the token itself when it has at most
    31 bytes and its 31-byte prefix when it is longer. *)
Theorem set_stage_get_stage_round_trip {W : Type} {BM : BootloaderMessage W}
  (u : Updater W) (name name' path token : string) (boot : bootloader_message) :
  read_bootloader_message_from path (world u) = Some boot ->
  storage_works path (world u) ->
  let r := SetStageFn name [str path; str token] u in
  fst r = Some (StringValue path) /\
  fst (GetStageFn name' [str path] (snd r)) =
    Some (StringValue (truncate 31 (cs token))) /\
  (is_c_string token ->
   fst (GetStageFn name' [str path] (snd r)) =
     Some (StringValue (if (String.length token <=? 31)%nat then token
                        else substring 0 31 token))).
Proof.
  intros Hread Hstore r. subst r.
  assert (Hset : fst (SetStageFn name [str path; str token] u) = Some (StringValue path)
          /\ fst (GetStageFn name' [str path] (snd (SetStageFn name [str path; str token] u)))
             = Some (StringValue (truncate 31 (cs token)))).
  { rewrite (SetStageFn_read u name path token boot Hread).
    destruct (Hstore (mkBootloaderMessage (command boot) (status boot)
                        (recovery boot)
                        (strlcpy (stage boot) (c_str token) sizeof_stage)
                        (reserved boot))) as [w1 [Hw Hr]].
    unfold bind, call, ret. cbv beta. rewrite Hw. cbn [negb fst snd world].
    rewrite (GetStageFn_read (mkUpdater (state u) (cmd_pipe u) w1) name' path _ Hr).
    cbn [fst stage].
    rewrite stage_read_back. split; reflexivity. }
  destruct Hset as [Hs Hg]. split; [exact Hs|]. split; [exact Hg|].
  intros Hc. rewrite Hg. rewrite (cs_c_string token Hc). reflexivity.
Qed.

Lemma set_stage_get_stage_round_trip_witness :
  let r := SetStageFn "set_stage" [str "/dev/block/misc"; str "S2"] (start sim1) in
  fst r = Some (StringValue "/dev/block/misc") /\
  fst (GetStageFn "get_stage" [str "/dev/block/misc"] (snd r)) =
    Some (StringValue "S2").
Proof.
  destruct (set_stage_get_stage_round_trip (start sim1) "set_stage" "get_stage"
              "/dev/block/misc" "S2" boot0) as [Hset [_ Hget]].
  - reflexivity.
  - intros b. eexists. split; reflexivity.
  - split; [exact Hset|]. apply Hget.
    unfold is_c_string. cbn. intros H.
    repeat (destruct H as [H|H]; [discriminate H|]). exact H.
Defined.

(** C4 as it was claimed fails for a token that holds a NUL byte: the
    token of the three bytes S, NUL, 2 fits the field, and [get_stage]
    returns the one byte before the NUL, not the token. *)
Lemma set_stage_token_with_nul_is_cut :
  let token := String "S" (String NUL "2") in
  let r := SetStageFn "set_stage" [str "/dev/block/misc"; str token] (start sim1) in
  (String.length token <= 31)%nat /\
  fst r = Some (StringValue "/dev/block/misc") /\
  fst (GetStageFn "get_stage" [str "/dev/block/misc"] (snd r)) =
    Some (StringValue "S") /\
  fst (GetStageFn "get_stage" [str "/dev/block/misc"] (snd r)) <>
    Some (StringValue token).
Proof.
  cbv zeta. split; [cbn; lia|]. split; [reflexivity|]. split; [reflexivity|].
  intros H. discriminate H.
Qed.

(** ** Filesystem provisioning *)

Section FormatProperties.
Context {W : Type} {AB : AndroidBase W} {LC : Libc W}.

(** [format] behind its argument checks. *)
Lemma FormatFn_parsed (u : Updater W)
  (name fs_type partition_type location fs_size mount_point : string) (size : Z) :
  empty fs_type = false -> empty partition_type = false ->
  empty location = false -> empty mount_point = false ->
  ParseInt64 fs_size = Some size ->
  FormatFn name
    [str fs_type; str partition_type; str location; str fs_size; str mount_point] u =
  (if fs_type =? "ext4" then
     tool_chain "/sbin/mke2fs_static" (mke2fs_argv location size)
       "/sbin/e2fsdroid_static" (e2fsdroid_argv mount_point location) location
   else if fs_type =? "f2fs" then
     if (size <? 0)%Z then ret (Some (StringValue ""))
     else
       tool_chain "/sbin/mkfs.f2fs" (f2fs_argv location size)
         "/sbin/sload.f2fs" (sload_argv mount_point location) location
   else ret None) u.
Proof.
  intros H1 H2 H3 H4 Hsize. unfold FormatFn.
  cbn [List.length Nat.eqb negb ReadArgs ReadArgsRange Nat.ltb Nat.leb Nat.add
       skipn firstn all_some Evaluate str StringValue].
  unfold arg. cbn [nth]. rewrite H1, H2, H3, H4, Hsize. reflexivity.
Qed.

Lemma mke2fs_argv_blocks (location : string) (size : Z) :
  argv_of (mke2fs_argv location size) =
  (["/sbin/mke2fs_static"; "-t"; "ext4"; "-b"; "4096"; location] ++
   (if (size =? 0)%Z then []
    else if (0 <? size)%Z then [dec (size / 4096)]
    else [dec (- (- size / 4096))]))%list.
Proof.
  unfold mke2fs_argv. cbn [argv_of app].
  destruct (Z.eqb_spec size 0) as [->|Hne]; cbn [negb argv_of]; [reflexivity|].
  destruct (Z.ltb_spec 0 size) as [Hpos|Hneg].
  - rewrite Z.quot_div_nonneg by lia. reflexivity.
  - replace size with (- - size)%Z at 1 by lia.
    rewrite Z.quot_opp_l by lia. rewrite Z.quot_div_nonneg by lia. reflexivity.
Qed.

Lemma f2fs_argv_sectors (location : string) (size : Z) :
  (0 <= size)%Z ->
  argv_of (f2fs_argv location size) =
  (["mkfs.f2fs"; "-d1"; "-f"; "-O"; "encrypt"; "-O"; "quota"; "-O"; "verity";
    "-w"; "512"; location] ++
   (if (size <? 512)%Z then [] else [dec (size / 512)]))%list.
Proof.
  intros Hsize. unfold f2fs_argv. cbn [argv_of app].
  destruct (Z.ltb_spec size 512) as [Hlt|Hge]; cbn [argv_of]; [reflexivity|].
  rewrite Z.quot_div_nonneg by lia. reflexivity.
Qed.

End FormatProperties.

(** C5, as the code has it: for [format] with non-empty arguments and a
    size that parses, ext4 runs mke2fs and then e2fsdroid, with no block
    count for size 0 (the entire partition) and the block count size / 4096
    for a positive size; f2fs rejects a negative size (empty result, nothing
    is run), and runs mkfs.f2fs and then sload.f2fs with no sector count
    for a size below 512 (the entire partition) and the sector count
    size / 512 from 512 on; any other fs_type gives the null result and
    nothing is run. *)
Theorem format_size_semantics {W : Type} {AB : AndroidBase W} {LC : Libc W}
  (u : Updater W)
  (name fs_type partition_type location fs_size mount_point : string) (size : Z) :
  empty fs_type = false -> empty partition_type = false ->
  empty location = false -> empty mount_point = false ->
  ParseInt64 fs_size = Some size ->
  let r :=
    FormatFn name
      [str fs_type; str partition_type; str location; str fs_size; str mount_point] u in
  (fs_type = "ext4" ->
   r = tool_chain "/sbin/mke2fs_static" (mke2fs_argv location size)
         "/sbin/e2fsdroid_static" (e2fsdroid_argv mount_point location) location u /\
   ((0 <= size)%Z ->
    argv_of (mke2fs_argv location size) =
    (["/sbin/mke2fs_static"; "-t"; "ext4"; "-b"; "4096"; location] ++
     (if (size =? 0)%Z then [] else [dec (size / 4096)]))%list)) /\
  (fs_type = "f2fs" ->
   ((size < 0)%Z -> r = (Some (StringValue ""), u)) /\
   ((0 <= size)%Z ->
    r = tool_chain "/sbin/mkfs.f2fs" (f2fs_argv location size)
          "/sbin/sload.f2fs" (sload_argv mount_point location) location u /\
    argv_of (f2fs_argv location size) =
    (["mkfs.f2fs"; "-d1"; "-f"; "-O"; "encrypt"; "-O"; "quota"; "-O"; "verity";
      "-w"; "512"; location] ++
     (if (size <? 512)%Z then [] else [dec (size / 512)]))%list)) /\
  (fs_type <> "ext4" -> fs_type <> "f2fs" -> r = (None, u)).
Proof.
  intros H1 H2 H3 H4 Hsize r. subst r.
  rewrite (FormatFn_parsed u name fs_type partition_type location fs_size
             mount_point size H1 H2 H3 H4 Hsize).
  split; [|split].
  - intros ->. split; [reflexivity|]. intros Hpos.
    rewrite mke2fs_argv_blocks.
    destruct (Z.eqb_spec size 0) as [_|Hne]; [reflexivity|].
    destruct (Z.ltb_spec 0 size) as [_|Hneg]; [reflexivity | lia].
  - intros ->. cbn [String.eqb Ascii.eqb Bool.eqb]. split.
    + intros Hneg. apply Z.ltb_lt in Hneg. rewrite Hneg. reflexivity.
    + intros Hpos. split; [|now apply f2fs_argv_sectors].
      destruct (Z.ltb_spec size 0) as [Hlt|_]; [lia | reflexivity].
  - intros He Hf. apply String.eqb_neq in He, Hf. rewrite He, Hf. reflexivity.
Qed.

Lemma format_size_semantics_witness :
  FormatFn "format"
    [str "f2fs"; str "EMMC"; str "/dev/block/userdata"; str "1048576"; str "/data"]
    (start sim0) =
  tool_chain "/sbin/mkfs.f2fs" (f2fs_argv "/dev/block/userdata" 1048576)
    "/sbin/sload.f2fs" (sload_argv "/data" "/dev/block/userdata")
    "/dev/block/userdata" (start sim0) /\
  argv_of (f2fs_argv "/dev/block/userdata" 1048576) =
  ["mkfs.f2fs"; "-d1"; "-f"; "-O"; "encrypt"; "-O"; "quota"; "-O"; "verity";
   "-w"; "512"; "/dev/block/userdata"; "2048"].
Proof.
  refine (proj2 (proj1 (proj2 (format_size_semantics (start sim0) "format" "f2fs"
                                 "EMMC" "/dev/block/userdata" "1048576" "/data"
                                 1048576 _ _ _ _ _)) _) _);
    try reflexivity; try lia.
Defined.

(** C5 fails as stated: for f2fs a positive size below 512 gives no sector
    count at all (mkfs.f2fs is run as for the entire partition, not with the
    count size / 512 = 0); and for ext4 a negative size is handed to mke2fs
    as a negative block count, with no reservation computed. *)
Lemma format_small_and_negative_sizes :
  let r :=
    FormatFn "format"
      [str "f2fs"; str "EMMC"; str "/dev/block/userdata"; str "100"; str "/data"]
      (start sim0) in
  (0 < 100)%Z /\
  fst r = Some (StringValue "/dev/block/userdata") /\
  trace (world (snd r)) =
  [mkCall "/sbin/mkfs.f2fs"
     ["mkfs.f2fs"; "-d1"; "-f"; "-O"; "encrypt"; "-O"; "quota"; "-O"; "verity";
      "-w"; "512"; "/dev/block/userdata"];
   mkCall "/sbin/sload.f2fs"
     ["/sbin/sload.f2fs"; "-t"; "/data"; "/dev/block/userdata"]] /\
  ~ In (dec (100 / 512)) (argv_of (f2fs_argv "/dev/block/userdata" 100)) /\
  trace (world (snd (FormatFn "format"
                       [str "ext4"; str "EMMC"; str "/dev/block/userdata";
                        str "-8192"; str "/data"] (start sim0)))) =
  [mkCall "/sbin/mke2fs_static"
     ["/sbin/mke2fs_static"; "-t"; "ext4"; "-b"; "4096"; "/dev/block/userdata"; "-2"];
   mkCall "/sbin/e2fsdroid_static"
     ["/sbin/e2fsdroid_static"; "-e"; "-a"; "/data"; "/dev/block/userdata"]].
Proof.
  repeat split; try reflexivity.
  vm_compute. intuition discriminate.
Qed.

(** ** Patch application *)

Lemma odd_mod2 (n : nat) : (Nat.modulo n 2 =? 1)%nat = Nat.odd n.
Proof. rewrite <- Nat.bit0_eqb. apply Nat.bit0_odd. Qed.

Lemma odd_after_four (n : nat) : (4 <= n)%nat -> Nat.odd (n - 4) = Nat.odd n.
Proof.
  intros Hn. replace n with ((n - 4) + 4)%nat at 2 by lia.
  rewrite Nat.odd_add. cbn. now rewrite xorb_false_r.
Qed.

(** Induction over a list taken two elements at a time. *)
Lemma pairs_ind {A : Type} (P : list A -> Prop) :
  P [] -> (forall a, P [a]) -> (forall a b l, P l -> P (a :: b :: l)) ->
  forall l, P l.
Proof.
  intros H0 H1 H2 l.
  assert (H : P l /\ forall a, P (a :: l)); [|exact (proj1 H)].
  induction l as [|b l [IH1 IH2]]; split; auto.
Qed.

Section ApplyPatchProperties.
Context {W : Type} {AB : AndroidBase W} {AP : ApplyPatch W}.

Lemma check_patch_pairs_typed (name : string) (vals : list Value) (i : nat) :
  sha_blob_pairs vals = true <-> check_patch_pairs name i vals = None.
Proof.
  revert i. induction vals as [|sha|sha patch rest IH] using pairs_ind;
    intros i; cbn; try tauto.
  destruct (ValueType_eqb (type sha) VAL_STRING); cbn; [|split; discriminate].
  destruct (ValueType_eqb (type patch) VAL_BLOB); cbn; [|split; discriminate].
  apply IH.
Qed.

Lemma check_patch_pairs_cause (name : string) (vals : list Value) (i : nat)
  (cause : CauseCode) (msg : string) :
  check_patch_pairs name i vals = Some (cause, msg) -> cause = kArgsParsingFailure.
Proof.
  revert i. induction vals as [|sha|sha patch rest IH] using pairs_ind;
    intros i; cbn; try discriminate.
  destruct (ValueType_eqb (type sha) VAL_STRING); cbn; [|now intros [= <- _]].
  destruct (ValueType_eqb (type patch) VAL_BLOB); cbn; [|now intros [= <- _]].
  apply IH.
Qed.

(** The argument-count check of [apply_patch]. *)
Lemma ApplyPatchFn_arity (argv : list Expr) :
  ((List.length argv <? 6) || (Nat.modulo (List.length argv) 2 =? 1))%nat = true <->
  (List.length argv < 4 + 2)%nat \/ Nat.odd (List.length argv - 4) = true.
Proof.
  rewrite odd_mod2, orb_true_iff, Nat.ltb_lt.
  destruct (Nat.lt_ge_cases (List.length argv) 6) as [Hlt|Hge].
  - split; intros _; left; exact Hlt.
  - rewrite odd_after_four by lia. reflexivity.
Qed.

End ApplyPatchProperties.

(** C6, as the code has it: [apply_patch] aborts with an argument-parsing
    error, without calling the patch library, whenever fewer than the 4
    fixed arguments and one pair are given or the count behind the first
    four is odd -- and also when one of the first four arguments is not a
    string, when the target size does not parse, or when a pair is not a
    string followed by a blob; when one of the later arguments cannot be
    evaluated the call returns null and raises no error of its own.  In all
    other cases the patch library is called once, and the call returns "t"
    exactly when it reports 0 and the empty string otherwise. *)
Theorem apply_patch_argument_checks {W : Type} {AB : AndroidBase W}
  {AP : ApplyPatch W} (u : Updater W) (name : string) (argv : list Expr) :
  let r := ApplyPatchFn name argv u in
  ((List.length argv < 4 + 2)%nat \/ Nat.odd (List.length argv - 4) = true ->
   hard_abort kArgsParsingFailure r /\ world (snd r) = world u) /\
  ((4 + 2 <= List.length argv)%nat -> Nat.odd (List.length argv - 4) = false ->
   match ReadArgsRange argv 0 4 with
   | None => hard_abort kArgsParsingFailure r /\ world (snd r) = world u
   | Some args =>
       match ParseUint (arg args 3) with
       | None => hard_abort kArgsParsingFailure r /\ world (snd r) = world u
       | Some target_size =>
           match ReadValueArgsRange argv 4 (List.length argv - 4) with
           | None => r = (None, u)
           | Some vals =>
               if sha_blob_pairs vals then
                 let res :=
                   applypatch (arg args 0) (arg args 1) (arg args 2) target_size
                     (patch_sha_strs vals) (patch_blobs vals) (world u) in
                 r = (Some (StringValue (if (fst res =? 0)%Z then "t" else "")),
                      mkUpdater (state u) (cmd_pipe u) (snd res))
               else hard_abort kArgsParsingFailure r /\ world (snd r) = world u
           end
       end
   end).
Proof.
  intros r. subst r. unfold ApplyPatchFn. split.
  - intros Harity. apply ApplyPatchFn_arity in Harity. rewrite Harity.
    repeat split.
  - intros Hlen Hodd.
    assert (Harity : ((List.length argv <? 6)
                      || (Nat.modulo (List.length argv) 2 =? 1))%nat = false).
    { destruct (((List.length argv <? 6)
                 || (Nat.modulo (List.length argv) 2 =? 1))%nat) eqn:E;
        [|reflexivity].
      apply ApplyPatchFn_arity in E. destruct E as [E|E]; [lia | congruence]. }
    rewrite Harity.
    destruct (ReadArgsRange argv 0 4) as [args|]; [|repeat split].
    destruct (ParseUint (arg args 3)) as [target_size|]; [|repeat split].
    destruct (ReadValueArgsRange argv 4 (List.length argv - 4)) as [vals|];
      [|reflexivity].
    destruct (sha_blob_pairs vals) eqn:Hpairs.
    + apply (check_patch_pairs_typed name vals 0) in Hpairs. rewrite Hpairs.
      unfold_m. cbv beta.
      destruct (applypatch _ _ _ _ _ _ (world u)) as [result w']. reflexivity.
    + destruct (check_patch_pairs name 0 vals) as [[cause msg]|] eqn:Hcheck.
      * apply check_patch_pairs_cause in Hcheck. subst cause. repeat split.
      * apply (check_patch_pairs_typed name vals 0) in Hcheck. congruence.
Qed.

(** C6 fails as stated: with six arguments, a count that is neither below
    the minimum nor odd behind the first four, a target size that does not
    parse aborts the call with an argument-parsing error and the patch
    library is not called. *)
Lemma apply_patch_unparsable_size_aborts :
  let argv :=
    [str "/system/bin/app"; str "-"; str "0123"; str "xyz"; str "4567";
     Some (mkValue VAL_BLOB "patch")] in
  let r := ApplyPatchFn "apply_patch" argv (start sim0) in
  ~ ((List.length argv < 4 + 2)%nat \/ Nat.odd (List.length argv - 4) = true) /\
  hard_abort kArgsParsingFailure r /\
  trace (world (snd r)) = [].
Proof.
  repeat split; try reflexivity.
  intros [H|H]; [cbn in H; lia | discriminate H].
Qed.

Lemma apply_patch_argument_checks_witness :
  ApplyPatchFn "apply_patch"
    [str "/system/bin/app"; str "-"; str "0123"; str "1024"; str "4567";
     Some (mkValue VAL_BLOB "patch")] (start sim0) =
  (Some (StringValue "t"),
   start (record_call (mkCall "applypatch" ["/system/bin/app"; "-"; "0123"; "1024"; "4567"])
            sim0)).
Proof.
  exact (proj2 (apply_patch_argument_checks (start sim0) "apply_patch"
                  [str "/system/bin/app"; str "-"; str "0123"; str "1024";
                   str "4567"; Some (mkValue VAL_BLOB "patch")])
           (le_n 6) eq_refl).
Defined.

(** ** Package extraction *)

(** C8: the one-argument form of [package_extract_file] aborts with a
    package-extraction failure when the entry is not in the package or the
    extraction to memory fails, and returns the contents as a blob
    otherwise; the two-argument form never aborts on these paths: a
    missing entry and a destination that cannot be opened give the empty
    string, and after the open the extraction, the fsync and the close are
    all carried out, the result being "t" only when all three succeed and
    the empty string otherwise. *)
Theorem package_extract_file_failures {W : Type} {ZA : ZipArchive W} {IO : OtaIo W}
  (u : Updater W) (name zip_path dest_path : string) :
  (let r := PackageExtractFileFn name [str zip_path] u in
   match FindEntry zip_path (world u) with
   | None => hard_abort kPackageExtractFileFailure r /\ world (snd r) = world u
   | Some entry =>
       let res := ExtractToMemory entry (uncompressed_length entry) (world u) in
       if (fst res =? 0)%Z then r = (Some (mkValue VAL_BLOB (snd res)), u)
       else hard_abort kPackageExtractFileFailure r /\ world (snd r) = world u
   end) /\
  (let r := PackageExtractFileFn name [str zip_path; str dest_path] u in
   match FindEntry zip_path (world u) with
   | None => r = (Some (StringValue ""), u)
   | Some entry =>
       let opened :=
         ota_open dest_path (Z.lor (Z.lor O_WRONLY O_CREAT) O_TRUNC)
           (Z.lor S_IRUSR S_IWUSR) (world u) in
       let fd := fst opened in
       if (fd =? -1)%Z then
         r = (Some (StringValue ""), mkUpdater (state u) (cmd_pipe u) (snd opened))
       else
         let extracted := ExtractEntryToFile entry fd (snd opened) in
         let synced := ota_fsync fd (snd extracted) in
         let closed := ota_close fd (snd synced) in
         r = (Some (StringValue
                      (if ((fst extracted =? 0)%Z && negb (fst synced =? -1)%Z
                           && negb (fst closed =? -1)%Z)%bool
                       then "t" else "")),
              mkUpdater (state u) (cmd_pipe u) (snd closed))
   end).
Proof.
  split.
  - unfold PackageExtractFileFn. cbn [List.length Nat.ltb Nat.leb orb Nat.eqb].
    cbn [ReadArgs ReadArgsRange List.length Nat.ltb Nat.leb Nat.add skipn firstn
         all_some Evaluate str StringValue].
    unfold arg. cbn [nth]. unfold_m. cbv beta.
    destruct (FindEntry zip_path (world u)) as [entry|]; [|repeat split].
    destruct (ExtractToMemory entry (uncompressed_length entry) (world u))
      as [res buffer].
    cbn [fst snd]. destruct (res =? 0)%Z; cbn [negb]; [reflexivity | repeat split].
  - unfold PackageExtractFileFn. cbn [List.length Nat.ltb Nat.leb orb Nat.eqb].
    cbn [ReadArgs ReadArgsRange List.length Nat.ltb Nat.leb Nat.add skipn firstn
         all_some Evaluate str StringValue].
    unfold arg. cbn [nth]. unfold_m. cbv beta.
    destruct (FindEntry zip_path (world u)) as [entry|]; [|reflexivity].
    destruct (ota_open dest_path _ _ (world u)) as [fd w1].
    cbn [fst snd world state cmd_pipe].
    destruct (fd =? -1)%Z; [reflexivity|]. cbn [fst snd world state cmd_pipe].
    destruct (ExtractEntryToFile entry fd w1) as [e w2].
    cbn [fst snd world state cmd_pipe].
    destruct (ota_fsync fd w2) as [sy w3]. cbn [fst snd world state cmd_pipe].
    destruct (ota_close fd w3) as [c w4]. cbn [fst snd world state cmd_pipe].
    destruct (e =? 0)%Z, (sy =? -1)%Z, (c =? -1)%Z; reflexivity.
Qed.

Example package_extract_file_blob :
  PackageExtractFileFn "package_extract_file" [str "a.txt"] (start sim1) =
  (Some (mkValue VAL_BLOB "hello"), start sim1).
Proof. reflexivity. Qed.

Example package_extract_file_missing :
  hard_abort kPackageExtractFileFailure
    (PackageExtractFileFn "package_extract_file" [str "b.txt"] (start sim1)) /\
  PackageExtractFileFn "package_extract_file" [str "b.txt"; str "/tmp/b"] (start sim1) =
  (Some (StringValue ""), start sim1).
Proof. repeat split. Qed.

(** After a failed fsync the file is still closed, and the result is the
    empty string. *)
Example package_extract_file_fsync_fails :
  let r :=
    PackageExtractFileFn "package_extract_file" [str "a.txt"; str "/tmp/a"]
      (start (sim_failing (fails_fn "ota_fsync"))) in
  fst r = Some (StringValue "") /\
  trace (world (snd r)) =
  [mkCall "ota_open" ["/tmp/a"]; mkCall "ExtractEntryToFile" ["hello"; "3"];
   mkCall "ota_fsync" ["3"]; mkCall "ota_close" ["3"]].
Proof. repeat split. Qed.

(** ** The UI channel *)

(** [uiPrint] writes to the command pipe and changes nothing else. *)
Lemma uiPrint_lines_frame {W : Type} (lines : list string) (u : Updater W) :
  fst (uiPrint_lines lines u) = tt /\
  state (snd (uiPrint_lines lines u)) = state u /\
  world (snd (uiPrint_lines lines u)) = world u.
Proof.
  revert u. induction lines as [|line rest IH]; intros u; cbn; [tauto|].
  unfold bind. destruct (empty line); cbn.
  - apply IH.
  - unfold fprintf_cmd_pipe. cbn.
    match goal with
    | |- context [uiPrint_lines rest ?v] => destruct (IH v) as [H1 [H2 H3]]
    end.
    cbn in H2, H3. tauto.
Qed.

Lemma uiPrintf_frame {W : Type} (msg : string) (u : Updater W) :
  state (snd (uiPrintf msg u)) = state u /\ world (snd (uiPrintf msg u)) = world u.
Proof.
  unfold uiPrintf, uiPrint. destruct (uiPrint_lines_frame (Split_newline msg) u).
  tauto.
Qed.

(** ** Mounts *)

(** C10: for a mount point that the rescanned mount table knows,
    [unmount] returns the mount point, whether the unmount of the volume
    succeeds or fails; a failure only adds a diagnostic to the UI channel
    and raises no abort.  The null result is what the call gives for a
    mount point that is not in the table. *)
Theorem unmount_result {W : Type} {LC : Libc W} {MT : Mounts W}
  (u : Updater W) (name mount_point : string) :
  empty mount_point = false ->
  let r := UnmountFn name [str mount_point] u in
  let scanned := snd (scan_mounted_volumes (world u)) in
  match find_mounted_volume_by_mount_point mount_point scanned with
  | Some vol =>
      let unmounted := unmount_mounted_volume vol scanned in
      let u1 := mkUpdater (state u) (cmd_pipe u) (snd unmounted) in
      fst r = Some (StringValue mount_point) /\
      state (snd r) = state u /\
      world (snd r) = snd unmounted /\
      snd r =
        (if (fst unmounted =? 0)%Z then u1
         else snd (uiPrintf ("Failed to unmount " ++ cs mount_point ++ ": "
                             ++ strerror (errno (snd unmounted))) u1))
  | None =>
      fst r = None /\ state (snd r) = state u /\ world (snd r) = scanned /\
      snd r =
        snd (uiPrintf ("Failed to unmount " ++ cs mount_point ++ ": No such volume")
               (mkUpdater (state u) (cmd_pipe u) scanned))
  end.
Proof.
  intros Hne r scanned. subst r scanned. unfold UnmountFn.
  cbn [List.length Nat.eqb negb ReadArgs ReadArgsRange Nat.ltb Nat.leb Nat.add
       skipn firstn all_some Evaluate str StringValue].
  unfold arg. cbn [nth]. rewrite Hne. unfold_m. cbv beta.
  destruct (scan_mounted_volumes (world u)) as [ok w1].
  cbn [fst snd world state cmd_pipe].
  destruct (find_mounted_volume_by_mount_point mount_point w1) as [vol|];
    cbn [fst snd world state cmd_pipe].
  - destruct (unmount_mounted_volume vol w1) as [ret w2].
    cbn [fst snd world state cmd_pipe].
    destruct (ret =? 0)%Z; cbn [negb fst snd world state cmd_pipe].
    + repeat split.
    + match goal with
      | |- context [uiPrintf ?m ?v] =>
          destruct (uiPrintf_frame m v) as [Hs Hw];
          destruct (uiPrintf m v) as [t u2]
      end.
      cbn [fst snd world state cmd_pipe] in *. repeat split; assumption.
  - match goal with
    | |- context [uiPrintf ?m ?v] =>
        destruct (uiPrintf_frame m v) as [Hs Hw];
        destruct (uiPrintf m v) as [t u2]
    end.
    cbn [fst snd world state cmd_pipe] in *. repeat split; assumption.
Qed.

Lemma unmount_result_witness :
  let w := sim_failing (fails_fn "unmount_mounted_volume") in
  let w' := record_call (mkCall "unmount_mounted_volume" ["/system"]) w in
  let r := UnmountFn "unmount" [str "/system"] (start w) in
  fst r = Some (StringValue "/system") /\
  state (snd r) = mkState "" kNoCause false /\
  world (snd r) = w' /\
  snd r = mkUpdater (mkState "" kNoCause false)
            ["ui_print Failed to unmount /system: errno 13" ++ nl] w'.
Proof.
  exact (unmount_result (start (sim_failing (fails_fn "unmount_mounted_volume")))
           "unmount" "/system" eq_refl).
Defined.

(** ** Metadata *)

Section MetadataProperties.
Context {W : Type} {LC : Libc W} {SE : Selinux W}.

(** The walk visits nothing behind the first entry on which the function
    returns a nonzero value, and that value is the result of the walk. *)
Lemma nftw_walk_stops (fn : string -> stat -> M W Z) (fpath : string) (sb : stat)
  (rest : list (string * stat)) (err : bool) (u : Updater W) :
  fst (fn fpath sb u) <> 0%Z ->
  nftw_walk fn ((fpath, sb) :: rest) err u = fn fpath sb u.
Proof.
  intros Hr. cbn [nftw_walk]. unfold bind, ret.
  destruct (fn fpath sb u) as [r u1]. cbn [fst] in Hr.
  destruct (Z.eqb_spec r 0) as [->|_]; [contradiction | reflexivity].
Qed.

(** On an entry on which the function returns 0 the walk goes on. *)
Lemma nftw_walk_continues (fn : string -> stat -> M W Z) (fpath : string) (sb : stat)
  (rest : list (string * stat)) (err : bool) (u : Updater W) :
  fst (fn fpath sb u) = 0%Z ->
  nftw_walk fn ((fpath, sb) :: rest) err u = nftw_walk fn rest err (snd (fn fpath sb u)).
Proof.
  intros Hr. cbn [nftw_walk]. unfold bind, ret.
  destruct (fn fpath sb u) as [r u1]. cbn [fst snd] in *. subst r. reflexivity.
Qed.

End MetadataProperties.

(** C9: a call of [set_metadata] or [set_metadata_recursive] that returns
    a value returns the empty string, never "t"; and a call with an odd
    number of string arguments whose target exists and whose failure count
    is zero does return it. *)
Theorem set_metadata_success_value {W : Type} {LC : Libc W} {SE : Selinux W}
  (u : Updater W) (name : string) (argv : list Expr) :
  let r := SetMetadataFn name argv u in
  (forall v, fst r = Some v -> v = StringValue "" /\ v <> StringValue "t") /\
  (forall args sb,
     Nat.odd (List.length argv) = true ->
     ReadArgs argv = Some args ->
     fst (sys_lstat (arg args 0) (world u)) = Some sb ->
     let u1 :=
       mkUpdater (state u) (cmd_pipe u) (snd (sys_lstat (arg args 0) (world u))) in
     let p := ParsePermArgs args u1 in
     let b := SetMetadata_bad name args sb (fst p) (snd p) in
     fst b = 0%Z -> r = (Some (StringValue ""), snd b)).
Proof.
  intros r. subst r. unfold SetMetadataFn. split.
  - intros v. rewrite odd_mod2.
    destruct (Nat.odd (List.length argv)); cbn [negb]; [|discriminate].
    destruct (ReadArgs argv) as [args|]; [|discriminate].
    unfold_m. cbv beta.
    destruct (sys_lstat (arg args 0) (world u)) as [[sb|] w1];
      cbn [fst snd world state cmd_pipe]; [|discriminate].
    destruct (ParsePermArgs args _) as [parsed u2].
    destruct (SetMetadata_bad name args sb parsed u2) as [bad u3].
    destruct (0 <? bad)%Z; cbn [fst]; [discriminate|].
    intros Hv. injection Hv as <-. split; [reflexivity|].
    unfold StringValue. intros E. discriminate E.
  - intros args sb Hodd Hargs Hstat. cbv zeta. intros Hb.
    rewrite odd_mod2, Hodd, Hargs. cbn [negb]. unfold_m. cbv beta.
    destruct (sys_lstat (arg args 0) (world u)) as [st w1].
    cbn [fst snd world state cmd_pipe] in *. subst st.
    destruct (ParsePermArgs args _) as [parsed u2]. cbn [fst snd] in *.
    destruct (SetMetadata_bad name args sb parsed u2) as [bad u3].
    cbn [fst snd] in *. subst bad. reflexivity.
Qed.

Lemma set_metadata_success_value_witness :
  fst (SetMetadataFn "set_metadata_recursive"
         [str "/d"; str "uid"; str "0"; str "mode"; str "420"] (start sim1)) =
  Some (StringValue "").
Proof.
  refine (f_equal fst
            (proj2 (set_metadata_success_value (start sim1) "set_metadata_recursive"
                      [str "/d"; str "uid"; str "0"; str "mode"; str "420"])
               ["/d"; "uid"; "0"; "mode"; "420"] (mkStat mode_dir 0) _ _ _ _));
    reflexivity.
Defined.

(** C1 on the code: a tree of three entries in which a single attribute
    application fails, the chown of the first entry visited.  The walk
    stops at that entry: the call aborts with the set-metadata failure,
    and the two entries behind it are never attempted, although no call
    on them would fail.  When the chown fails on every entry, the failure
    count of the call is 1, not 3. *)
Theorem set_metadata_recursive_stops_at_first_failure :
  let argv := [str "/d"; str "uid"; str "0"; str "mode"; str "420"] in
  let r :=
    SetMetadataFn "set_metadata_recursive" argv
      (start (sim_failing (fails_on "chown" "/d/a"))) in
  fst (ftw_entries "/d" sim1) = tree /\
  hard_abort kSetMetadataFailure r /\
  trace (world (snd r)) =
    [mkCall "chown" ["/d/a"; "0"; "-1"]; mkCall "chmod" ["/d/a"; "420"]] /\
  trace (world (snd (SetMetadataFn "set_metadata_recursive" argv (start sim1)))) =
    [mkCall "chown" ["/d/a"; "0"; "-1"]; mkCall "chmod" ["/d/a"; "420"];
     mkCall "chown" ["/d/b"; "0"; "-1"]; mkCall "chmod" ["/d/b"; "420"];
     mkCall "chown" ["/d"; "0"; "-1"]; mkCall "chmod" ["/d"; "420"]] /\
  fst (SetMetadata_bad "set_metadata_recursive" ["/d"; "uid"; "0"; "mode"; "420"]
         (mkStat mode_dir 0) (set_mode 420 (set_uid 0 perm_zero))
         (start (sim_failing (fails_fn "chown")))) = 1%Z.
Proof.
  repeat split.
Qed.

(** ** The values of the operations *)

Ltac step := cbn [fst snd state cmd_pipe world negb].

Ltac ui_frames :=
  repeat match goal with
    | |- context [uiPrintf ?m ?v] =>
        let Hs := fresh "Hs" in
        pose proof (proj1 (uiPrintf_frame m v)) as Hs;
        destruct (uiPrintf m v) as [? ?]; step; cbn [fst snd state] in Hs
    end.

Ltac finish_result :=
  cbn [fst snd state cause_code type];
  first
    [ reflexivity
    | assumption
    | left; reflexivity
    | right; reflexivity
    | left; left; reflexivity
    | left; right; reflexivity
    | left; discriminate
    | right; assumption
    | right; congruence
    | idtac ].

Ltac run_handler :=
  unfold result_is, truthy_or_falsy; unfold_m; cbv beta;
  repeat (step; first [ ui_frames; destr_match ]);
  step; ui_frames; finish_result.

Section HandlerResults.
Context {W : Type} {AB : AndroidBase W} {BM : BootloaderMessage W} {LC : Libc W}
  {SE : Selinux W} {MT : Mounts W} {ZA : ZipArchive W} {IO : OtaIo W}
  {AP : ApplyPatch W} {FT : FsTools W}.
Variables (name : string) (argv : list Expr) (u : Updater W).

Lemma MountFn_result :
  result_is (fun v => type v = VAL_STRING) u (MountFn name argv u).
Proof. unfold MountFn. run_handler. Qed.

Lemma IsMountedFn_result :
  result_is (fun v => type v = VAL_STRING) u (IsMountedFn name argv u).
Proof. unfold IsMountedFn. run_handler. Qed.

Lemma UnmountFn_result :
  result_is (fun v => type v = VAL_STRING) u (UnmountFn name argv u).
Proof. unfold UnmountFn. run_handler. Qed.

Lemma FormatFn_result :
  result_is (fun v => type v = VAL_STRING) u (FormatFn name argv u).
Proof. unfold FormatFn, exec_cmd. run_handler. Qed.

Lemma ShowProgressFn_result :
  result_is (fun v => type v = VAL_STRING) u (ShowProgressFn name argv u).
Proof. unfold ShowProgressFn. run_handler. Qed.

Lemma SetProgressFn_result :
  result_is (fun v => type v = VAL_STRING) u (SetProgressFn name argv u).
Proof. unfold SetProgressFn. run_handler. Qed.

Lemma DeleteFn_result :
  result_is (fun v => type v = VAL_STRING) u (DeleteFn name argv u).
Proof. unfold DeleteFn. run_handler. Qed.

Lemma PackageExtractDirFn_result :
  result_is truthy_or_falsy u (PackageExtractDirFn name argv u).
Proof. unfold PackageExtractDirFn. run_handler. Qed.

Lemma PackageExtractFileFn_result :
  result_is (fun v => truthy_or_falsy v \/ type v = VAL_BLOB) u
    (PackageExtractFileFn name argv u).
Proof. unfold PackageExtractFileFn. run_handler. Qed.

Lemma SymlinkFn_result : result_is truthy_or_falsy u (SymlinkFn name argv u).
Proof. unfold SymlinkFn. run_handler. Qed.

Lemma SetMetadataFn_result :
  result_is (fun v => v = StringValue "") u (SetMetadataFn name argv u).
Proof. unfold SetMetadataFn. run_handler. Qed.

Lemma GetPropFn_result :
  result_is (fun v => type v = VAL_STRING) u (GetPropFn name argv u).
Proof. unfold GetPropFn. run_handler. Qed.

Lemma FileGetPropFn_result :
  result_is (fun v => type v = VAL_STRING) u (FileGetPropFn name argv u).
Proof. unfold FileGetPropFn. run_handler. Qed.

Lemma ApplyPatchFn_result : result_is truthy_or_falsy u (ApplyPatchFn name argv u).
Proof.
  unfold ApplyPatchFn. run_handler.
  left.
  match goal with
  | H : check_patch_pairs _ _ _ = Some _ |- _ =>
      rewrite (check_patch_pairs_cause _ _ _ _ _ H)
  end.
  discriminate.
Qed.

Lemma ApplyPatchCheckFn_result :
  result_is truthy_or_falsy u (ApplyPatchCheckFn name argv u).
Proof. unfold ApplyPatchCheckFn. run_handler. Qed.

Lemma ApplyPatchSpaceFn_result :
  result_is truthy_or_falsy u (ApplyPatchSpaceFn name argv u).
Proof. unfold ApplyPatchSpaceFn. run_handler. Qed.

Lemma WipeBlockDeviceFn_result :
  result_is truthy_or_falsy u (WipeBlockDeviceFn name argv u).
Proof. unfold WipeBlockDeviceFn. run_handler. Qed.

Lemma ReadFileFn_result :
  result_is (fun v => type v = VAL_BLOB \/ v = mkValue VAL_INVALID "") u
    (ReadFileFn name argv u).
Proof. unfold ReadFileFn. run_handler. Qed.

Lemma sha1_match_string (digest : string) (args : list Value) (a : Value) :
  sha1_match digest args = Some a -> type a = VAL_STRING.
Proof.
  induction args as [|b rest IH]; cbn; [discriminate|].
  destruct (type b) eqn:Hb; cbn; try exact IH.
  destruct (ParseSha1 (data b)); [|exact IH].
  destruct (digest =? _); [|exact IH].
  intros [= <-]. exact Hb.
Qed.

Lemma Sha1CheckFn_result :
  result_is (fun v => type v = VAL_STRING) u (Sha1CheckFn name argv u).
Proof.
  unfold Sha1CheckFn. run_handler.
  eapply sha1_match_string. eassumption.
Qed.

Lemma RenameFn_result :
  result_is (fun v => type v = VAL_STRING) u (RenameFn name argv u).
Proof. unfold RenameFn. run_handler. Qed.

Lemma WriteValueFn_result : result_is truthy_or_falsy u (WriteValueFn name argv u).
Proof. unfold WriteValueFn. run_handler. Qed.

Lemma WipeCacheFn_result : result_is truthy_or_falsy u (WipeCacheFn name argv u).
Proof. unfold WipeCacheFn. run_handler. Qed.

Lemma UIPrintFn_result :
  result_is (fun v => type v = VAL_STRING) u (UIPrintFn name argv u).
Proof. unfold UIPrintFn, uiPrint. run_handler. Qed.

Lemma RunProgramFn_result :
  result_is (fun v => type v = VAL_STRING) u (RunProgramFn name argv u).
Proof. unfold RunProgramFn. run_handler. Qed.

Lemma RebootNowFn_result :
  result_is (fun v => v = StringValue "") u (RebootNowFn name argv u).
Proof. unfold RebootNowFn. run_handler. Qed.

Lemma GetStageFn_result :
  result_is (fun v => type v = VAL_STRING) u (GetStageFn name argv u).
Proof. unfold GetStageFn. run_handler. Qed.

Lemma SetStageFn_result :
  result_is (fun v => type v = VAL_STRING) u (SetStageFn name argv u).
Proof. unfold SetStageFn. run_handler. Qed.

Lemma EnableRebootFn_result :
  result_is truthy_or_falsy u (EnableRebootFn name argv u).
Proof. unfold EnableRebootFn. run_handler. Qed.

Lemma Tune2FsFn_result : result_is truthy_or_falsy u (Tune2FsFn name argv u).
Proof. unfold Tune2FsFn. run_handler. Qed.

End HandlerResults.

(** C7, as the code has it: a registered operation returns null (the
    abort signal: with an error kind set by [ErrorAbort], or with the state
    left as it was on the few paths that return null directly) or a value
    of the form its name determines: "t" or the empty string for the
    operations of [flag_operations]; the empty string for [set_metadata],
    [set_metadata_recursive] and [reboot_now]; these or a blob for
    [package_extract_file]; a blob or the invalid value for [read_file];
    and a string of the operation's own for all others (mount, is_mounted,
    unmount, format, rename, delete, delete_recursive, show_progress,
    set_progress, getprop, file_getprop, sha1_check, ui_print, run_program,
    set_stage, get_stage). *)
Theorem operation_results {W : Type} {AB : AndroidBase W} {BM : BootloaderMessage W}
  {LC : Libc W} {SE : Selinux W} {MT : Mounts W} {ZA : ZipArchive W} {IO : OtaIo W}
  {AP : ApplyPatch W} {FT : FsTools W} (name : string) (fn : Fn W) :
  In (name, fn) RegisterInstallFunctions ->
  forall (argv : list Expr) (u : Updater W),
    result_is (value_form name) u (fn name argv u).
Proof.
  intros Hin argv u. unfold RegisterInstallFunctions in Hin. cbn [In] in Hin.
  repeat (destruct Hin as [Hin|Hin];
          [injection Hin as <- <-;
           first
             [ exact (MountFn_result _ argv u)
             | exact (IsMountedFn_result _ argv u)
             | exact (UnmountFn_result _ argv u)
             | exact (FormatFn_result _ argv u)
             | exact (ShowProgressFn_result _ argv u)
             | exact (SetProgressFn_result _ argv u)
             | exact (DeleteFn_result _ argv u)
             | exact (PackageExtractDirFn_result _ argv u)
             | exact (PackageExtractFileFn_result _ argv u)
             | exact (SymlinkFn_result _ argv u)
             | exact (SetMetadataFn_result _ argv u)
             | exact (GetPropFn_result _ argv u)
             | exact (FileGetPropFn_result _ argv u)
             | exact (ApplyPatchFn_result _ argv u)
             | exact (ApplyPatchCheckFn_result _ argv u)
             | exact (ApplyPatchSpaceFn_result _ argv u)
             | exact (WipeBlockDeviceFn_result _ argv u)
             | exact (ReadFileFn_result _ argv u)
             | exact (Sha1CheckFn_result _ argv u)
             | exact (RenameFn_result _ argv u)
             | exact (WriteValueFn_result _ argv u)
             | exact (WipeCacheFn_result _ argv u)
             | exact (UIPrintFn_result _ argv u)
             | exact (RunProgramFn_result _ argv u)
             | exact (RebootNowFn_result _ argv u)
             | exact (GetStageFn_result _ argv u)
             | exact (SetStageFn_result _ argv u)
             | exact (EnableRebootFn_result _ argv u)
             | exact (Tune2FsFn_result _ argv u) ]
          |]).
  contradiction.
Qed.

Lemma operation_results_witness :
  result_is (value_form "mount") (start sim0)
    (MountFn "mount"
       [str "ext4"; str "EMMC"; str "/dev/block/system"; str "/system"] (start sim0)).
Proof.
  apply (operation_results "mount" MountFn). left. reflexivity.
Defined.

(** C7 fails as stated: [mount], a registered operation, returns the mount
    point, which is none of the four forms. *)
Lemma mount_returns_the_mount_point :
  let r :=
    fst (MountFn "mount"
           [str "ext4"; str "EMMC"; str "/dev/block/system"; str "/system"]
           (start sim0)) in
  In ("mount", MountFn) (RegisterInstallFunctions (W := Sim)) /\
  r = Some (StringValue "/system") /\
  ~ four_forms r.
Proof.
  repeat split.
  - left. reflexivity.
  - intros [H|[H|[H|[d H]]]]; discriminate H.
Qed.

(** * Further properties of the code *)

(** ** The UI channel *)

Lemma append_nil_r (s : string) : s ++ "" = s.
Proof. induction s as [|c s IH]; cbn; [reflexivity | now rewrite IH]. Qed.

Lemma append_assoc (a b c : string) : (a ++ b) ++ c = a ++ (b ++ c).
Proof. induction a as [|x a IH]; cbn; [reflexivity | now rewrite IH]. Qed.

Lemma list_ascii_of_string_app (a b : string) :
  list_ascii_of_string (a ++ b) = (list_ascii_of_string a ++ list_ascii_of_string b)%list.
Proof. induction a as [|x a IH]; cbn; [reflexivity | now rewrite IH]. Qed.

Lemma split_lines_aux_no_newline (cur s : string) :
  ~ has_newline cur -> Forall (fun l => ~ has_newline l) (split_lines_aux cur s).
Proof.
  revert cur. induction s as [|c s IH]; intros cur Hcur; cbn.
  - constructor; [exact Hcur | constructor].
  - destruct (Ascii.eqb_spec c "010"%char) as [->|Hc].
    + constructor; [exact Hcur|]. apply IH. intros H. exact H.
    + apply IH. unfold has_newline. rewrite list_ascii_of_string_app.
      intros H. apply in_app_or in H. destruct H as [H|H]; [now apply Hcur|].
      cbn in H. destruct H as [H|H]; [now apply Hc | exact H].
Qed.

Lemma split_lines_aux_nonempty (cur s : string) : split_lines_aux cur s <> [].
Proof.
  revert cur. induction s as [|c s IH]; intros cur; cbn; [discriminate|].
  destruct (Ascii.eqb c "010"%char); [discriminate | apply IH].
Qed.

Lemma split_lines_aux_join (cur s : string) :
  String.concat (String "010" "") (split_lines_aux cur s) = cur ++ s.
Proof.
  revert cur. induction s as [|c s IH]; intros cur; cbn [split_lines_aux].
  - cbn. now rewrite append_nil_r.
  - destruct (Ascii.eqb_spec c "010"%char) as [->|Hc].
    + cbn [String.concat].
      destruct (split_lines_aux "" s) as [|l ls] eqn:E;
        [now apply split_lines_aux_nonempty in E|].
      rewrite <- E, IH. reflexivity.
    + rewrite IH, append_assoc. reflexivity.
Qed.

Lemma cs_before_nul (s : string) : cs s = before_nul s.
Proof.
  unfold cs, c_str. induction s as [|c s IH]; [reflexivity|].
  cbn [list_ascii_of_string upto_nul before_nul]. unfold is_nul.
  destruct (Ascii.eqb c NUL); [reflexivity|].
  cbn [string_of_list_ascii]. now rewrite IH.
Qed.

Lemma before_nul_c_string (s : string) : is_c_string s -> before_nul s = s.
Proof.
  intros Hs. rewrite <- cs_before_nul. now apply cs_c_string.
Qed.

Lemma split_lines_aux_c_string (cur s : string) :
  is_c_string cur -> is_c_string s -> Forall is_c_string (split_lines_aux cur s).
Proof.
  unfold is_c_string. revert cur.
  induction s as [|c s IH]; intros cur Hcur Hs; cbn [split_lines_aux].
  - constructor; [exact Hcur | constructor].
  - cbn [list_ascii_of_string In] in Hs.
    assert (Hc : c <> NUL) by (intros E; apply Hs; left; now symmetry).
    assert (Hs' : ~ In NUL (list_ascii_of_string s)) by (intros H; apply Hs; now right).
    destruct (Ascii.eqb c "010"%char).
    + constructor; [exact Hcur|]. apply IH; [intros H; exact H | exact Hs'].
    + apply IH; [|exact Hs']. rewrite list_ascii_of_string_app.
      intros H. apply in_app_or in H. destruct H as [H|H]; [now apply Hcur|].
      cbn in H. destruct H as [H|H]; [apply Hc; now symmetry | exact H].
Qed.

Lemma uiPrint_lines_pipe {W : Type} (lines : list string) (u : Updater W) :
  cmd_pipe (snd (uiPrint_lines lines u)) =
  (cmd_pipe u ++ map ui_print_command (filter (fun l => negb (empty l)) lines))%list.
Proof.
  revert u. induction lines as [|line rest IH]; intros u; cbn [uiPrint_lines filter].
  - cbn. now rewrite app_nil_r.
  - unfold bind. destruct (empty line); cbn [negb].
    + cbn. apply IH.
    + unfold fprintf_cmd_pipe. cbn [map]. rewrite IH. cbn [cmd_pipe].
      rewrite <- app_assoc. unfold ui_print_command at 2.
      rewrite cs_before_nul. reflexivity.
Qed.

(** X1: [uiPrint] sends one [ui_print] command for every non-empty line of
    the buffer, in order, and nothing for an empty line.  A line is sent as
    a C string: the command holds the line up to its first NUL byte, the
    whole line when the buffer holds no NUL byte, and nothing but the
    command word for a line that starts with one.  No line holds a newline
    of its own, the lines joined by newlines are the buffer, and neither
    the evaluator state nor the world changes. *)
Theorem uiPrint_sends_the_nonempty_lines {W : Type} (buffer : string) (u : Updater W) :
  let r := uiPrint buffer u in
  let lines := Split_newline buffer in
  cmd_pipe (snd r) =
    (cmd_pipe u ++ map ui_print_command (filter (fun l => negb (empty l)) lines))%list /\
  (is_c_string buffer ->
   Forall (fun l => ui_print_command l = "ui_print " ++ l ++ String "010" "") lines) /\
  (forall l, ui_print_command (String NUL l) = "ui_print " ++ String "010" "") /\
  Forall (fun l => ~ has_newline l) lines /\
  String.concat (String "010" "") lines = buffer /\
  state (snd r) = state u /\ world (snd r) = world u.
Proof.
  cbv zeta. unfold uiPrint, Split_newline. split; [apply uiPrint_lines_pipe|].
  split.
  { intros Hb.
    assert (Hl : Forall is_c_string (split_lines_aux "" buffer)).
    { apply split_lines_aux_c_string; [intros H; exact H | exact Hb]. }
    induction Hl as [|l ls Hc _ IH]; constructor; [|exact IH].
    unfold ui_print_command. now rewrite before_nul_c_string. }
  split; [intros l; reflexivity|].
  split; [apply split_lines_aux_no_newline; intros H; exact H|].
  split; [apply split_lines_aux_join|].
  destruct (uiPrint_lines_frame (split_lines_aux "" buffer) u) as [_ H]. exact H.
Qed.

(** A line with a NUL byte in it, and one that starts with it. *)
Example uiPrint_cuts_a_line_at_nul :
  cmd_pipe (snd (uiPrint ("ab" ++ String NUL "cd" ++ String "010" (String NUL "x"))
                   (start sim0))) =
  ["ui_print ab" ++ String "010" ""; "ui_print " ++ String "010" ""].
Proof. reflexivity. Qed.

(** The example of the source: two lines and the empty token behind the
    last newline. *)
Example Split_newline_source_comment :
  Split_newline ("line1" ++ String "010" "line2" ++ String "010" "") =
  ["line1"; "line2"; ""].
Proof. reflexivity. Qed.

(** ** Child processes and filesystem provisioning *)

Lemma WEXITSTATUS_range (status : Z) : (0 <= WEXITSTATUS status <= 255)%Z.
Proof.
  unfold WEXITSTATUS.
  assert (E : Z.land (Z.shiftr status 8) 255 = (Z.shiftr status 8 mod 256)%Z)
    by (apply (Z.land_ones (Z.shiftr status 8) 8); lia).
  rewrite E.
  pose proof (Z.mod_pos_bound (Z.shiftr status 8) 256 eq_refl). lia.
Qed.

Lemma WEXITSTATUS_signal (status : Z) :
  (0 <= status < 256)%Z -> WEXITSTATUS status = 0%Z.
Proof.
  intros Hs. unfold WEXITSTATUS. rewrite Z.shiftr_div_pow2 by lia.
  change (2 ^ 8)%Z with 256%Z. rewrite Z.div_small by lia. reflexivity.
Qed.

(** X2: [exec_cmd] returns a value from 0 to 255, the exit status bits of
    the wait status whether or not the child exited by itself; a child
    ended by a signal (a wait status below 256) counts as the exit status
    0. *)
Theorem exec_cmd_exit_status {W : Type} {LC : Libc W}
  (path : string) (argv : list (option string)) (u : Updater W) :
  let waited := run_child path (argv_of argv) (world u) in
  let r := exec_cmd path argv u in
  fst r = WEXITSTATUS (fst waited) /\
  (0 <= fst r <= 255)%Z /\
  ((0 <= fst waited < 256)%Z -> fst r = 0%Z) /\
  snd r = mkUpdater (state u) (cmd_pipe u) (snd waited).
Proof.
  cbv zeta. unfold exec_cmd. unfold_m. cbv beta.
  destruct (run_child path (argv_of argv) (world u)) as [status w1].
  cbn [fst snd]. repeat split.
  - apply WEXITSTATUS_range.
  - apply WEXITSTATUS_range.
  - apply WEXITSTATUS_signal.
Qed.

Lemma exec_cmd_exit_status_witness :
  fst (exec_cmd "/sbin/mke2fs_static" (mke2fs_argv "/dev/block/userdata" 0)
         (start sim0)) = 0%Z.
Proof.
  refine (proj1 (proj2 (proj2 (exec_cmd_exit_status "/sbin/mke2fs_static"
                                 (mke2fs_argv "/dev/block/userdata" 0)
                                 (start sim0)))) _).
  cbn. lia.
Defined.

(** X3: [format] goes by the exit-status bits of the wait status of its
    tools (WEXITSTATUS), not by the way a tool ended.  When the bits of the
    filesystem maker are not 0 the result is the empty string and nothing
    else is run; when they are 0 the tool that seeds the filesystem is run,
    and its bits decide between the location and the empty string.  So a
    maker that was ended by a signal, whose wait status is below 256 and
    whose bits are 0, does not stop the run: the second tool is run as
    after a successful exit, and the location can be the result. *)
Theorem format_goes_by_the_exit_status_bits {W : Type} {AB : AndroidBase W}
  {LC : Libc W} (u : Updater W)
  (name fs_type partition_type location fs_size mount_point : string) (size : Z) :
  empty fs_type = false -> empty partition_type = false ->
  empty location = false -> empty mount_point = false ->
  ParseInt64 fs_size = Some size ->
  fs_type = "ext4" \/ (fs_type = "f2fs" /\ (0 <= size)%Z) ->
  let maker :=
    if fs_type =? "ext4"
    then ("/sbin/mke2fs_static", mke2fs_argv location size)
    else ("/sbin/mkfs.f2fs", f2fs_argv location size) in
  let seeder :=
    if fs_type =? "ext4"
    then ("/sbin/e2fsdroid_static", e2fsdroid_argv mount_point location)
    else ("/sbin/sload.f2fs", sload_argv mount_point location) in
  let r :=
    FormatFn name
      [str fs_type; str partition_type; str location; str fs_size; str mount_point] u in
  let made := run_child (fst maker) (argv_of (snd maker)) (world u) in
  let seeded := run_child (fst seeder) (argv_of (snd seeder)) (snd made) in
  let after := fun w => mkUpdater (state u) (cmd_pipe u) w in
  (WEXITSTATUS (fst made) <> 0%Z -> r = (Some (StringValue ""), after (snd made))) /\
  (WEXITSTATUS (fst made) = 0%Z ->
   r = (Some (StringValue (if (WEXITSTATUS (fst seeded) =? 0)%Z then location else "")),
        after (snd seeded))) /\
  ((0 <= fst made < 256)%Z ->
   r = (Some (StringValue (if (WEXITSTATUS (fst seeded) =? 0)%Z then location else "")),
        after (snd seeded))).
Proof.
  intros H1 H2 H3 H4 Hsize Hfs. cbv zeta.
  rewrite (FormatFn_parsed u name fs_type partition_type location fs_size
             mount_point size H1 H2 H3 H4 Hsize).
  assert (Hchain :
    forall t1 a1 t2 a2,
      let made := run_child t1 (argv_of a1) (world u) in
      let seeded := run_child t2 (argv_of a2) (snd made) in
      let after := fun w => mkUpdater (state u) (cmd_pipe u) w in
      let both :=
        (Some (StringValue (if (WEXITSTATUS (fst seeded) =? 0)%Z then location else "")),
         after (snd seeded)) in
      (WEXITSTATUS (fst made) <> 0%Z ->
       tool_chain t1 a1 t2 a2 location u = (Some (StringValue ""), after (snd made))) /\
      (WEXITSTATUS (fst made) = 0%Z -> tool_chain t1 a1 t2 a2 location u = both) /\
      ((0 <= fst made < 256)%Z -> tool_chain t1 a1 t2 a2 location u = both)).
  { intros t1 a1 t2 a2. cbv zeta.
    assert (Hzero :
      WEXITSTATUS (fst (run_child t1 (argv_of a1) (world u))) = 0%Z ->
      tool_chain t1 a1 t2 a2 location u =
      (Some (StringValue
               (if (WEXITSTATUS
                      (fst (run_child t2 (argv_of a2)
                              (snd (run_child t1 (argv_of a1) (world u))))) =? 0)%Z
                then location else "")),
       mkUpdater (state u) (cmd_pipe u)
         (snd (run_child t2 (argv_of a2)
                 (snd (run_child t1 (argv_of a1) (world u))))))).
    { unfold tool_chain, exec_cmd, bind, call, ret. cbv beta.
      destruct (run_child t1 (argv_of a1) (world u)) as [s1 w1]. cbn [fst snd].
      intros ->. cbn [Z.eqb negb state cmd_pipe world].
      destruct (run_child t2 (argv_of a2) w1) as [s2 w2]. cbn [fst snd].
      destruct (WEXITSTATUS s2 =? 0)%Z; reflexivity. }
    split; [|split].
    - unfold tool_chain, exec_cmd, bind, call, ret. cbv beta.
      destruct (run_child t1 (argv_of a1) (world u)) as [s1 w1]. cbn [fst snd].
      intros Hs. destruct (Z.eqb_spec (WEXITSTATUS s1) 0) as [E|_];
        [contradiction | reflexivity].
    - exact Hzero.
    - intros Hsig. apply Hzero. now apply WEXITSTATUS_signal. }
  destruct Hfs as [->|[-> Hpos]].
  - cbn [String.eqb Ascii.eqb Bool.eqb fst snd]. apply Hchain.
  - cbn [String.eqb Ascii.eqb Bool.eqb fst snd].
    destruct (Z.ltb_spec size 0) as [Hlt|_]; [lia|]. apply Hchain.
Qed.

Lemma format_goes_by_the_exit_status_bits_witness :
  let w := sim_failing (fails_fn "/sbin/mke2fs_static") in
  let r :=
    @FormatFn Sim Sim_AndroidBase Sim_Libc_killed "format"
      [str "ext4"; str "EMMC"; str "/dev/block/userdata"; str "0"; str "/data"]
      (start w) in
  fst (@run_child Sim Sim_Libc_killed "/sbin/mke2fs_static"
         ["/sbin/mke2fs_static"; "-t"; "ext4"; "-b"; "4096"; "/dev/block/userdata"] w) =
  9%Z /\
  fst r = Some (StringValue "/dev/block/userdata") /\
  map call_fn (trace (world (snd r))) = ["/sbin/mke2fs_static"; "/sbin/e2fsdroid_static"].
Proof.
  cbv zeta. split; [reflexivity|].
  pose proof (@format_goes_by_the_exit_status_bits Sim Sim_AndroidBase Sim_Libc_killed
                (start (sim_failing (fails_fn "/sbin/mke2fs_static"))) "format"
                "ext4" "EMMC" "/dev/block/userdata" "0" "/data" 0) as H.
  cbv zeta in H.
  assert (Hsig : (0 <= 9 < 256)%Z) by lia.
  destruct (H eq_refl eq_refl eq_refl eq_refl eq_refl (or_introl eq_refl))
    as [_ [_ Hk]].
  rewrite (Hk Hsig). split; reflexivity.
Defined.

Example format_failed_maker_stops_the_run :
  let w := sim_failing (fails_fn "/sbin/mke2fs_static") in
  FormatFn "format"
    [str "ext4"; str "EMMC"; str "/dev/block/userdata"; str "0"; str "/data"]
    (start w) =
  (Some (StringValue ""),
   start (record_call
            (mkCall "/sbin/mke2fs_static"
               ["/sbin/mke2fs_static"; "-t"; "ext4"; "-b"; "4096"; "/dev/block/userdata"])
            w)).
Proof. reflexivity. Qed.

(** X4: an empty required argument is an argument error that is raised
    before anything is done: [mount] and [format] with an empty fs_type,
    partition_type, location or mount_point, [format] with a size that
    does not parse, [rename] with an empty source or destination and
    [write_value] with an empty file name abort with the argument-parsing
    kind, and no call to the outside and no UI output has happened. *)
Theorem empty_arguments_abort_first {W : Type} {AB : AndroidBase W} {LC : Libc W}
  {SE : Selinux W} (u : Updater W) (name a b c d x : string) :
  ((empty a || empty b || empty c || empty d)%bool = true ->
   aborts_untouched kArgsParsingFailure u
     (MountFn name [str a; str b; str c; str d] u) /\
   aborts_untouched kArgsParsingFailure u
     (MountFn name [str a; str b; str c; str d; str x] u) /\
   aborts_untouched kArgsParsingFailure u
     (FormatFn name [str a; str b; str c; str x; str d] u)) /\
  (ParseInt64 x = None ->
   aborts_untouched kArgsParsingFailure u
     (FormatFn name [str a; str b; str c; str x; str d] u)) /\
  ((empty a || empty b)%bool = true ->
   aborts_untouched kArgsParsingFailure u (RenameFn name [str a; str b] u)) /\
  (empty b = true ->
   aborts_untouched kArgsParsingFailure u (WriteValueFn name [str a; str b] u)).
Proof.
  unfold aborts_untouched, hard_abort, MountFn, FormatFn, RenameFn, WriteValueFn.
  cbn [List.length Nat.eqb negb andb ReadArgs ReadArgsRange Nat.ltb Nat.leb Nat.add
       skipn firstn all_some Evaluate str StringValue].
  unfold arg. cbn [nth]. unfold_m.
  split; [|split; [|split]].
  - intros H.
    destruct (empty a), (empty b), (empty c), (empty d);
      try discriminate H; repeat split.
  - intros H.
    destruct (empty a), (empty b), (empty c), (empty d);
      try rewrite H; repeat split.
  - intros H. destruct (empty a), (empty b); try discriminate H; repeat split.
  - intros H. rewrite H. repeat split.
Qed.

Lemma empty_arguments_abort_first_witness :
  aborts_untouched kArgsParsingFailure (start sim1)
    (RenameFn "rename" [str "/system/app/a.apk"; str ""] (start sim1)).
Proof.
  refine (proj1 (proj2 (proj2 (empty_arguments_abort_first (start sim1) "rename"
                                 "/system/app/a.apk" "" "" "" ""))) _).
  reflexivity.
Defined.

Ltac ui_both :=
  repeat match goal with
    | |- context [uiPrintf ?m ?v] =>
        let Hs := fresh "Hs" in
        let Hw := fresh "Hw" in
        destruct (uiPrintf_frame m v) as [Hs Hw];
        destruct (uiPrintf m v) as [? ?]; step;
        cbn [fst snd state world] in Hs, Hw
    end.

(** X5: [mount] with non-empty arguments never aborts, in the form with
    four arguments as in the form with mount options.  Its result is
    decided by the mount system call alone, made once the mount point is
    prepared, with the flags MS_NOATIME | MS_NODEV | MS_NODIRATIME and the
    options given (empty in the four-argument form): the mount point when
    the call succeeds, the empty string when it fails.  Whether the mount
    point could be created or labelled plays no part, the evaluator state
    stays as it was, and nothing is printed when the call succeeds. *)
Theorem mount_failure_is_soft {W : Type} {LC : Libc W} {SE : Selinux W}
  (u : Updater W)
  (name fs_type partition_type location mount_point mount_options : string) :
  empty fs_type = false -> empty partition_type = false ->
  empty location = false -> empty mount_point = false ->
  let outcome := fun (r : option Value * Updater W) (options : string) =>
    let m := sys_mount location mount_point fs_type 3076 options
               (mount_prepared mount_point (world u)) in
    fst r = Some (StringValue (if (fst m <? 0)%Z then "" else mount_point)) /\
    world (snd r) = snd m /\
    state (snd r) = state u /\
    ((0 <= fst m)%Z -> cmd_pipe (snd r) = cmd_pipe u) in
  outcome
    (MountFn name [str fs_type; str partition_type; str location; str mount_point] u)
    "" /\
  outcome
    (MountFn name
       [str fs_type; str partition_type; str location; str mount_point;
        str mount_options] u)
    mount_options.
Proof.
  intros H1 H2 H3 H4. cbv zeta. unfold MountFn, mount_prepared.
  cbn [List.length Nat.eqb negb andb ReadArgs ReadArgsRange Nat.ltb Nat.leb Nat.add
       skipn firstn all_some Evaluate str StringValue].
  unfold arg. cbn [nth]. rewrite H1, H2, H3, H4.
  change (Z.lor (Z.lor MS_NOATIME MS_NODEV) MS_NODIRATIME) with 3076%Z.
  unfold_m. cbv beta.
  split;
    repeat (step; first [ ui_both; destr_match ]); step; ui_both;
    repeat match goal with
      | H : (_, _) = (_, _) |- _ => injection H as ? ?; subst
      end;
    step;
    repeat split;
    try (intros Hpos;
         match goal with
         | Hneg : (?x <? 0)%Z = true |- _ => apply Z.ltb_lt in Hneg; cbn [fst] in Hpos; lia
         end);
    first [reflexivity | assumption | congruence].
Qed.

Lemma mount_failure_is_soft_witness :
  let w := sim_failing (fails_fn "mount") in
  fst (MountFn "mount"
         [str "ext4"; str "EMMC"; str "/dev/block/system"; str "/system"; str "ro"]
         (start w)) = Some (StringValue "") /\
  fst (MountFn "mount"
         [str "ext4"; str "EMMC"; str "/dev/block/system"; str "/system"; str "ro"]
         (start sim1)) = Some (StringValue "/system") /\
  trace (world (snd (MountFn "mount"
                       [str "ext4"; str "EMMC"; str "/dev/block/system"; str "/system";
                        str "ro"] (start sim1)))) =
  [mkCall "mkdir" ["/system"; "493"];
   mkCall "mount" ["/dev/block/system"; "/system"; "ext4"; "3076"; "ro"]].
Proof.
  cbv zeta.
  destruct (mount_failure_is_soft (start (sim_failing (fails_fn "mount"))) "mount"
              "ext4" "EMMC" "/dev/block/system" "/system" "ro"
              eq_refl eq_refl eq_refl eq_refl) as [_ [Hfail _]].
  destruct (mount_failure_is_soft (start sim1) "mount"
              "ext4" "EMMC" "/dev/block/system" "/system" "ro"
              eq_refl eq_refl eq_refl eq_refl) as [_ [Hok [Hw _]]].
  split; [rewrite Hfail; reflexivity|].
  split; [rewrite Hok; reflexivity | rewrite Hw; reflexivity].
Defined.

(** ** Files *)

Section RenameProperties.
Context {W : Type} {LC : Libc W}.

(** [rename] behind its argument checks. *)
Lemma RenameFn_checked (u : Updater W) (name src_name dst_name : string) :
  empty src_name = false -> empty dst_name = false ->
  RenameFn name [str src_name; str dst_name] u =
  (ok <- make_parents dst_name ;;
   if negb ok then
     e <- observe errno ;;
     ErrorAbort kFileRenameFailure
       ("Creating parent of " ++ cs dst_name ++ " failed, error " ++ strerror e)
   else
     d <- call (sys_access dst_name F_OK) ;;
     moved <-
       (if (d =? 0)%Z then
          a <- call (sys_access src_name F_OK) ;;
          ret (negb (a =? 0)%Z)
        else ret false) ;;
     if moved then ret (Some (StringValue dst_name))
     else
       r <- call (sys_rename src_name dst_name) ;;
       if negb (r =? 0)%Z then
         e <- observe errno ;;
         ErrorAbort kFileRenameFailure
           ("Rename of " ++ cs src_name ++ " to " ++ cs dst_name
            ++ " failed, error " ++ strerror e)
       else ret (Some (StringValue dst_name))) u.
Proof.
  intros Hs Hd. unfold RenameFn.
  cbn [List.length Nat.eqb negb ReadArgs ReadArgsRange Nat.ltb Nat.leb Nat.add
       skipn firstn all_some Evaluate str StringValue].
  unfold arg. cbn [nth]. rewrite Hs, Hd. reflexivity.
Qed.

End RenameProperties.

(** X6: [rename] is safe to repeat: when the parents of the destination
    are in place, the destination exists and the source does not (the file
    was already moved), the call returns the destination and the rename
    system call is not made. *)
Theorem rename_already_moved {W : Type} {LC : Libc W}
  (u : Updater W) (name src_name dst_name : string) :
  empty src_name = false -> empty dst_name = false ->
  let made := make_parents dst_name u in
  let dst := sys_access dst_name F_OK (world (snd made)) in
  let src := sys_access src_name F_OK (snd dst) in
  fst made = true -> fst dst = 0%Z -> fst src <> 0%Z ->
  RenameFn name [str src_name; str dst_name] u =
  (Some (StringValue dst_name),
   mkUpdater (state (snd made)) (cmd_pipe (snd made)) (snd src)).
Proof.
  intros Hs Hd. cbv zeta. rewrite (RenameFn_checked u name src_name dst_name Hs Hd).
  unfold_m. cbv beta.
  destruct (make_parents dst_name u) as [ok u1]. cbn [fst snd].
  intros -> Hdst Hsrc. cbn [negb].
  destruct (sys_access dst_name F_OK (world u1)) as [d w2]. cbn [fst snd] in *.
  subst d. cbn [Z.eqb state cmd_pipe world].
  destruct (sys_access src_name F_OK w2) as [a w3]. cbn [fst snd] in *.
  destruct (Z.eqb_spec a 0) as [->|_]; [contradiction | reflexivity].
Qed.

Lemma rename_already_moved_witness :
  let w := sim_failing (fails_on "access" "/system/app/a.apk") in
  fst (RenameFn "rename" [str "/system/app/a.apk"; str "/d/a"] (start w)) =
  Some (StringValue "/d/a") /\
  trace (world (snd (RenameFn "rename" [str "/system/app/a.apk"; str "/d/a"] (start w)))) =
  [mkCall "access" ["/d/a"; "0"]; mkCall "access" ["/system/app/a.apk"; "0"]].
Proof.
  pose proof (rename_already_moved
                (start (sim_failing (fails_on "access" "/system/app/a.apk")))
                "rename" "/system/app/a.apk" "/d/a" eq_refl eq_refl) as H.
  cbv zeta in H. cbv zeta. rewrite H.
  - split; reflexivity.
  - reflexivity.
  - reflexivity.
  - cbn. discriminate.
Defined.

(** X7: a [rename] that cannot be carried out is a hard abort, never an
    empty result.  When a parent of the destination cannot be created the
    call aborts with the file-rename kind before anything else is tried.
    Otherwise the rename system call is made unless the file was already
    moved, that is both when the destination does not exist and when the
    destination and the source both exist; when that call fails the call
    aborts with the same kind, and when it succeeds the result is the
    destination. *)
Theorem rename_failures_abort {W : Type} {LC : Libc W}
  (u : Updater W) (name src_name dst_name : string) :
  empty src_name = false -> empty dst_name = false ->
  let r := RenameFn name [str src_name; str dst_name] u in
  let made := make_parents dst_name u in
  let dst := sys_access dst_name F_OK (world (snd made)) in
  let src := sys_access src_name F_OK (snd dst) in
  let looked := if (fst dst =? 0)%Z then snd src else snd dst in
  let renamed := sys_rename src_name dst_name looked in
  (fst made = false ->
   hard_abort kFileRenameFailure r /\ world (snd r) = world (snd made)) /\
  (fst made = true -> fst dst <> 0%Z \/ fst src = 0%Z ->
   if (fst renamed =? 0)%Z then
     r = (Some (StringValue dst_name),
          mkUpdater (state (snd made)) (cmd_pipe (snd made)) (snd renamed))
   else hard_abort kFileRenameFailure r /\ world (snd r) = snd renamed).
Proof.
  intros Hs Hd. cbv zeta. rewrite (RenameFn_checked u name src_name dst_name Hs Hd).
  unfold_m. cbv beta.
  destruct (make_parents dst_name u) as [ok u1]. cbn [fst snd]. split.
  - intros ->. cbn [negb]. repeat split.
  - intros -> Hcase. cbn [negb].
    destruct (sys_access dst_name F_OK (world u1)) as [d w2]. cbn [fst snd] in *.
    destruct (Z.eqb_spec d 0) as [->|Hne]; cbn [state cmd_pipe world].
    + destruct (sys_access src_name F_OK w2) as [a w3]. cbn [fst snd] in *.
      destruct Hcase as [Hcase | ->]; [contradiction|].
      cbn [Z.eqb negb state cmd_pipe world].
      destruct (sys_rename src_name dst_name w3) as [r w4]. cbn [fst snd].
      destruct (r =? 0)%Z; cbn [negb]; [reflexivity | repeat split].
    + destruct (sys_rename src_name dst_name w2) as [r w3]. cbn [fst snd].
      destruct (r =? 0)%Z; cbn [negb]; [reflexivity | repeat split].
Qed.

Lemma rename_failures_abort_witness :
  let w := sim_failing (fails_fn "rename") in
  let r := RenameFn "rename" [str "/system/app/a.apk"; str "/d/a"] (start w) in
  hard_abort kFileRenameFailure r /\
  trace (world (snd r)) =
  [mkCall "access" ["/d/a"; "0"]; mkCall "access" ["/system/app/a.apk"; "0"];
   mkCall "rename" ["/system/app/a.apk"; "/d/a"]].
Proof.
  pose proof (proj2 (rename_failures_abort
                       (start (sim_failing (fails_fn "rename")))
                       "rename" "/system/app/a.apk" "/d/a" eq_refl eq_refl)) as H.
  cbv zeta in H. cbv zeta.
  assert (Hmade : fst (make_parents "/d/a" (start (sim_failing (fails_fn "rename"))))
                  = true) by reflexivity.
  specialize (H Hmade (or_intror eq_refl)).
  destruct H as [Ha Hw]. split; [exact Ha | rewrite Hw; reflexivity].
Defined.

Example rename_to_a_new_name_fails :
  let w := sim_failing (fun c => (fails_fn "access" c || fails_fn "rename" c)%bool) in
  hard_abort kFileRenameFailure
    (RenameFn "rename" [str "/system/app/a.apk"; str "/d/a"] (start w)).
Proof. split; reflexivity. Qed.

Example parents_of_a_path :
  parents "/system/priv-app/Hangouts/Hangouts.apk" =
  ["/system"; "/system/priv-app"; "/system/priv-app/Hangouts"] /\
  parents "Hangouts.apk" = [] /\ parents "/init" = [].
Proof. repeat split. Qed.

Lemma make_parents_from_existing {W : Type} {LC : Libc W}
  (name rest : string) (pos : nat) (u : Updater W) :
  (forall dir, In dir (parents_from name rest pos) ->
     exists st, sys_stat dir (world u) = (Some st, world u) /\
                S_ISDIR (st_mode st) = true) ->
  make_parents_from name rest pos u = (true, u).
Proof.
  revert pos. induction rest as [|c rest IH]; intros pos Hdirs; [reflexivity|].
  cbn [make_parents_from parents_from] in *.
  destruct (Ascii.eqb c "/"%char && (1 <=? pos)%nat)%bool.
  - destruct (Hdirs (substring 0 pos name) (or_introl eq_refl)) as [st [Hst Hdir]].
    unfold is_dir. unfold bind, call, ret. cbv beta. rewrite Hst. cbn [fst snd].
    rewrite Hdir.
    cbn [negb]. destruct u as [s p w]. cbn [state cmd_pipe world] in *.
    apply IH. intros dir Hin. apply Hdirs. now right.
  - apply IH. exact Hdirs.
Qed.

Lemma make_parents_from_mkdir_fails {W : Type} {LC : Libc W}
  (name rest : string) (pos : nat) (u : Updater W) :
  (forall dir w, fst (sys_stat dir w) = None) ->
  (forall dir m w, fst (sys_mkdir dir m w) <> 0%Z) ->
  parents_from name rest pos <> [] ->
  fst (make_parents_from name rest pos u) = false.
Proof.
  intros Hstat Hmk. revert pos u.
  induction rest as [|c rest IH]; intros pos u Hne; [now elim Hne|].
  cbn [make_parents_from parents_from] in *.
  destruct (Ascii.eqb c "/"%char && (1 <=? pos)%nat)%bool.
  - unfold is_dir. unfold bind, call, ret. cbv beta.
    pose proof (Hstat (substring 0 pos name) (world u)) as Hs.
    destruct (sys_stat (substring 0 pos name) (world u)) as [st w1].
    cbn [fst snd] in *. subst st. cbn [negb world state cmd_pipe].
    pose proof (Hmk (substring 0 pos name) 448%Z w1) as Hm.
    destruct (sys_mkdir (substring 0 pos name) 448 w1) as [r w2]. cbn [fst snd] in *.
    destruct (Z.eqb_spec r 0) as [->|_]; [contradiction | reflexivity].
  - apply IH. exact Hne.
Qed.

(** X8: [make_parents] succeeds without changing anything when every
    parent directory of the path is already a directory; in particular a
    path with no '/' behind its first character needs nothing.  When no
    directory exists and none can be made, it fails for every path that
    has a parent. *)
Theorem make_parents_existing_parents {W : Type} {LC : Libc W}
  (name : string) (u : Updater W) :
  ((forall dir, In dir (parents name) ->
      exists st, sys_stat dir (world u) = (Some st, world u) /\
                 S_ISDIR (st_mode st) = true) ->
   make_parents name u = (true, u)) /\
  (parents name = [] -> make_parents name u = (true, u)) /\
  ((forall dir w, fst (sys_stat dir w) = None) ->
   (forall dir m w, fst (sys_mkdir dir m w) <> 0%Z) ->
   parents name <> [] -> fst (make_parents name u) = false).
Proof.
  unfold make_parents, parents. split; [|split].
  - apply make_parents_from_existing.
  - intros Hnone. apply make_parents_from_existing. rewrite Hnone.
    intros dir [].
  - apply make_parents_from_mkdir_fails.
Qed.

Lemma make_parents_existing_parents_witness :
  make_parents "/d/a" (start sim1) = (true, start sim1).
Proof.
  apply (proj1 (make_parents_existing_parents "/d/a" (start sim1))).
  intros dir [<-|[]]. exists (mkStat mode_dir 0). split; reflexivity.
Defined.

(** ** Digests, patches and removal *)

Lemma all_some_length {A B : Type} (f : A -> option B) (l : list A) (bs : list B) :
  all_some f l = Some bs -> List.length l = List.length bs.
Proof.
  revert bs. induction l as [|a l IH]; intros bs H; cbn [all_some] in H.
  - injection H as <-. reflexivity.
  - destruct (f a) as [b|]; [|discriminate].
    destruct (all_some f l) as [bs'|]; [|discriminate].
    injection H as <-. cbn [List.length]. f_equal. apply IH. reflexivity.
Qed.

Lemma ReadValueArgs_length (argv : list Expr) (vs : list Value) :
  ReadValueArgs argv = Some vs -> List.length argv = List.length vs.
Proof.
  unfold ReadValueArgs, ReadValueArgsRange. rewrite Nat.add_0_l, Nat.ltb_irrefl.
  cbn [skipn]. rewrite firstn_all. apply all_some_length.
Qed.

Lemma ReadArgs_length (argv : list Expr) (args : list string) :
  ReadArgs argv = Some args -> List.length argv = List.length args.
Proof.
  unfold ReadArgs, ReadArgsRange. rewrite Nat.add_0_l, Nat.ltb_irrefl.
  cbn [skipn]. rewrite firstn_all. apply all_some_length.
Qed.

Lemma sha1_match_find {W : Type} {AP : ApplyPatch W} (digest : string)
  (args : list Value) :
  sha1_match digest args = find (names_digest digest) args.
Proof.
  induction args as [|a rest IH]; [reflexivity|].
  cbn [sha1_match find]. unfold names_digest at 1.
  destruct (ValueType_eqb (type a) VAL_STRING); cbn [negb andb]; [|exact IH].
  destruct (ParseSha1 (data a)) as [d|]; [|exact IH].
  destruct (String.eqb digest d); [reflexivity | exact IH].
Qed.

(** X9: [sha1_check] compares the digest of its first argument with the
    further arguments in their order and returns the first one that names
    it, the argument itself as it was passed and not the printed digest;
    arguments that are no strings or do not parse are passed over.  With no
    argument that names the digest the result is the empty string, with a
    single argument it is the printed digest, and with an invalid first
    value it is the empty string whatever follows.  Nothing is changed. *)
Theorem sha1_check_returns_first_match {W : Type} {AP : ApplyPatch W}
  (u : Updater W) (name : string) (argv : list Expr) (a0 : Value) (rest : list Value) :
  ReadValueArgs argv = Some (a0 :: rest) ->
  Sha1CheckFn name argv u =
  (Some (if ValueType_eqb (type a0) VAL_INVALID then StringValue ""
         else
           match rest with
           | [] => StringValue (print_sha1 (SHA1 (data a0)))
           | _ :: _ =>
               match find (names_digest (SHA1 (data a0))) rest with
               | Some a => a
               | None => StringValue ""
               end
           end), u) /\
  (forall a, find (names_digest (SHA1 (data a0))) rest = Some a ->
     In a rest /\ type a = VAL_STRING /\ ParseSha1 (data a) = Some (SHA1 (data a0))).
Proof.
  intros Hargs. split.
  - pose proof (ReadValueArgs_length argv _ Hargs) as Hlen.
    unfold Sha1CheckFn. rewrite Hargs, Hlen. cbn [List.length Nat.ltb Nat.leb].
    destruct (ValueType_eqb (type a0) VAL_INVALID); [reflexivity|].
    destruct rest as [|a1 rest]; [reflexivity|].
    cbn [List.length Nat.eqb]. rewrite sha1_match_find.
    destruct (find _ _); reflexivity.
  - intros a Ha. apply find_some in Ha. destruct Ha as [Hin Hn].
    unfold names_digest in Hn. apply andb_prop in Hn. destruct Hn as [Ht Hp].
    split; [exact Hin|]. split.
    + destruct (type a); try discriminate Ht. reflexivity.
    + destruct (ParseSha1 (data a)) as [d|]; [|discriminate].
      apply String.eqb_eq in Hp. now subst d.
Qed.

Lemma sha1_check_returns_first_match_witness :
  Sha1CheckFn "sha1_check"
    [Some (mkValue VAL_BLOB "abc"); str "abd"; Some (mkValue VAL_BLOB "abc"); str "abc"]
    (start sim1) =
  (Some (StringValue "abc"), start sim1).
Proof.
  exact (proj1 (sha1_check_returns_first_match (start sim1) "sha1_check"
                  [Some (mkValue VAL_BLOB "abc"); str "abd";
                   Some (mkValue VAL_BLOB "abc"); str "abc"]
                  (mkValue VAL_BLOB "abc")
                  [StringValue "abd"; mkValue VAL_BLOB "abc"; StringValue "abc"]
                  eq_refl)).
Defined.

(** X10: [apply_patch_space] on a retry answers "t" without checking the
    cache at all; otherwise its answer is "t" exactly when the cache size
    check returns 0, and the check is the only thing it does. *)
Theorem apply_patch_space_skips_check_on_retry {W : Type} {AB : AndroidBase W}
  {AP : ApplyPatch W} (u : Updater W) (name bytes_str : string) (bytes : Z) :
  ParseUint bytes_str = Some bytes ->
  let r := ApplyPatchSpaceFn name [str bytes_str] u in
  (is_retry (state u) = true -> r = (Some (StringValue "t"), u)) /\
  (is_retry (state u) = false ->
   let c := CacheSizeCheck bytes (world u) in
   r = (Some (StringValue (if (fst c =? 0)%Z then "t" else "")),
        mkUpdater (state u) (cmd_pipe u) (snd c))).
Proof.
  intros Hb. cbv zeta. unfold ApplyPatchSpaceFn.
  cbn [List.length Nat.eqb negb ReadArgs ReadArgsRange Nat.ltb Nat.leb Nat.add
       skipn firstn all_some Evaluate str StringValue].
  unfold arg. cbn [nth]. rewrite Hb. unfold_m. cbv beta. split; intros Hr; rewrite Hr.
  - reflexivity.
  - destruct (CacheSizeCheck bytes (world u)) as [r w1]. cbn [fst snd].
    destruct (r =? 0)%Z; reflexivity.
Qed.

Lemma apply_patch_space_skips_check_on_retry_witness :
  let u := mkUpdater (mkState "" kNoCause true) []
             (sim_failing (fails_fn "CacheSizeCheck")) in
  ApplyPatchSpaceFn "apply_patch_space" [str "4096"] u = (Some (StringValue "t"), u).
Proof.
  exact (proj1 (apply_patch_space_skips_check_on_retry
                  (mkUpdater (mkState "" kNoCause true) []
                     (sim_failing (fails_fn "CacheSizeCheck")))
                  "apply_patch_space" "4096" 4096 eq_refl) eq_refl).
Defined.

Section DeleteProperties.
Context {W : Type} {LC : Libc W} {FT : FsTools W}.

(** The loop of [delete] adds at most one to the count for every path, and
    touches neither the evaluator state nor the UI. *)
Lemma DeleteFn_loop_count (recursive : bool) (paths : list string) (success : Z)
  (u : Updater W) :
  let r := DeleteFn_loop recursive paths success u in
  (success <= fst r <= success + Z.of_nat (List.length paths))%Z /\
  state (snd r) = state u /\ cmd_pipe (snd r) = cmd_pipe u.
Proof.
  cbv zeta. revert success u. induction paths as [|path rest IH]; intros success u.
  - cbn. repeat split; lia.
  - cbn [DeleteFn_loop]. unfold bind, call. cbv beta.
    destruct ((if recursive then dirUnlinkHierarchy path else sys_unlink path) (world u))
      as [r w1].
    match goal with
    | |- context [DeleteFn_loop recursive rest ?s ?v] =>
        destruct (IH s v) as [Hc [Hs Hp]]
    end.
    cbn [state cmd_pipe] in Hs, Hp.
    split; [|split; assumption].
    rewrite length_cons, Nat2Z.inj_succ.
    destruct (r =? 0)%Z; lia.
Qed.

(** On worlds that keep a property under which no removal succeeds the
    count stays; when under it every removal succeeds, the count grows by
    the number of paths. *)
Lemma DeleteFn_loop_all (recursive : bool) (P : W -> Prop) (paths : list string)
  (success : Z) (u : Updater W) :
  let remove := fun path =>
    if recursive then dirUnlinkHierarchy path else sys_unlink path in
  P (world u) ->
  ((forall path w, P w -> P (snd (remove path w)) /\ fst (remove path w) <> 0%Z) ->
   fst (DeleteFn_loop recursive paths success u) = success) /\
  ((forall path w, P w -> P (snd (remove path w)) /\ fst (remove path w) = 0%Z) ->
   fst (DeleteFn_loop recursive paths success u) =
   (success + Z.of_nat (List.length paths))%Z).
Proof.
  cbv zeta. intros HP.
  split; intros Hall; revert success u HP;
    induction paths as [|path rest IH]; intros success u HP;
    try (cbn; lia);
    cbn [DeleteFn_loop]; unfold bind, call; cbv beta;
    destruct (Hall path (world u) HP) as [HP' Hr];
    destruct ((if recursive then dirUnlinkHierarchy path else sys_unlink path) (world u))
      as [r w1]; cbn [fst snd] in HP', Hr.
  - destruct (Z.eqb_spec r 0) as [->|_]; [contradiction | apply IH; exact HP'].
  - subst r. cbn [Z.eqb]. rewrite IH by exact HP'.
    rewrite length_cons, Nat2Z.inj_succ. lia.
Qed.

(** The loop adds to the count the number of removals that returned 0. *)
Lemma DeleteFn_loop_removals (recursive : bool) (paths : list string) (success : Z)
  (u : Updater W) :
  let run :=
    removals (fun path => if recursive then dirUnlinkHierarchy path else sys_unlink path)
      paths (world u) in
  DeleteFn_loop recursive paths success u =
  ((success + zeros (fst run))%Z, mkUpdater (state u) (cmd_pipe u) (snd run)).
Proof.
  cbv zeta. revert success u. induction paths as [|path rest IH]; intros success u.
  - cbn. unfold ret, zeros. cbn. rewrite Z.add_0_r. now destruct u.
  - cbn [DeleteFn_loop removals]. unfold bind, call. cbv beta.
    destruct ((if recursive then dirUnlinkHierarchy path else sys_unlink path) (world u))
      as [r w1].
    rewrite IH. cbn [state cmd_pipe world].
    destruct (removals _ rest w1) as [rs w2]. cbn [fst snd].
    unfold zeros. cbn [filter].
    destruct (r =? 0)%Z; cbn [List.length]; [|reflexivity].
    rewrite Nat2Z.inj_succ. f_equal. lia.
Qed.

End DeleteProperties.

(** X11: [delete] and [delete_recursive] try every path in turn, whatever
    the removals before it returned, and return the decimal count of the
    removals that returned 0: a number from 0 to the number of paths, all
    of them when every removal succeeds, 0 when none does.  A removal that
    fails is no error: the evaluator state and the UI are as before.  When
    an argument cannot be read the result is null and nothing has been
    removed. *)
Theorem delete_counts_the_removed_paths {W : Type} {LC : Libc W} {FT : FsTools W}
  (u : Updater W) (name : string) (argv : list Expr) :
  (forall paths, ReadArgs argv = Some paths ->
     let recursive := name =? "delete_recursive" in
     let remove := fun path =>
       if recursive then dirUnlinkHierarchy path else sys_unlink path in
     let r := DeleteFn name argv u in
     let run := removals remove paths (world u) in
     r = (Some (StringValue (dec (zeros (fst run)))),
          mkUpdater (state u) (cmd_pipe u) (snd run)) /\
     (exists n, (0 <= n <= Z.of_nat (List.length argv))%Z /\
                fst r = Some (StringValue (dec n))) /\
     state (snd r) = state u /\ cmd_pipe (snd r) = cmd_pipe u /\
     (forall P : W -> Prop, P (world u) ->
        ((forall path w, P w -> P (snd (remove path w)) /\ fst (remove path w) = 0%Z) ->
         fst r = Some (StringValue (dec_size (List.length argv)))) /\
        ((forall path w, P w -> P (snd (remove path w)) /\ fst (remove path w) <> 0%Z) ->
         fst r = Some (StringValue "0")))) /\
  (ReadArgs argv = None -> DeleteFn name argv u = (None, u)).
Proof.
  unfold DeleteFn. split.
  - intros paths Hargs. cbv zeta. rewrite Hargs, (ReadArgs_length argv paths Hargs).
    unfold bind, ret. cbv beta.
    split.
    { pose proof (DeleteFn_loop_removals (name =? "delete_recursive") paths 0 u) as Hr.
      cbv zeta in Hr. rewrite Hr. reflexivity. }
    pose proof (DeleteFn_loop_count (name =? "delete_recursive") paths 0 u) as Hc.
    pose proof (fun P => DeleteFn_loop_all (name =? "delete_recursive") P paths 0 u) as Ha.
    cbv zeta in Hc, Ha.
    destruct (DeleteFn_loop (name =? "delete_recursive") paths 0 u) as [n u1].
    cbn [fst snd] in *. destruct Hc as [Hn [Hs Hp]].
    split; [exists n; split; [lia | reflexivity]|].
    split; [exact Hs|]. split; [exact Hp|].
    intros P HP. destruct (Ha P HP) as [Hnone Hall]. split.
    + intros H. rewrite (Hall H). reflexivity.
    + intros H. rewrite (Hnone H). reflexivity.
  - intros Hargs. rewrite Hargs. reflexivity.
Qed.

Lemma delete_counts_the_removed_paths_witness :
  fst (DeleteFn "delete" [str "/d/a"; str "/d/b"; str "/d/c"]
         (start (sim_failing (fails_on "unlink" "/d/b")))) =
  Some (StringValue "2") /\
  fst (DeleteFn "delete_recursive" [str "/d"; str "/e"] (start sim1)) =
  Some (StringValue "2").
Proof.
  split.
  { pose proof (proj1 (proj1 (delete_counts_the_removed_paths
                                (start (sim_failing (fails_on "unlink" "/d/b")))
                                "delete" [str "/d/a"; str "/d/b"; str "/d/c"])
                         ["/d/a"; "/d/b"; "/d/c"] eq_refl)) as H.
    cbv zeta in H. rewrite H. reflexivity. }
  refine (proj1 (proj2 (proj2 (proj2 (proj2
            (proj1 (delete_counts_the_removed_paths (start sim1) "delete_recursive"
                      [str "/d"; str "/e"]) ["/d"; "/e"] eq_refl))))
            (fun w => forall c, failing w c = false) _) _).
  - intros c. reflexivity.
  - intros path w Hw. split.
    + intros c. exact (Hw c).
    + cbn. rewrite Hw. reflexivity.
Defined.

(** X12: [is_mounted] only looks: behind the scan of the mount table it
    changes nothing, and it never aborts on a non-empty mount point.  It
    agrees with [unmount] from the same updater: it returns the mount point
    exactly when [unmount] returns it, and the empty string exactly when
    [unmount] returns null. *)
Theorem is_mounted_agrees_with_unmount {W : Type} {LC : Libc W} {MT : Mounts W}
  (u : Updater W) (name name' mount_point : string) :
  empty mount_point = false ->
  let q := IsMountedFn name [str mount_point] u in
  let r := UnmountFn name' [str mount_point] u in
  snd q = mkUpdater (state u) (cmd_pipe u) (snd (scan_mounted_volumes (world u))) /\
  (fst q = Some (StringValue mount_point) \/ fst q = Some (StringValue "")) /\
  (fst q = Some (StringValue mount_point) <-> fst r = Some (StringValue mount_point)) /\
  (fst q = Some (StringValue "") <-> fst r = None).
Proof.
  intros He. cbv zeta.
  assert (Hne : Some (StringValue mount_point) <> Some (StringValue "")).
  { intros E. injection E as E. subst mount_point. discriminate He. }
  unfold IsMountedFn, UnmountFn.
  cbn [List.length Nat.eqb negb ReadArgs ReadArgsRange Nat.ltb Nat.leb Nat.add
       skipn firstn all_some Evaluate str StringValue].
  unfold arg. cbn [nth]. rewrite He. unfold_m. cbv beta.
  destruct (scan_mounted_volumes (world u)) as [b w1]. step.
  destruct (find_mounted_volume_by_mount_point mount_point w1) as [vol|]; step.
  - destruct (unmount_mounted_volume vol w1) as [r w2]. step.
    destruct (negb (r =? 0)%Z); ui_both; step;
      (split; [reflexivity|]); (split; [left; reflexivity|]);
      (split; split; intros H; try reflexivity; try discriminate H;
       try (exfalso; exact (Hne H)); try (symmetry in H; exfalso; exact (Hne H))).
  - ui_both. step.
    split; [reflexivity|]. split; [right; reflexivity|].
    split; split; intros H; try reflexivity; try discriminate H;
      try (exfalso; exact (Hne H)); try (symmetry in H; exfalso; exact (Hne H)).
Qed.

Lemma is_mounted_agrees_with_unmount_witness :
  fst (IsMountedFn "is_mounted" [str "/system"] (start sim1)) =
  Some (StringValue "/system") /\
  fst (IsMountedFn "is_mounted" [str "/data"] (start sim1)) = Some (StringValue "") /\
  fst (UnmountFn "unmount" [str "/data"] (start sim1)) = None.
Proof.
  split; [reflexivity|].
  destruct (is_mounted_agrees_with_unmount (start sim1) "is_mounted" "unmount" "/data"
              eq_refl) as [_ [_ [_ [H _]]]].
  split; [reflexivity | apply H; reflexivity].
Defined.

(** ** Parsed permissions *)

Section ParsePermArgsProperties.
Context {W : Type} {LC : Libc W}.







End ParsePermArgsProperties.



Example ParsePermArgs_wraps_the_owner :
  fst (ParsePermArgs ["/d"; "uid"; "-1"; "gid"; "4294967297"; "luid"; "7"] (start sim1)) =
  set_gid 1 (set_uid 4294967295 perm_zero).
Proof. reflexivity. Qed.

Section ApplyParsedPermsProperties.
Context {W : Type} {LC : Libc W} {SE : Selinux W}.






End ApplyParsedPermsProperties.


Example ApplyParsedPerms_on_a_link :
  trace (world (snd (ApplyParsedPerms "/d/l" (mkStat 0xA1FF 0)
                       (set_selabel "u:object_r:system_file:s0"
                          (set_mode 420 (set_uid 0 perm_zero)))
                       (start sim1)))) =
  [mkCall "lsetfilecon" ["/d/l"; "u:object_r:system_file:s0"]].
Proof. reflexivity. Qed.



Example capabilities_of_a_file :
  trace (world (snd (ApplyParsedPerms "/d/a" (mkStat mode_file 0)
                       (set_capabilities 4294967301 perm_zero) (start sim1)))) =
  [mkCall "setxattr" ["/d/a"; "security.capability"; "5"; "1"]].
Proof. reflexivity. Qed.

(** ** The walk of set_metadata_recursive *)

Section WalkProperties.
Context {W : Type} {LC : Libc W} {SE : Selinux W}.

(** An error of the walk itself shows only behind the last entry. *)
Lemma nftw_walk_error_at_end (fn : string -> stat -> M W Z)
  (entries : list (string * stat)) (u : Updater W) :
  fst (nftw_walk fn entries false u) = 0%Z ->
  nftw_walk fn entries true u = ((-1)%Z, snd (nftw_walk fn entries false u)).
Proof.
  revert u. induction entries as [|[fpath sb] rest IH]; intros u; [reflexivity|].
  cbn [nftw_walk]. unfold bind, ret.
  destruct (fn fpath sb u) as [r u1].
  destruct (Z.eqb_spec r 0) as [->|Hr]; cbn [negb fst snd].
  - apply IH.
  - intros E. contradiction.
Qed.

Lemma SetMetadata_bad_walk_error (args : list string) (sb : stat)
  (parsed : perm_parsed_args) (u : Updater W) :
  let entries := fst (ftw_entries (arg args 0) (world u)) in
  let walk := nftw_walk (do_SetMetadataRecursive parsed) entries false u in
  snd (ftw_entries (arg args 0) (world u)) = true ->
  fst walk = 0%Z ->
  SetMetadata_bad "set_metadata_recursive" args sb parsed u = ((-1)%Z, snd walk).
Proof.
  cbv zeta. intros Herr Hwalk. unfold SetMetadata_bad.
  rewrite String.eqb_refl. unfold nftw. unfold bind, observe, ret. cbv beta.
  rewrite Herr, (nftw_walk_error_at_end _ _ _ Hwalk). reflexivity.
Qed.

End WalkProperties.

(** X16: when the tree walk of [set_metadata_recursive] ends in an error
    of its own and no attribute application on the entries it visited has
    failed, the failure count of the call is -1, and the call returns the
    empty string as on success: only a positive count is an abort. *)
Theorem set_metadata_recursive_ignores_walk_error {W : Type} {LC : Libc W}
  {SE : Selinux W} (u : Updater W) (argv : list Expr) (args : list string) (sb : stat) :
  Nat.odd (List.length argv) = true ->
  ReadArgs argv = Some args ->
  fst (sys_lstat (arg args 0) (world u)) = Some sb ->
  let u1 := mkUpdater (state u) (cmd_pipe u) (snd (sys_lstat (arg args 0) (world u))) in
  let p := ParsePermArgs args u1 in
  let entries := fst (ftw_entries (arg args 0) (world (snd p))) in
  let walk := nftw_walk (do_SetMetadataRecursive (fst p)) entries false (snd p) in
  snd (ftw_entries (arg args 0) (world (snd p))) = true ->
  fst walk = 0%Z ->
  fst (SetMetadata_bad "set_metadata_recursive" args sb (fst p) (snd p)) = (-1)%Z /\
  SetMetadataFn "set_metadata_recursive" argv u = (Some (StringValue ""), snd walk).
Proof.
  intros Hodd Hargs Hstat. cbv zeta. intros Herr Hwalk.
  pose proof (SetMetadata_bad_walk_error args sb _ _ Herr Hwalk) as Hbad.
  cbv zeta in Hbad. split; [rewrite Hbad; reflexivity|].
  unfold SetMetadataFn. rewrite odd_mod2, Hodd, Hargs. cbn [negb].
  unfold bind at 1. unfold call at 1.
  destruct (sys_lstat (arg args 0) (world u)) as [st w1].
  cbn [fst snd] in *. subst st.
  unfold bind at 1.
  destruct (ParsePermArgs args _) as [parsed u2]. cbn [fst snd] in *.
  unfold bind at 1. rewrite Hbad. reflexivity.
Qed.

Lemma set_metadata_recursive_ignores_walk_error_witness :
  @SetMetadata_bad Sim Sim_Libc_walk_error Sim_Selinux "set_metadata_recursive"
    ["/d"; "uid"; "0"] (mkStat mode_dir 0) (set_uid 0 perm_zero) (start sim1) =
  ((-1)%Z,
   snd (@SetMetadataFn Sim Sim_Libc_walk_error Sim_Selinux "set_metadata_recursive"
          [str "/d"; str "uid"; str "0"] (start sim1))) /\
  fst (@SetMetadataFn Sim Sim_Libc_walk_error Sim_Selinux "set_metadata_recursive"
         [str "/d"; str "uid"; str "0"] (start sim1)) = Some (StringValue "").
Proof.
  destruct (@set_metadata_recursive_ignores_walk_error Sim Sim_Libc_walk_error
              Sim_Selinux (start sim1) [str "/d"; str "uid"; str "0"]
              ["/d"; "uid"; "0"] (mkStat mode_dir 0) eq_refl eq_refl eq_refl
              eq_refl eq_refl) as [_ H].
  split; [reflexivity | rewrite H; reflexivity].
Defined.

(** ** Property files *)

(** X17: [file_getprop] checks before it reads.  A file that cannot be
    examined, or one of more than 65536 bytes, is an abort of the
    file-getprop kind and the file is never opened; a file of exactly 65536
    bytes is read.  A file that cannot be opened is an abort of the
    file-open kind.  Once the file is open it is closed again on every
    path: behind a short read, which is an abort of the read kind, and
    behind a full read, whose buffer gives the value. *)
Theorem file_getprop_checks_before_reading {W : Type} {AB : AndroidBase W}
  {LC : Libc W} {IO : OtaIo W} (u : Updater W) (name filename key : string) :
  let s := sys_stat filename (world u) in
  let r := FileGetPropFn name [str filename; str key] u in
  (fst s = None -> hard_abort kFileGetPropFailure r /\ world (snd r) = snd s) /\
  (forall st, fst s = Some st ->
     ((65536 < st_size st)%Z ->
      hard_abort kFileGetPropFailure r /\ world (snd r) = snd s) /\
     ((st_size st <= 65536)%Z ->
      let f := ota_fopen filename "rb" (snd s) in
      (fst f = None -> hard_abort kFileOpenFailure r /\ world (snd r) = snd f) /\
      (forall file, fst f = Some file ->
         let rd := ota_fread (st_size st) file (snd f) in
         world (snd r) = snd (ota_fclose file (snd rd)) /\
         (fst (fst rd) <> st_size st -> hard_abort kFreadFailure r) /\
         (fst (fst rd) = st_size st ->
          fst r = Some (StringValue
                          (file_getprop_lines key (Split_newline (snd (fst rd))))) /\
          state (snd r) = state u)))).
Proof.
  cbv zeta. unfold hard_abort, FileGetPropFn.
  cbn [List.length Nat.eqb negb ReadArgs ReadArgsRange Nat.ltb Nat.leb Nat.add
       skipn firstn all_some Evaluate str StringValue].
  unfold arg. cbn [nth]. unfold MAX_FILE_GETPROP_SIZE. unfold_m. cbv beta.
  destruct (sys_stat filename (world u)) as [st0 w1]. step. split.
  - intros ->. repeat split.
  - intros st ->. split.
    + intros Hbig. apply Z.ltb_lt in Hbig. rewrite Hbig. repeat split.
    + intros Hsmall. apply Z.ltb_ge in Hsmall. rewrite Hsmall. step.
      destruct (ota_fopen filename "rb" w1) as [f0 w2]. step. split.
      * intros ->. step. repeat split.
      * intros file ->. step.
        destruct (ota_fread (st_size st) file w2) as [[n buffer] w3]. step.
        destruct (Z.eqb_spec n (st_size st)) as [E|E]; step;
          destruct (ota_fclose file w3) as [c w4]; step;
          (split; [reflexivity|]); split; intros H;
          first [contradiction | repeat split].
Qed.

Lemma file_getprop_checks_before_reading_witness :
  trace (world (snd (FileGetPropFn "file_getprop" [str "/d/a"; str "ro.build.id"]
                       (start sim1)))) =
  [mkCall "ota_fopen" ["/d/a"]; mkCall "ota_fread" ["/d/a"]; mkCall "ota_fclose" ["/d/a"]].
Proof.
  pose proof (proj2 (file_getprop_checks_before_reading (start sim1) "file_getprop"
                       "/d/a" "ro.build.id") (mkStat mode_file 0)) as H0.
  cbv zeta in H0.
  assert (Hst : fst (sys_stat "/d/a" (world (start sim1))) = Some (mkStat mode_file 0))
    by reflexivity.
  destruct (H0 Hst) as [_ Hread].
  assert (Hs : (st_size (mkStat mode_file 0) <= 65536)%Z) by (cbn; lia).
  destruct (Hread Hs) as [_ Hopen].
  assert (Hf : fst (ota_fopen "/d/a" "rb" (snd (sys_stat "/d/a" (world (start sim1)))))
               = Some "/d/a") by reflexivity.
  destruct (Hopen "/d/a" Hf) as [H _].
  rewrite H. reflexivity.
Defined.

(** ** The UI operation *)

(** X18: [ui_print] joins its arguments without a separator before the
    text is cut into lines, so a line may run over several arguments: the
    commands sent are those of the non-empty lines of the joined text, each
    line up to its first NUL byte; the value is the whole joined text with
    its newlines and NUL bytes, and nothing else changes.  An argument that
    cannot be read is an argument error and nothing is sent. *)
Theorem ui_print_joins_its_arguments {W : Type} (u : Updater W) (name : string)
  (argv : list Expr) :
  (forall args, ReadArgs argv = Some args ->
     let buffer := String.concat "" args in
     UIPrintFn name argv u =
     (Some (StringValue buffer),
      mkUpdater (state u)
        (cmd_pipe u ++
         map ui_print_command
           (filter (fun l => negb (empty l)) (Split_newline buffer)))%list
        (world u))) /\
  (ReadArgs argv = None ->
   aborts_untouched kArgsParsingFailure u (UIPrintFn name argv u)).
Proof.
  unfold UIPrintFn. split.
  - intros args Hargs. cbv zeta. rewrite Hargs. unfold bind, ret, uiPrint.
    pose proof (uiPrint_lines_pipe (Split_newline (String.concat "" args)) u) as Hp.
    destruct (uiPrint_lines_frame (Split_newline (String.concat "" args)) u)
      as [_ [Hs Hw]].
    destruct (uiPrint_lines (Split_newline (String.concat "" args)) u) as [t [s p w]].
    cbn [fst snd state cmd_pipe world] in *. subst s p w. reflexivity.
  - intros Hargs. rewrite Hargs. unfold aborts_untouched, hard_abort.
    repeat split.
Qed.

Example ui_print_argument_with_nul :
  UIPrintFn "ui_print" [str ("ab" ++ String NUL "cd")] (start sim0) =
  (Some (StringValue ("ab" ++ String NUL "cd")),
   mkUpdater (state (start sim0)) ["ui_print ab" ++ String "010" ""] sim0).
Proof. reflexivity. Qed.

Example ui_print_line_over_two_arguments :
  cmd_pipe (snd (UIPrintFn "ui_print"
                   [str "Patching "; str ("system" ++ nl ++ nl ++ "done"); str nl]
                   (start sim1))) =
  ["ui_print Patching system" ++ nl; "ui_print done" ++ nl].
Proof. reflexivity. Qed.

(** ** The registry *)

Section RegistryProperties.
Context {W : Type}.

Lemma FindFunction_none (table : list (string * Fn W)) (name : string) :
  FindFunction table name = None <-> ~ In name (map fst table).
Proof.
  induction table as [|[n fn] rest IH]; cbn [FindFunction map fst In].
  - tauto.
  - destruct (String.eqb_spec n name) as [E|E].
    + split; [discriminate | intros H; exfalso; apply H; left; exact E].
    + rewrite IH. tauto.
Qed.

Lemma FindFunction_in (table : list (string * Fn W)) (name : string) (fn : Fn W) :
  NoDup (map fst table) -> In (name, fn) table -> FindFunction table name = Some fn.
Proof.
  induction table as [|[n f] rest IH]; cbn [FindFunction map fst In]; [tauto|].
  intros Hnd Hin. inversion Hnd as [|? ? Hn Hrest]. subst.
  destruct (String.eqb_spec n name) as [E|E].
  - destruct Hin as [Hin|Hin]; [congruence|].
    exfalso. apply Hn. subst n. exact (in_map fst _ _ Hin).
  - destruct Hin as [Hin|Hin]; [congruence|]. now apply IH.
Qed.

End RegistryProperties.

(** X19: the registry holds 31 names and none of them twice, so no
    registration hides another: every handler is the one found under its
    name, and a call under that name runs it with the name it was called
    by.  A name that was not registered finds nothing. *)
Theorem registry_names_are_unique {W : Type} {AB : AndroidBase W}
  {BM : BootloaderMessage W} {LC : Libc W} {SE : Selinux W} {MT : Mounts W}
  {ZA : ZipArchive W} {IO : OtaIo W} {AP : ApplyPatch W} {FT : FsTools W} :
  let table : list (string * Fn W) := RegisterInstallFunctions in
  NoDup (map fst table) /\
  List.length table = 31%nat /\
  (forall name fn argv,
     In (name, fn) table -> call_operation name argv = Some (fn name argv)) /\
  (forall name argv,
     call_operation name argv = None <-> ~ In name (map fst table)).
Proof.
  cbv zeta.
  assert (Hnd : NoDup (map fst (RegisterInstallFunctions (W := W)))).
  { cbn [RegisterInstallFunctions map fst].
    repeat (constructor;
            [cbn [In]; intros H;
             repeat (destruct H as [H|H]; [discriminate H|]); exact H|]).
    constructor. }
  split; [exact Hnd|]. split; [reflexivity|]. split.
  - intros name fn argv Hin. unfold call_operation.
    rewrite (FindFunction_in _ name fn Hnd Hin). reflexivity.
  - intros name argv. unfold call_operation.
    rewrite <- FindFunction_none.
    destruct (FindFunction RegisterInstallFunctions name); split; intros H;
      first [reflexivity | discriminate H].
Qed.

(** ** The stage field *)

Lemma strlcpy_layout (dst src : list ascii) (m : nat) :
  (S m <= List.length dst)%nat ->
  let k := Nat.min (List.length src) m in
  let field := strlcpy dst src (S m) in
  List.length field = List.length dst /\
  firstn k field = firstn k src /\
  nth_error field k = Some NUL /\
  skipn (S k) field = skipn (S k) dst.
Proof.
  intros Hm. cbv zeta. unfold strlcpy.
  set (k := Nat.min (List.length src) m).
  assert (Hk : List.length (firstn k src) = k).
  { rewrite length_firstn. unfold k. lia. }
  assert (Hkm : (k <= m)%nat) by (unfold k; lia).
  split; [|split; [|split]].
  - rewrite length_app, Hk. cbn [List.length]. rewrite length_skipn. lia.
  - rewrite firstn_app, Hk, Nat.sub_diag. cbn [firstn]. rewrite app_nil_r.
    rewrite firstn_firstn, Nat.min_id. reflexivity.
  - rewrite nth_error_app2 by lia. rewrite Hk, Nat.sub_diag. reflexivity.
  - rewrite skipn_app, Hk. rewrite skipn_all2 by lia.
    replace (S k - k)%nat with 1%nat by lia. reflexivity.
Qed.

(** X20: [set_stage] keeps the layout of the record: the stage field it
    writes back is as long as the one it read, starts with the first 31
    bytes at most of the token, has its terminator right behind them, and
    keeps the old bytes behind the terminator, which are not cleared. *)
Theorem set_stage_keeps_the_layout {W : Type} {BM : BootloaderMessage W}
  (u : Updater W) (name path token : string) (boot : bootloader_message) :
  read_bootloader_message_from path (world u) = Some boot ->
  List.length (stage boot) = sizeof_stage ->
  let k := Nat.min (List.length (c_str token)) 31 in
  exists field,
    List.length field = sizeof_stage /\
    firstn k field = firstn k (c_str token) /\
    nth_error field k = Some NUL /\
    skipn (S k) field = skipn (S k) (stage boot) /\
    SetStageFn name [str path; str token] u =
    (let (ok, w) :=
       write_bootloader_message_to
         (mkBootloaderMessage (command boot) (status boot) (recovery boot) field
            (reserved boot)) path (world u) in
     (Some (StringValue (if ok then path else "")),
      mkUpdater (state u) (cmd_pipe u) w)).
Proof.
  intros Hread Hlen. cbv zeta.
  exists (strlcpy (stage boot) (c_str token) sizeof_stage).
  assert (Hm : (sizeof_stage <= List.length (stage boot))%nat) by (rewrite Hlen; lia).
  destruct (strlcpy_layout (stage boot) (c_str token) 31 Hm) as [H1 [H2 [H3 H4]]].
  cbv zeta in *. fold sizeof_stage in H1, H2, H3, H4.
  split; [now rewrite H1|]. split; [exact H2|]. split; [exact H3|].
  split; [exact H4|].
  unfold SetStageFn.
  cbn [List.length Nat.eqb negb ReadArgs ReadArgsRange Nat.ltb Nat.leb Nat.add
       skipn firstn all_some Evaluate str StringValue].
  unfold arg. cbn [nth]. unfold_m. cbv beta. rewrite Hread.
  destruct (write_bootloader_message_to _ path (world u)) as [ok w1].
  destruct ok; reflexivity.
Qed.

Lemma set_stage_keeps_the_layout_witness :
  exists field,
    List.length field = 32%nat /\
    firstn 3 field = ["2"; "/"; "3"]%char /\
    nth_error field 3 = Some NUL.
Proof.
  assert (Hread : read_bootloader_message_from "/dev/block/misc" (world (start sim1))
                  = Some boot0) by reflexivity.
  assert (Hlen : List.length (stage boot0) = sizeof_stage) by reflexivity.
  destruct (set_stage_keeps_the_layout (start sim1) "set_stage" "/dev/block/misc"
              "2/3" boot0 Hread Hlen) as [field [H1 [H2 [H3 _]]]].
  exists field. split; [exact H1|]. split; [exact H2 | exact H3].
Defined.

(** ** Wiping a block device *)

(** X21: [wipe_block_device] with a length that does not parse returns
    null without raising an abort and without touching the device.  With a
    length that parses, a device that cannot be opened does not stop it:
    the wipe is called with the descriptor as [ota_open] returned it, its
    status alone decides between "t" and the empty string, and only a
    descriptor that was opened is closed. *)
Theorem wipe_block_device_edge_cases {W : Type} {AB : AndroidBase W} {LC : Libc W}
  {IO : OtaIo W} {FT : FsTools W} (u : Updater W) (name filename len_str : string) :
  let r := WipeBlockDeviceFn name [str filename; str len_str] u in
  (ParseUint len_str = None -> r = (None, u)) /\
  (forall len, ParseUint len_str = Some len ->
     let o := ota_open filename O_WRONLY 420 (world u) in
     let wiped := wipe_block_device (fst o) len (snd o) in
     fst r = Some (StringValue (if (fst wiped =? 0)%Z then "t" else "")) /\
     state (snd r) = state u /\ cmd_pipe (snd r) = cmd_pipe u /\
     world (snd r) =
       if (fst o =? -1)%Z then snd wiped else snd (ota_close (fst o) (snd wiped))).
Proof.
  cbv zeta. unfold WipeBlockDeviceFn.
  cbn [List.length Nat.eqb negb ReadArgs ReadArgsRange Nat.ltb Nat.leb Nat.add
       skipn firstn all_some Evaluate str StringValue].
  unfold arg. cbn [nth]. split.
  - intros ->. reflexivity.
  - intros len ->. unfold_m. cbv beta.
    destruct (ota_open filename O_WRONLY 420 (world u)) as [fd w1]. step.
    destruct (wipe_block_device fd len w1) as [status w2]. step.
    destruct (fd =? -1)%Z; step.
    + repeat split.
    + destruct (ota_close fd w2) as [c w3]. step. repeat split.
Qed.

Lemma wipe_block_device_edge_cases_witness :
  WipeBlockDeviceFn "wipe_block_device" [str "/dev/block/userdata"; str "-1"]
    (start sim1) = (None, start sim1).
Proof.
  refine (proj1 (wipe_block_device_edge_cases (start sim1) "wipe_block_device"
                   "/dev/block/userdata" "-1") _).
  reflexivity.
Defined.

Example wipe_block_device_unopened :
  let r := WipeBlockDeviceFn "wipe_block_device" [str "/dev/block/userdata"; str "4096"]
             (start (sim_failing (fails_fn "ota_open"))) in
  fst r = Some (StringValue "t") /\
  trace (world (snd r)) =
  [mkCall "ota_open" ["/dev/block/userdata"];
   mkCall "wipe_block_device" ["-1"; "4096"]].
Proof. split; reflexivity. Qed.
